(** * Session and refresh-token lifecycle of the habit tracker backend

    A shallow embedding of [app/auth/auth.py], [app/auth/router.py],
    [app/auth/dependencies.py], [app/auth/models.py], [app/dao/base.py] and
    [app/exceptions.py].

    The PostgreSQL tables are lists of rows in storage order, together with
    the primary-key sequence of the [refreshtokens] table.  Every coroutine
    that takes an [AsyncSession] becomes a function in the monad [M]: it
    receives the database, and returns the database it leaves behind together
    with either its return value or the exception it raises.

    Timestamps are integers counting microseconds since the epoch.  One
    reading [now] of the clock is handed to every operation; it stands both
    for Python's [datetime.now(UTC)] and for the server's [func.now()].

    What the code takes from its libraries enters as parameters: the
    signing and the signature check of [jose], the password check, and the
    driver's reading of a text as a UUID. *)

From Stdlib Require Import ZArith List String Ascii Bool Lia Sorted Permutation.
Import ListNotations.

Open Scope string_scope.
Open Scope Z_scope.
Open Scope list_scope.

(** ** Python and SQL values *)

(** [bool(s)] of a Python [str]. *)
Definition str_truthy (s : string) : bool := negb (String.eqb s "").

(** [bool(x)] of a value that is [None] or a [str]. *)
Definition opt_truthy (o : option string) : bool :=
  match o with
  | Some s => str_truthy s
  | None => false
  end.

(** [a or b] on values that are [None] or a [str]. *)
Definition py_or (a b : option string) : option string :=
  if opt_truthy a then a else b.

(** [c in s] for a one-character needle. *)
Fixpoint str_contains (c : ascii) (s : string) : bool :=
  match s with
  | EmptyString => false
  | String d s' => Ascii.eqb c d || str_contains c s'
  end.

(** SQLAlchemy's [column == value] on a nullable text column: a string is
    compared with [=], which no NULL satisfies, and [None] renders as
    [IS NULL]. *)
Definition sql_eq_str (col : option string) (value : option string) : bool :=
  match value, col with
  | Some v, Some s => String.eqb s v
  | Some _, None => false
  | None, Some _ => false
  | None, None => true
  end.

Definition usec_per_second : Z := 1000000.

(** [timedelta(days=d)] and [timedelta(minutes=m)] in microseconds. *)
Definition timedelta_days (d : Z) : Z := d * 86400 * usec_per_second.
Definition timedelta_minutes (m : Z) : Z := m * 60 * usec_per_second.

(** ** app/auth/models.py, app/dao/database.py *)

Module User.
Record t := mk {
  id : Z;
  created_at : Z;
  updated_at : Z;
  username : string;
  first_name : option string;
  email : string;
  password : string;
  role_id : Z;
  public_id : string
}.
End User.

Module RefreshToken.
Record t := mk {
  id : Z;
  created_at : Z;
  updated_at : Z;
  user_id : Z;
  token : string;
  expires_at : Z;
  is_revoked : bool;
  user_agent : option string;
  ip_address : option string
}.

(** The assignment of [.values(is_revoked=True)]; the UPDATE statement also
    carries the [onupdate=func.now()] default of [updated_at]. *)
Definition revoke (now : Z) (r : t) : t :=
  mk (id r) (created_at r) now (user_id r) (token r) (expires_at r)
     true (user_agent r) (ip_address r).
End RefreshToken.

Record Database := mkDatabase {
  users : list User.t;
  refreshtokens : list RefreshToken.t;
  refreshtokens_id_seq : Z
}.

Definition with_refreshtokens (db : Database) (rows : list RefreshToken.t) : Database :=
  mkDatabase (users db) rows (refreshtokens_id_seq db).

(** ** app/exceptions.py *)

Record HTTPException := mkHTTP { status_code : Z; detail : string }.

Definition IncorrectEmailOrPasswordException := mkHTTP 401 "Invalid email or password".
Definition TokenExpiredException := mkHTTP 401 "Token expired".
Definition TokenNoFound := mkHTTP 401 "Token expired".
Definition NoJwtException := mkHTTP 401 "Invalid token!".
Definition NoUserIdException := mkHTTP 401 "User ID not found".
Definition ForbiddenException := mkHTTP 403 "Insufficient permissions!".
Definition NoRefreshTokenException := mkHTTP 401 "Refresh token is missing".
Definition NoValidRefreshTokenException := mkHTTP 401 "Invalid or expired refresh token".
Definition NoSessionException :=
  mkHTTP 404 "Session not found or does not belong to the current user".
Definition MaxSessionsException :=
  mkHTTP 400 "The maximum number of sessions must be at least 1".
Definition UserNotFoundException := mkHTTP 401 "User not found".

(** What a handler can raise: the categorised HTTP errors above, or an
    exception nothing in the application catches. *)
Inductive exn :=
| HTTP (e : HTTPException)
| AttributeError
| TypeError
| ValueError
| IntegrityError
| MultipleResultsFound
| DBAPIError.

(** ** The session monad *)

Inductive result (A : Type) :=
| Return (a : A)
| Raise (e : exn).
Arguments Return {A} a.
Arguments Raise {A} e.

Definition M (A : Type) : Type := Database -> Database * result A.

Definition ret {A} (a : A) : M A := fun db => (db, Return a).
Definition raise {A} (e : exn) : M A := fun db => (db, Raise e).
Definition bind {A B} (c : M A) (k : A -> M B) : M B :=
  fun db =>
    match c db with
    | (db', Return a) => k a db'
    | (db', Raise e) => (db', Raise e)
    end.

Notation "x <- c ;; k" := (bind c (fun x => k))
  (at level 61, c at next level, right associativity).
Notation "c ;;; k" := (bind c (fun _ => k))
  (at level 61, right associativity).

(** ** SQL statements on the refreshtokens table *)

Definition count_where {A} (p : A -> bool) (rows : list A) : Z :=
  Z.of_nat (List.length (filter p rows)).

(** [update(RefreshToken).where(p).values(is_revoked=True)]: every matching
    row is rewritten, and [rowcount] is the number of rows the WHERE clause
    matched, as PostgreSQL reports it, whether or not a row's values
    changed. *)
Definition update_revoke (p : RefreshToken.t -> bool) (now : Z) : M Z :=
  fun db =>
    (with_refreshtokens db
       (map (fun r => if p r then RefreshToken.revoke now r else r) (refreshtokens db)),
     Return (count_where p (refreshtokens db))).

(** [delete(RefreshToken).where(p)]. *)
Definition delete_where (p : RefreshToken.t -> bool) : M Z :=
  fun db =>
    (with_refreshtokens db (filter (fun r => negb (p r)) (refreshtokens db)),
     Return (count_where p (refreshtokens db))).

(** [select(RefreshToken).where(p)], rows in storage order. *)
Definition select_where (p : RefreshToken.t -> bool) : M (list RefreshToken.t) :=
  fun db => (db, Return (filter p (refreshtokens db))).

(** [session.add(row)] flushed by [session.commit()]: the row receives the
    next value of the id sequence and the server defaults of [created_at] and
    [updated_at].  The foreign key [ForeignKey("users.id")] of [user_id]
    refuses an owner that is not the id of a stored user, and the unique index
    on [token] refuses a duplicate; both violations are an [IntegrityError]. *)
Definition insert_refresh_token
    (user_id : Z) (token : string) (expires_at : Z)
    (user_agent ip_address : option string) (now : Z)
  : M RefreshToken.t :=
  fun db =>
    if negb (existsb (fun u => User.id u =? user_id) (users db))
       || existsb (fun r => String.eqb (RefreshToken.token r) token) (refreshtokens db)
    then (db, Raise IntegrityError)
    else
      let row := RefreshToken.mk (refreshtokens_id_seq db) now now user_id token
                   expires_at false user_agent ip_address in
      (mkDatabase (users db) (refreshtokens db ++ [row]) (refreshtokens_id_seq db + 1),
       Return row).

(** The statements issued up to one [session.commit()] form a transaction:
    when one of them raises, none of them is applied. *)
Definition atomic {A} (c : M A) : M A :=
  fun db =>
    match c db with
    | (db', Return a) => (db', Return a)
    | (_, Raise e) => (db, Raise e)
    end.

(** ** app/dao/base.py *)

(** [result.scalar_one_or_none()]. *)
Definition scalar_one_or_none {A} (rows : list A) : result (option A) :=
  match rows with
  | [] => Return None
  | [x] => Return (Some x)
  | _ => Raise MultipleResultsFound
  end.

Module UsersDAO.
Definition find_one_or_none (p : User.t -> bool) : M (option User.t) :=
  fun db => (db, scalar_one_or_none (filter p (users db))).

(** [public_id] is a [UUID] column and the code filters it by the text of the
    [sub] claim.  The driver reads the text as a UUID before the statement is
    sent: [uuid_of_text] gives the canonical text of the UUID it denotes, the
    form in which [User.public_id] holds the column, and [None] where the text
    denotes no UUID and the call raises a [DBAPIError]. *)
Definition find_one_or_none_by_public_id
    (uuid_of_text : string -> option string) (data_public_id : string)
  : M (option User.t) :=
  match uuid_of_text data_public_id with
  | None => raise DBAPIError
  | Some public_id =>
      find_one_or_none (fun u => String.eqb (User.public_id u) public_id)
  end.
End UsersDAO.

(** ** app/config.py *)

Record Settings := mkSettings {
  ACCESS_TOKEN_EXPIRE_MINUTES : Z;
  REFRESH_TOKEN_EXPIRE_DAYS : Z
}.

Definition default_settings : Settings := mkSettings 15 7.

(** ** Transport values *)

(** The parts of a Starlette [Request] the code reads:
    [request.headers.get("user-agent")] and [request.client.host]
    ([client] is [None] when the server does not know the peer). *)
Record Request := mkRequest {
  header_user_agent : option string;
  client : option string
}.

(** The claims of an access token. *)
Record Claims := mkClaims {
  sub : option string;
  jti : option string;
  exp : option Z
}.

(** The values drawn from [secrets] while one pair of tokens is issued:
    [secrets.token_urlsafe(8)] and [secrets.token_urlsafe(64)]. *)
Record Entropy := mkEntropy {
  token_urlsafe_8 : string;
  token_urlsafe_64 : string
}.

(** app/auth/schemas.py *)
Record TokenResponse := mkTokenResponse {
  access_token : string;
  refresh_token : string;
  expires_in : Z
}.

Record RefreshTokenBody := mkRefreshTokenBody { body_token : string }.

Record SUserAuth := mkSUserAuth { email_username : string; auth_password : string }.

(** One entry of the list returned by [get_active_sessions]. *)
Record SessionInfo := mkSessionInfo {
  s_id : Z;
  s_user_agent : option string;
  s_ip_address : option string;
  s_created_at : Z;
  s_expires_at : Z
}.

(** ** Ordering and slicing *)

(** [ORDER BY created_at DESC]: rows created at the same instant keep their
    storage order. *)
Fixpoint insert_desc (x : RefreshToken.t) (l : list RefreshToken.t) : list RefreshToken.t :=
  match l with
  | [] => [x]
  | y :: l' =>
      if RefreshToken.created_at y <=? RefreshToken.created_at x
      then x :: y :: l'
      else y :: insert_desc x l'
  end.

Definition order_by_created_at_desc (l : list RefreshToken.t) : list RefreshToken.t :=
  fold_right insert_desc [] l.

(** The Python slice [l[n:]]: a negative [n] counts from the end. *)
Definition py_slice_from {A} (n : Z) (l : list A) : list A :=
  if 0 <=? n then skipn (Z.to_nat n) l
  else skipn (Z.to_nat (Z.of_nat (List.length l) + n)) l.

(** ** app/auth/auth.py *)

Section Auth.

Variable settings : Settings.
(** [jose.jwt.encode] under the configured key and algorithm. *)
Variable jwt_encode : Claims -> string.
(** [app.auth.utils.verify_password plain hashed]. *)
Variable verify_password : string -> string -> bool.

Definition create_access_token (subject : string) (rnd : Entropy) (now : Z) : string :=
  let expire := now + timedelta_minutes (ACCESS_TOKEN_EXPIRE_MINUTES settings) in
  jwt_encode (mkClaims (Some subject) (Some (token_urlsafe_8 rnd))
                       (Some (expire / usec_per_second))).

Definition create_refresh_token (rnd : Entropy) : string := token_urlsafe_64 rnd.

Definition authenticate_user (email_username password : string) : M (option User.t) :=
  user <- (if str_contains "@"%char email_username
           then UsersDAO.find_one_or_none
                  (fun u => String.eqb (User.email u) email_username)
           else UsersDAO.find_one_or_none
                  (fun u => String.eqb (User.username u) email_username)) ;;
  match user with
  | None => ret None
  | Some u =>
      if negb (verify_password password (User.password u)) then ret None
      else ret (Some u)
  end.

(** The WHERE clause of the revoke-same-device statement. *)
Definition same_device (user_id : Z) (user_agent : option string)
    (r : RefreshToken.t) : bool :=
  (RefreshToken.user_id r =? user_id)
  && sql_eq_str (RefreshToken.user_agent r) user_agent
  && negb (RefreshToken.is_revoked r).

Definition store_refresh_token
    (user_id : Z) (token : string) (request : option Request)
    (revoke_same_device : bool) (now : Z) : M RefreshToken.t :=
  let expires_at := now + timedelta_days (REFRESH_TOKEN_EXPIRE_DAYS settings) in
  let user_agent :=
    match request with Some rq => header_user_agent rq | None => None end in
  let ip_address :=
    match request with Some rq => client rq | None => None end in
  atomic
    ((if revoke_same_device && opt_truthy user_agent
      then update_revoke (same_device user_id user_agent) now
      else ret 0) ;;;
     insert_refresh_token user_id token expires_at user_agent ip_address now).

(** The WHERE clause of [validate_refresh_token]. *)
Definition is_valid (token : string) (now : Z) (r : RefreshToken.t) : bool :=
  String.eqb (RefreshToken.token r) token
  && negb (RefreshToken.is_revoked r)
  && (now <? RefreshToken.expires_at r).

Definition validate_refresh_token (token : string) (now : Z)
  : M (option RefreshToken.t) :=
  rows <- select_where (is_valid token now) ;;
  ret (hd_error rows).

Definition revoke_refresh_token (token : string) (now : Z) : M bool :=
  rowcount <- update_revoke (fun r => String.eqb (RefreshToken.token r) token) now ;;
  ret (0 <? rowcount).

(** Besides storing the refresh token, the source copies the pair into two
    cookies of the response; no stored row depends on them, and the model
    keeps the [TokenResponse] that carries the same pair.  The call of
    [store_refresh_token] leaves [revoke_same_device] at its default. *)
Definition set_auth_tokens
    (request : Request) (user_id : Z) (user_public_id : string)
    (rnd : Entropy) (now : Z) : M TokenResponse :=
  let access_token := create_access_token user_public_id rnd now in
  let refresh_token := create_refresh_token rnd in
  store_refresh_token user_id refresh_token (Some request) true now ;;;
  ret (mkTokenResponse access_token refresh_token
         (ACCESS_TOKEN_EXPIRE_MINUTES settings * 60)).

Definition revoke_all_user_refresh_tokens (user_id : Z) (now : Z) : M Z :=
  update_revoke
    (fun r => (RefreshToken.user_id r =? user_id) && negb (RefreshToken.is_revoked r))
    now.

(** The WHERE clause of [cleanup_expired_tokens]. *)
Definition expired_or_revoked (now : Z) (r : RefreshToken.t) : bool :=
  (RefreshToken.expires_at r <? now) || RefreshToken.is_revoked r.

Definition cleanup_expired_tokens (now : Z) : M Z :=
  delete_where (expired_or_revoked now).

(** The WHERE clause of [get_active_session_tokens]. *)
Definition is_active_of (user_id : Z) (now : Z) (r : RefreshToken.t) : bool :=
  (RefreshToken.user_id r =? user_id)
  && negb (RefreshToken.is_revoked r)
  && (now <? RefreshToken.expires_at r).

Definition get_active_session_tokens (user_id : Z) (now : Z)
  : M (list RefreshToken.t) :=
  rows <- select_where (is_active_of user_id now) ;;
  ret (order_by_created_at_desc rows).

Definition get_active_sessions (user_id : Z) (now : Z) : M (list SessionInfo) :=
  tokens <- get_active_session_tokens user_id now ;;
  ret (map (fun t => mkSessionInfo (RefreshToken.id t) (RefreshToken.user_agent t)
                       (RefreshToken.ip_address t) (RefreshToken.created_at t)
                       (RefreshToken.expires_at t))
           tokens).

(** The statement compares [id] with [token_id], which the driver sends as a
    value of the [Integer] column; the embedding covers the ids of that
    range.  The driver refuses any other id before the statement is sent. *)
Definition revoke_session_by_id (token_id user_id : Z) (now : Z) : M bool :=
  rowcount <- update_revoke
                (fun r => (RefreshToken.id r =? token_id)
                          && (RefreshToken.user_id r =? user_id))
                now ;;
  ret (0 <? rowcount).

(** SQL [id IN (ids)]. *)
Definition id_in (ids : list Z) (r : RefreshToken.t) : bool :=
  existsb (Z.eqb (RefreshToken.id r)) ids.

Definition limit_active_sessions (user_id : Z) (max_sessions : Z) (now : Z) : M Z :=
  tokens <- get_active_session_tokens user_id now ;;
  if max_sessions <? Z.of_nat (List.length tokens) then
    let tokens_to_revoke := py_slice_from max_sessions tokens in
    let token_ids := map RefreshToken.id tokens_to_revoke in
    update_revoke (id_in token_ids) now
  else ret 0.

End Auth.

(** ** app/auth/dependencies.py *)

Section Dependencies.

(** [jose.jwt.decode] under the configured key and algorithm, at the time of
    the call: the claims, or [None] where it raises a [JWTError]. *)
Variable jwt_decode : string -> Z -> option Claims.
(** The driver's reading of a text as a UUID. *)
Variable uuid_of_text : string -> option string.

(** The instants [datetime.fromtimestamp(_, tz=UTC)] can represent, in
    seconds: years 1 to 9999. *)
Definition min_timestamp : Z := -62135596800.
Definition max_timestamp : Z := 253402300799.

Definition get_current_user (token : string) (now : Z) : M User.t :=
  match jwt_decode token now with
  | None => raise (HTTP NoJwtException)
  | Some payload =>
      let expire := exp payload in
      match expire with
      | None => raise TypeError
      | Some e =>
          if (e <? min_timestamp) || (max_timestamp <? e) then raise ValueError
          else
            let expire_time := e * usec_per_second in
            if (e =? 0) || (expire_time <? now)
            then raise (HTTP TokenExpiredException)
            else
              let user_public_id := sub payload in
              if negb (opt_truthy user_public_id)
              then raise (HTTP NoUserIdException)
              else
                user <- UsersDAO.find_one_or_none_by_public_id uuid_of_text
                          (match user_public_id with Some s => s | None => "" end) ;;
                match user with
                | None => raise (HTTP UserNotFoundException)
                | Some u => ret u
                end
      end
  end.

Definition get_current_admin_user (current_user : User.t) : M User.t :=
  if existsb (Z.eqb (User.role_id current_user)) [3; 4]
  then ret current_user
  else raise (HTTP ForbiddenException).

End Dependencies.

(** [jose.jwt.decode] as the code calls it, with the default options, given
    [verified]: the claims of a token that passes the checks of the library
    other than the one of [exp], among them the signature under the
    configured key, and [None] for any other text.  An [exp] claim, when the
    token has one, is compared with the current time in whole seconds, and a
    token past it raises [ExpiredSignatureError], a [JWTError]; a token
    without [exp] passes. *)
Definition jwt_decode_default (verified : string -> option Claims)
    (token : string) (now : Z) : option Claims :=
  match verified token with
  | None => None
  | Some payload =>
      match exp payload with
      | Some e => if e <? now / usec_per_second then None else Some payload
      | None => Some payload
      end
  end.

(** [s.partition(" ")], without the separator: the text before the first
    space and the text after it; all of [s] and the empty string when [s] has
    no space. *)
Fixpoint partition_space (s : string) : string * string :=
  match s with
  | EmptyString => (EmptyString, EmptyString)
  | String c s' =>
      if Ascii.eqb c " "%char then (EmptyString, s')
      else let (before, after) := partition_space s' in (String c before, after)
  end.

(** [str.lower] on the letters A to Z.  The header value reaches the code
    decoded as Latin-1, where no other character lowers to a letter of
    ["bearer"], so the comparison below is the source's. *)
Definition lower_ascii (c : ascii) : ascii :=
  let n := nat_of_ascii c in
  if (Nat.leb 65 n && Nat.leb n 90)%bool then ascii_of_nat (n + 32) else c.

Fixpoint lower (s : string) : string :=
  match s with
  | EmptyString => EmptyString
  | String c s' => String (lower_ascii c) (lower s')
  end.

(** [get_token], given [request.headers.get("Authorization")] and
    [request.cookies.get("users_access_token")]. *)
Definition get_token (authorization users_access_token : option string)
  : result string :=
  let from_header :=
    if opt_truthy authorization then
      let (scheme, token) :=
        partition_space (match authorization with Some a => a | None => "" end) in
      if String.eqb (lower scheme) "bearer" then Some token else None
    else None in
  match from_header with
  | Some token => Return token
  | None =>
      if negb (opt_truthy users_access_token) then Raise (HTTP TokenNoFound)
      else Return (match users_access_token with Some t => t | None => "" end)
  end.

(** ** app/auth/router.py *)

Section Router.

Variable settings : Settings.
Variable jwt_encode : Claims -> string.
Variable verify_password : string -> string -> bool.

Definition auth_user (request : Request) (user_data : SUserAuth)
    (rnd : Entropy) (now : Z) : M TokenResponse :=
  user <- authenticate_user verify_password
            (email_username user_data) (auth_password user_data) ;;
  match user with
  | None => raise (HTTP IncorrectEmailOrPasswordException)
  | Some u =>
      set_auth_tokens settings jwt_encode request (User.id u) (User.public_id u) rnd now
  end.

Definition refresh_tokens (request : Request)
    (refresh_token : option string) (refresh_token_body : option RefreshTokenBody)
    (rnd : Entropy) (now : Z) : M TokenResponse :=
  let token_to_use :=
    py_or (match refresh_token_body with
           | Some b => Some (body_token b)
           | None => None
           end) refresh_token in
  match token_to_use with
  | None => raise (HTTP NoRefreshTokenException)
  | Some tok =>
      if negb (str_truthy tok) then raise (HTTP NoRefreshTokenException)
      else
        stored_token <- validate_refresh_token tok now ;;
        match stored_token with
        | None => raise (HTTP NoValidRefreshTokenException)
        | Some stored =>
            user <- UsersDAO.find_one_or_none
                      (fun u => User.id u =? RefreshToken.user_id stored) ;;
            match user with
            | None => raise AttributeError
            | Some u =>
                if negb (User.id u =? RefreshToken.user_id stored)
                then raise (HTTP NoValidRefreshTokenException)
                else
                  revoke_refresh_token tok now ;;;
                  set_auth_tokens settings jwt_encode request
                    (RefreshToken.user_id stored) (User.public_id u) rnd now
            end
        end
  end.

(** The two [response.delete_cookie] calls that follow touch no stored row. *)
Definition logout_user (user : User.t) (refresh_token : option string)
    (all_devices : bool) (now : Z) : M unit :=
  (if all_devices then
     revoke_all_user_refresh_tokens (User.id user) now ;;; ret tt
   else if opt_truthy refresh_token then
     revoke_refresh_token
       (match refresh_token with Some t => t | None => "" end) now ;;; ret tt
   else ret tt).

Definition list_active_sessions (user : User.t) (now : Z) : M (list SessionInfo) :=
  get_active_sessions (User.id user) now.

Definition revoke_session (session_id : Z) (user : User.t) (now : Z) : M unit :=
  success <- revoke_session_by_id session_id (User.id user) now ;;
  if negb success then raise (HTTP NoSessionException) else ret tt.

Definition limit_sessions (max_sessions : Z) (user : User.t) (now : Z) : M Z :=
  if max_sessions <? 1 then raise (HTTP MaxSessionsException)
  else limit_active_sessions (User.id user) max_sessions now.

Definition cleanup_expired_tokens_route (now : Z) : M Z :=
  cleanup_expired_tokens now.

End Router.

(** ** Routes behind their dependencies *)

(** [Depends(get_current_user)], itself depending on [get_token]: the
    dependencies are resolved, in this order, before the body of the route
    runs, and an exception raised by one of them ends the request. *)
Definition with_current_user {A}
    (jwt_decode : string -> Z -> option Claims)
    (uuid_of_text : string -> option string)
    (authorization users_access_token : option string) (now : Z)
    (route : User.t -> M A) : M A :=
  match get_token authorization users_access_token with
  | Raise e => raise e
  | Return token =>
      user <- get_current_user jwt_decode uuid_of_text token now ;;
      route user
  end.

(** [Depends(get_current_admin_user)]. *)
Definition with_current_admin_user {A}
    (jwt_decode : string -> Z -> option Claims)
    (uuid_of_text : string -> option string)
    (authorization users_access_token : option string) (now : Z)
    (route : User.t -> M A) : M A :=
  with_current_user jwt_decode uuid_of_text authorization users_access_token now
    (fun current_user =>
       user_data <- get_current_admin_user current_user ;;
       route user_data).

(** POST /cleanup_expired_tokens, as a request reaches it. *)
Definition cleanup_expired_tokens_request
    (jwt_decode : string -> Z -> option Claims)
    (uuid_of_text : string -> option string)
    (authorization users_access_token : option string) (now : Z) : M Z :=
  with_current_admin_user jwt_decode uuid_of_text authorization users_access_token now
    (fun _ => cleanup_expired_tokens_route now).

(** POST /sessions/limit, as a request reaches it. *)
Definition limit_sessions_request
    (jwt_decode : string -> Z -> option Claims)
    (uuid_of_text : string -> option string)
    (authorization users_access_token : option string)
    (max_sessions : Z) (now : Z) : M Z :=
  with_current_user jwt_decode uuid_of_text authorization users_access_token now
    (fun user => limit_sessions max_sessions user now).

(** DELETE /sessions/{session_id}, as a request reaches it. *)
Definition revoke_session_request
    (jwt_decode : string -> Z -> option Claims)
    (uuid_of_text : string -> option string)
    (authorization users_access_token : option string)
    (session_id : Z) (now : Z) : M unit :=
  with_current_user jwt_decode uuid_of_text authorization users_access_token now
    (fun user => revoke_session session_id user now).

(** * Vocabulary of the properties *)

(** The WHERE clause of [revoke_session_by_id]. *)
Definition owned_by (token_id user_id : Z) (r : RefreshToken.t) : bool :=
  (RefreshToken.id r =? token_id) && (RefreshToken.user_id r =? user_id).

(** [a] comes no later than [b] in newest-first order. *)
Definition newer_or_equal (a b : RefreshToken.t) : Prop :=
  RefreshToken.created_at b <= RefreshToken.created_at a.

(** The rows a successful [store_refresh_token] rewrites. *)
Definition revoked_by_store (revoke_same_device : bool) (user_id : Z)
    (user_agent : option string) (r : RefreshToken.t) : bool :=
  revoke_same_device && opt_truthy user_agent && same_device user_id user_agent r.

(** The rows a successful refresh rewrites: those carrying the presented
    secret, and those reached by the revoke-same-device statement of the
    store step. *)
Definition revoked_by_refresh (tok : string) (user_id : Z)
    (user_agent : option string) (r : RefreshToken.t) : bool :=
  String.eqb (RefreshToken.token r) tok
  || revoked_by_store true user_id user_agent r.

(** The secret [refresh_tokens] works with: the body's, else the cookie's. *)
Definition token_to_use (refresh_token : option string)
    (refresh_token_body : option RefreshTokenBody) : option string :=
  py_or (match refresh_token_body with
         | Some b => Some (body_token b)
         | None => None
         end) refresh_token.

(** Every row carrying the secret [token] is revoked. *)
Definition all_revoked (token : string) (rows : list RefreshToken.t) : Prop :=
  forall r, In r rows -> RefreshToken.token r = token -> RefreshToken.is_revoked r = true.

(** ** Histories of operations *)

(** The operations of the session store, of the lifecycle engine and of the
    routes in front of them. *)
Inductive operation :=
| Store (user_id : Z) (token : string) (request : option Request)
        (revoke_same_device : bool)
| Validate (token : string)
| RevokeBySecret (token : string)
| RevokeAll (user_id : Z)
| RevokeById (token_id user_id : Z)
| ListActive (user_id : Z)
| CapSessions (user_id max_sessions : Z)
| Cleanup
| Login (request : Request) (user_data : SUserAuth) (rnd : Entropy)
| Refresh (request : Request) (cookie : option string)
          (body : option RefreshTokenBody) (rnd : Entropy)
| Logout (user : User.t) (cookie : option string) (all_devices : bool)
| RevokeSession (session_id : Z) (user : User.t)
| LimitSessions (max_sessions : Z) (user : User.t).

Section Histories.

Variable settings : Settings.
Variable jwt_encode : Claims -> string.
Variable verify_password : string -> string -> bool.

(** The database an operation leaves when it runs at time [now]. *)
Definition perform (op : operation) (now : Z) (db : Database) : Database :=
  match op with
  | Store user_id token request flag =>
      fst (store_refresh_token settings user_id token request flag now db)
  | Validate token => fst (validate_refresh_token token now db)
  | RevokeBySecret token => fst (revoke_refresh_token token now db)
  | RevokeAll user_id => fst (revoke_all_user_refresh_tokens user_id now db)
  | RevokeById token_id user_id => fst (revoke_session_by_id token_id user_id now db)
  | ListActive user_id => fst (get_active_sessions user_id now db)
  | CapSessions user_id max_sessions =>
      fst (limit_active_sessions user_id max_sessions now db)
  | Cleanup => fst (cleanup_expired_tokens now db)
  | Login request user_data rnd =>
      fst (auth_user settings jwt_encode verify_password request user_data rnd now db)
  | Refresh request cookie body rnd =>
      fst (refresh_tokens settings jwt_encode request cookie body rnd now db)
  | Logout user cookie all_devices => fst (logout_user user cookie all_devices now db)
  | RevokeSession session_id user => fst (revoke_session session_id user now db)
  | LimitSessions max_sessions user => fst (limit_sessions max_sessions user now db)
  end.

(** A history is a sequence of operations, each with the time it runs at. *)
Fixpoint run (history : list (operation * Z)) (db : Database) : Database :=
  match history with
  | [] => db
  | (op, now) :: rest => run rest (perform op now db)
  end.

End Histories.

(** The relation [R] holds between the database an operation receives and
    the one it leaves. *)
Definition respects (R : Database -> Database -> Prop) {A} (c : M A) : Prop :=
  forall db, R db (fst (c db)).

(** The row numbered [i], if it is still stored, is revoked, and [i] has
    already been handed out by the id sequence. *)
Definition stays_revoked (i : Z) (db : Database) : Prop :=
  i < refreshtokens_id_seq db
  /\ forall r, In r (refreshtokens db) ->
               RefreshToken.id r = i -> RefreshToken.is_revoked r = true.

Definition keeps_revoked (db db' : Database) : Prop :=
  forall i, stays_revoked i db -> stays_revoked i db'.

(** The primary key: ids are pairwise distinct and below the sequence. *)
Definition well_keyed (db : Database) : Prop :=
  NoDup (map RefreshToken.id (refreshtokens db))
  /\ forall r, In r (refreshtokens db) -> RefreshToken.id r < refreshtokens_id_seq db.

Definition keeps_keys (db db' : Database) : Prop := well_keyed db -> well_keyed db'.

(** The values of an [Integer] column, which the driver accepts as a
    parameter compared with [id]. *)
Definition int32 (n : Z) : Prop := -2147483648 <= n <= 2147483647.

(** The primary key of [users] and the foreign key of
    [refreshtokens.user_id]: no two users share an id, and the owner of every
    row is a stored user. *)
Definition references_users (db : Database) : Prop :=
  NoDup (map User.id (users db))
  /\ forall r, In r (refreshtokens db) ->
               exists u, In u (users db) /\ User.id u = RefreshToken.user_id r.

Definition keeps_references (db db' : Database) : Prop :=
  references_users db -> references_users db'.

(** ** Vocabulary of the further properties *)

(** The entry [get_active_sessions] builds for one row. *)
Definition session_info (t : RefreshToken.t) : SessionInfo :=
  mkSessionInfo (RefreshToken.id t) (RefreshToken.user_agent t)
    (RefreshToken.ip_address t) (RefreshToken.created_at t)
    (RefreshToken.expires_at t).

(** The user-agent and the address [store_refresh_token] records. *)
Definition recorded_agent (request : option Request) : option string :=
  match request with Some rq => header_user_agent rq | None => None end.
Definition recorded_address (request : option Request) : option string :=
  match request with Some rq => client rq | None => None end.

(** The rows of a user that are not revoked, expired or not. *)
Definition unrevoked_of (user_id : Z) (r : RefreshToken.t) : bool :=
  (RefreshToken.user_id r =? user_id) && negb (RefreshToken.is_revoked r).

(** The secrets are pairwise distinct. *)
Definition unique_secrets (db : Database) : Prop :=
  NoDup (map RefreshToken.token (refreshtokens db)).

(** No two distinct non-revoked rows have the same owner and the same
    non-empty user-agent. *)
Definition one_per_device (db : Database) : Prop :=
  forall r1 r2,
    In r1 (refreshtokens db) -> In r2 (refreshtokens db) ->
    RefreshToken.is_revoked r1 = false -> RefreshToken.is_revoked r2 = false ->
    RefreshToken.user_id r1 = RefreshToken.user_id r2 ->
    RefreshToken.user_agent r1 = RefreshToken.user_agent r2 ->
    opt_truthy (RefreshToken.user_agent r1) = true ->
    r1 = r2.

Definition keeps_secrets (db db' : Database) : Prop :=
  unique_secrets db -> unique_secrets db'.

Definition keeps_one_per_device (db db' : Database) : Prop :=
  one_per_device db -> one_per_device db'.

(** The operations that store a token the way the routes do: with
    [revoke_same_device] on. *)
Definition is_route (op : operation) : bool :=
  match op with
  | Store _ _ _ revoke_same_device => revoke_same_device
  | _ => true
  end.

(** The [exp] claim [create_access_token] mints at time [now], in seconds. *)
Definition minted_exp (settings : Settings) (now : Z) : Z :=
  (now + timedelta_minutes (ACCESS_TOKEN_EXPIRE_MINUTES settings)) / usec_per_second.

(** The field [authenticate_user] looks the identifier up in. *)
Definition identified_by (email_username : string) (u : User.t) : bool :=
  if str_contains "@"%char email_username
  then String.eqb (User.email u) email_username
  else String.eqb (User.username u) email_username.

(** ** Fixtures of the worked scenarios *)

Module Fixtures.

Definition alice : User.t :=
  User.mk 1 0 0 "alice" None "alice@example.com" "hash-of-secret" 1 "pub-alice".

Definition encode (c : Claims) : string :=
  match sub c with
  | Some s => String.append "jwt:" s
  | None => "jwt:"
  end.

Definition verify (plain hashed : string) : bool :=
  String.eqb hashed (String.append "hash-of-" plain).

Definition credentials : SUserAuth := mkSUserAuth "alice" "secret".

Definition device_a : Request := mkRequest (Some "A") (Some "10.0.0.1").
Definition device_b : Request := mkRequest (Some "B") (Some "10.0.0.2").
Definition blank_agent : Request := mkRequest (Some "") (Some "10.0.0.3").

(** Alice is registered and nobody is logged in. *)
Definition empty_db : Database := mkDatabase [alice] [] 1.

Definition session_a : RefreshToken.t :=
  RefreshToken.mk 1 1000 1000 1 "r1" 604800001000 false (Some "A") (Some "10.0.0.1").
Definition session_b : RefreshToken.t :=
  RefreshToken.mk 2 2000 2000 1 "r2" 604800002000 false (Some "B") (Some "10.0.0.2").

(** Alice has logged in from device A, then from device B. *)
Definition two_devices : Database := mkDatabase [alice] [session_a; session_b] 3.

(** The secret of device A is refreshed by a request whose user-agent is
    that of device B. *)
Definition after_refresh : Database :=
  mkDatabase [alice]
    [RefreshToken.revoke 3000 session_a;
     RefreshToken.revoke 3000 session_b;
     RefreshToken.mk 3 3000 3000 1 "r3" 604800003000 false (Some "B") (Some "10.0.0.2")]
    4.

(** Operations run after [after_refresh]: a login, a refresh, a logout
    everywhere and a cap. *)
Definition later_history : list (operation * Z) :=
  [ (Login device_a credentials (mkEntropy "j5" "r5"), 5000);
    (Refresh device_a (Some "r5") None (mkEntropy "j6" "r6"), 6000);
    (RevokeAll 1, 7000);
    (CapSessions 1 1, 8000) ].

(** The rows two logins with an empty user-agent header leave. *)
Definition blank_first : RefreshToken.t :=
  RefreshToken.mk 1 1000 1000 1 "r1" 604800001000 false (Some "") (Some "10.0.0.3").
Definition blank_second : RefreshToken.t :=
  RefreshToken.mk 2 2000 2000 1 "r2" 604800002000 false (Some "") (Some "10.0.0.3").

(** Six sessions of Alice, created one after the other. *)
Definition session_at (n : Z) : RefreshToken.t :=
  RefreshToken.mk n n n 1 (String.append "s" (String (ascii_of_nat (48 + Z.to_nat n)) ""))
    604800000000 false None None.

Definition six_sessions : Database :=
  mkDatabase [alice]
    [session_at 1; session_at 2; session_at 3; session_at 4; session_at 5; session_at 6]
    7.

(** Two tokens signed under the configured key: the claims of one carry no
    [exp]; the [exp] of the other is the second 1699999999. *)
Definition signed (token : string) : option Claims :=
  if String.eqb token "signed-without-exp"
  then Some (mkClaims (Some "pub-alice") (Some "j1") None)
  else if String.eqb token "signed-stale"
  then Some (mkClaims (Some "pub-alice") (Some "j2") (Some 1699999999))
  else None.

(** [jwt.decode] on these tokens. *)
Definition decode : string -> Z -> option Claims := jwt_decode_default signed.

End Fixtures.

(** ** Fixtures of the further scenarios *)

Module MoreFixtures.

Import Fixtures.

Definition wrong_credentials : SUserAuth := mkSUserAuth "alice" "not-the-secret".

(** A reading of texts as UUIDs: thirty-two hexadecimal digits in either
    case, hyphens set aside, in a text of 32 to 36 characters; the canonical
    text has the digits in lower case, grouped 8-4-4-4-12. *)
Definition hex_digit (c : ascii) : option ascii :=
  let n := nat_of_ascii c in
  if (Nat.leb 48 n && Nat.leb n 57)%bool then Some c
  else if (Nat.leb 97 n && Nat.leb n 102)%bool then Some c
  else if (Nat.leb 65 n && Nat.leb n 70)%bool then Some (ascii_of_nat (n + 32))
  else None.

Fixpoint hex_digits (s : string) : option (list ascii) :=
  match s with
  | EmptyString => Some []
  | String c s' =>
      if Ascii.eqb c "-"%char then hex_digits s'
      else match hex_digit c, hex_digits s' with
           | Some d, Some ds => Some (d :: ds)
           | _, _ => None
           end
  end.

Definition canonical_uuid (ds : list ascii) : string :=
  let part (from count : nat) := string_of_list_ascii (firstn count (skipn from ds)) in
  String.concat "-"
    [part 0%nat 8%nat; part 8%nat 4%nat; part 12%nat 4%nat; part 16%nat 4%nat;
     part 20%nat 12%nat].

Definition read_uuid (s : string) : option string :=
  let n := String.length s in
  if (Nat.ltb n 32 || Nat.ltb 36 n)%bool then None
  else match hex_digits s with
       | Some ds =>
           if Nat.eqb (List.length ds) 32 then Some (canonical_uuid ds) else None
       | None => None
       end.

(** Bob, registered beside Alice. *)
Definition bob : User.t :=
  User.mk 2 0 0 "bob" None "bob@example.com" "hash-of-hunter2" 1
    "123e4567-e89b-12d3-a456-426614174000".

Definition two_users : Database := mkDatabase [alice; bob] [] 1.

(** A time of issue, and the claims of the one access token signed then. *)
Definition issue_time : Z := 1700000000000000.

Definition signed_issued (token : string) : option Claims :=
  if String.eqb token "jwt:123e4567-e89b-12d3-a456-426614174000"
  then Some (mkClaims (Some "123e4567-e89b-12d3-a456-426614174000") (Some "j1")
                      (Some 1700000900))
  else None.

Definition decode_issued : string -> Z -> option Claims :=
  jwt_decode_default signed_issued.

(** The tables after Bob has logged in from device A at [issue_time], and the
    response he received. *)
Definition bob_logged_in : Database :=
  mkDatabase [alice; bob]
    [RefreshToken.mk 1 issue_time issue_time 2 "r1" (issue_time + 604800000000)
       false (Some "A") (Some "10.0.0.1")] 2.

Definition bob_response : TokenResponse :=
  mkTokenResponse "jwt:123e4567-e89b-12d3-a456-426614174000" "r1" 900.

(** Three logins of Alice: twice from device A, once from device B. *)
Definition login_history : list (operation * Z) :=
  [ (Login device_a credentials (mkEntropy "j1" "r1"), 1000);
    (Login device_a credentials (mkEntropy "j2" "r2"), 2000);
    (Login device_b credentials (mkEntropy "j3" "r3"), 3000) ].

End MoreFixtures.

(** * Properties *)

(** ** Reasoning about the monad *)

Lemma bind_Return {A B} (c : M A) (k : A -> M B) db db' b :
  bind c k db = (db', Return b) ->
  exists db1 a, c db = (db1, Return a) /\ k a db1 = (db', Return b).
Proof.
  unfold bind. destruct (c db) as [db1 [a | e]]; intro H.
  - exists db1, a. split; [reflexivity | exact H].
  - discriminate H.
Qed.

Lemma atomic_Return {A} (c : M A) db db' a :
  atomic c db = (db', Return a) -> c db = (db', Return a).
Proof.
  unfold atomic. destruct (c db) as [db1 [a1 | e]]; intro H.
  - exact H.
  - discriminate H.
Qed.

Lemma ret_Return {A} (a b : A) db db' :
  ret a db = (db', Return b) -> db' = db /\ b = a.
Proof. unfold ret. intro H. inversion H. split; reflexivity. Qed.

(** ** Lists of rows *)

Lemma filter_nil_iff {A} (p : A -> bool) (l : list A) :
  filter p l = [] <-> forall x, In x l -> p x = false.
Proof.
  induction l as [| a l IH]; simpl.
  - split; [intros _ x [] | reflexivity].
  - destruct (p a) eqn:Ha; split.
    + discriminate.
    + intro H. rewrite (H a) in Ha by (left; reflexivity). discriminate.
    + intros H x [<- | Hx]; [exact Ha | apply IH; assumption].
    + intro H. apply IH. intros x Hx. apply H. right. exact Hx.
Qed.

Lemma hd_error_filter_Some {A} (p : A -> bool) (l : list A) (x : A) :
  hd_error (filter p l) = Some x -> In x l /\ p x = true.
Proof.
  intro H. apply filter_In.
  destruct (filter p l) as [| y l'] eqn:E; [discriminate |].
  simpl in H. inversion H; subst. left. reflexivity.
Qed.

Lemma is_valid_iff token now r :
  is_valid token now r = true <->
  RefreshToken.token r = token /\ RefreshToken.is_revoked r = false
  /\ now < RefreshToken.expires_at r.
Proof.
  unfold is_valid. rewrite !andb_true_iff, negb_true_iff, String.eqb_eq, Z.ltb_lt.
  tauto.
Qed.

(** ** Validation of a refresh token *)

(** C9.  [validate_refresh_token] leaves the database as it found it; the
    record it returns is a stored record whose secret is the presented one,
    whose revoked flag is false and whose expiry lies strictly after the
    current time; it returns some record exactly when such a record is stored,
    and [None] in every other case. *)
Theorem validate_refresh_token_find_active (token : string) (now : Z) (db : Database) :
  exists found,
    validate_refresh_token token now db = (db, Return found)
    /\ (forall r, found = Some r ->
          In r (refreshtokens db)
          /\ RefreshToken.token r = token
          /\ RefreshToken.is_revoked r = false
          /\ now < RefreshToken.expires_at r)
    /\ ((exists r, found = Some r) <->
        (exists r, In r (refreshtokens db)
                   /\ RefreshToken.token r = token
                   /\ RefreshToken.is_revoked r = false
                   /\ now < RefreshToken.expires_at r))
    /\ (found = None <->
        forall r, In r (refreshtokens db) ->
                  ~ (RefreshToken.token r = token
                     /\ RefreshToken.is_revoked r = false
                     /\ now < RefreshToken.expires_at r)).
Proof.
  exists (hd_error (filter (is_valid token now) (refreshtokens db))).
  split; [reflexivity |].
  assert (Hsome : forall r,
             hd_error (filter (is_valid token now) (refreshtokens db)) = Some r ->
             In r (refreshtokens db) /\ RefreshToken.token r = token
             /\ RefreshToken.is_revoked r = false /\ now < RefreshToken.expires_at r).
  { intros r H. apply hd_error_filter_Some in H. destruct H as [Hin Hv].
    apply is_valid_iff in Hv. tauto. }
  assert (Hnone : hd_error (filter (is_valid token now) (refreshtokens db)) = None <->
                  forall r, In r (refreshtokens db) ->
                            ~ (RefreshToken.token r = token
                               /\ RefreshToken.is_revoked r = false
                               /\ now < RefreshToken.expires_at r)).
  { split.
    - intros H r Hin Hr.
      assert (E : filter (is_valid token now) (refreshtokens db) = []).
      { destruct (filter (is_valid token now) (refreshtokens db)); [reflexivity | discriminate]. }
      rewrite filter_nil_iff in E. specialize (E r Hin).
      apply is_valid_iff in Hr. congruence.
    - intro H.
      assert (E : filter (is_valid token now) (refreshtokens db) = []).
      { apply filter_nil_iff. intros r Hin.
        destruct (is_valid token now r) eqn:Hv; [| reflexivity].
        exfalso. apply (H r Hin). apply is_valid_iff. exact Hv. }
      rewrite E. reflexivity. }
  split; [exact Hsome |]. split; [| exact Hnone].
  split.
  - intros [r Hr]. exists r. apply Hsome. exact Hr.
  - intros [r Hr].
    destruct (hd_error (filter (is_valid token now) (refreshtokens db))) as [x |] eqn:E.
    + exists x. reflexivity.
    + exfalso. destruct Hr as [Hin Hr]. exact (proj1 Hnone eq_refl r Hin Hr).
Qed.

(** ** Counting and rewriting rows *)

Lemma count_where_pos {A} (p : A -> bool) (l : list A) :
  (0 <? count_where p l) = existsb p l.
Proof.
  unfold count_where. induction l as [| a l IH]; simpl; [reflexivity |].
  destruct (p a); simpl.
  - apply Z.ltb_lt. lia.
  - exact IH.
Qed.

Lemma count_where_map {A} (p : A -> bool) (g : A -> A) (l : list A) :
  (forall x, p (g x) = p x) ->
  count_where p (map g l) = count_where p l.
Proof.
  intro H. unfold count_where. f_equal.
  induction l as [| a l IH]; simpl; [reflexivity |].
  rewrite H. destruct (p a); simpl; rewrite IH; reflexivity.
Qed.

Lemma count_where_complement {A} (p : A -> bool) (l : list A) :
  count_where p l =
  Z.of_nat (List.length l) - Z.of_nat (List.length (filter (fun x => negb (p x)) l)).
Proof.
  unfold count_where. induction l as [| a l IH]; [reflexivity |].
  cbn [filter List.length]. destruct (p a); cbn [negb List.length]; lia.
Qed.

Lemma with_refreshtokens_same db : with_refreshtokens db (refreshtokens db) = db.
Proof. destruct db; reflexivity. Qed.

Lemma map_unmatched {A} (p : A -> bool) (g : A -> A) (l : list A) :
  (forall x, In x l -> p x = false) ->
  map (fun x => if p x then g x else x) l = l.
Proof.
  intro H. induction l as [| a l IH]; simpl; [reflexivity |].
  rewrite (H a) by (left; reflexivity). f_equal.
  apply IH. intros x Hx. apply H. right. exact Hx.
Qed.

(** ** The cleanup sweep *)

(** C8.  [cleanup_expired_tokens] deletes exactly the rows with
    [expires_at < now] or [is_revoked]: the rows that remain are the other
    rows, unchanged and in their order, and the count returned is the number
    of rows deleted.  Nothing else in the database changes. *)
Theorem cleanup_expired_tokens_exact (now : Z) (db : Database) :
  exists db',
    cleanup_expired_tokens now db =
      (db', Return (Z.of_nat (List.length (refreshtokens db))
                    - Z.of_nat (List.length (refreshtokens db'))))
    /\ users db' = users db
    /\ refreshtokens_id_seq db' = refreshtokens_id_seq db
    /\ refreshtokens db' =
         filter (fun r => (now <=? RefreshToken.expires_at r)
                          && negb (RefreshToken.is_revoked r))
                (refreshtokens db)
    /\ (forall r, In r (refreshtokens db') <->
                  In r (refreshtokens db)
                  /\ ~ (RefreshToken.expires_at r < now
                        \/ RefreshToken.is_revoked r = true))
    /\ (forall r, In r (refreshtokens db) ->
                  RefreshToken.expires_at r < now \/ RefreshToken.is_revoked r = true ->
                  ~ In r (refreshtokens db')).
Proof.
  assert (Hneg : forall r,
             negb (expired_or_revoked now r) =
             (now <=? RefreshToken.expires_at r) && negb (RefreshToken.is_revoked r)).
  { intro r. unfold expired_or_revoked. rewrite negb_orb. f_equal.
    rewrite Z.ltb_antisym, negb_involutive. reflexivity. }
  assert (Hiff : forall r,
             expired_or_revoked now r = false <->
             ~ (RefreshToken.expires_at r < now \/ RefreshToken.is_revoked r = true)).
  { intro r. unfold expired_or_revoked. rewrite orb_false_iff, Z.ltb_ge.
    destruct (RefreshToken.is_revoked r); split; intro H.
    - destruct H; discriminate.
    - exfalso. apply H. right. reflexivity.
    - intros [H1 | H1]; [lia | discriminate].
    - split; [| reflexivity]. lia. }
  exists (with_refreshtokens db
            (filter (fun r => negb (expired_or_revoked now r)) (refreshtokens db))).
  split; [| split; [reflexivity | split; [reflexivity | split; [| split]]]].
  - unfold cleanup_expired_tokens, delete_where. simpl.
    rewrite count_where_complement. reflexivity.
  - simpl. apply filter_ext. exact Hneg.
  - intro r. simpl. rewrite filter_In, negb_true_iff, Hiff. reflexivity.
  - intros r _ Hr Hin. simpl in Hin. apply filter_In in Hin.
    destruct Hin as [_ Hin]. rewrite negb_true_iff, Hiff in Hin. exact (Hin Hr).
Qed.

(** ** Revoking one session by id *)

Lemma owned_by_revoke token_id user_id now r :
  owned_by token_id user_id (RefreshToken.revoke now r) = owned_by token_id user_id r.
Proof. reflexivity. Qed.

Lemma revoke_revoke t1 t2 r :
  RefreshToken.revoke t2 (RefreshToken.revoke t1 r) = RefreshToken.revoke t2 r.
Proof. reflexivity. Qed.

Lemma update_revoke_twice (p : RefreshToken.t -> bool) (t1 t2 : Z) (l : list RefreshToken.t) :
  (forall t r, p (RefreshToken.revoke t r) = p r) ->
  map (fun r => if p r then RefreshToken.revoke t2 r else r)
      (map (fun r => if p r then RefreshToken.revoke t1 r else r) l)
  = map (fun r => if p r then RefreshToken.revoke t2 r else r) l.
Proof.
  intro H. rewrite map_map. apply map_ext. intro r.
  destruct (p r) eqn:Hp.
  - rewrite H, Hp. apply revoke_revoke.
  - rewrite Hp. reflexivity.
Qed.

Lemma revoke_session_by_id_eq token_id user_id now db :
  revoke_session_by_id token_id user_id now db =
    (with_refreshtokens db
       (map (fun r => if owned_by token_id user_id r then RefreshToken.revoke now r else r)
            (refreshtokens db)),
     Return (existsb (owned_by token_id user_id) (refreshtokens db))).
Proof.
  unfold revoke_session_by_id, bind, update_revoke, ret.
  change (fun r => (RefreshToken.id r =? token_id) && (RefreshToken.user_id r =? user_id))
    with (owned_by token_id user_id).
  rewrite count_where_pos. reflexivity.
Qed.

(** C10.  For a session id within the range of the [Integer] column, the
    ids the driver accepts as a parameter, [revoke_session_by_id] answers
    [True] exactly when some row with the given id belongs to the given user,
    whether or not that row is already revoked, and the route raises the
    not-found error only when there is no such row.  Repeating the call gives
    the same answer, and the database after the repetition is the one a
    single call leaves: the second call only stamps [updated_at] again, so at
    one clock reading the two states are equal, and at any two readings every
    row keeps its id, owner, secret, expiry, device, address, creation time
    and revoked flag. *)
Theorem revoke_session_by_id_idempotent
    (token_id : Z) (user : User.t) (t1 t2 : Z) (db : Database) :
  int32 token_id ->
  exists db1 db2 ok,
    revoke_session_by_id token_id (User.id user) t1 db = (db1, Return ok)
    /\ (ok = true <->
        exists r, In r (refreshtokens db)
                  /\ RefreshToken.id r = token_id
                  /\ RefreshToken.user_id r = User.id user)
    /\ revoke_session token_id user t1 db =
         (if ok then (db1, Return tt) else (db, Raise (HTTP NoSessionException)))
    /\ revoke_session_by_id token_id (User.id user) t2 db1 = (db2, Return ok)
    /\ revoke_session_by_id token_id (User.id user) t2 db = (db2, Return ok)
    /\ (t2 = t1 -> db2 = db1)
    /\ Forall2 (fun a b => b = a
                           \/ (RefreshToken.is_revoked a = true
                               /\ b = RefreshToken.revoke t2 a))
               (refreshtokens db1) (refreshtokens db2).
Proof.
  intros _. set (p := owned_by token_id (User.id user)).
  exists (with_refreshtokens db
            (map (fun r => if p r then RefreshToken.revoke t1 r else r) (refreshtokens db))).
  exists (with_refreshtokens db
            (map (fun r => if p r then RefreshToken.revoke t2 r else r) (refreshtokens db))).
  exists (existsb p (refreshtokens db)).
  assert (Hinv : forall t r, p (RefreshToken.revoke t r) = p r) by reflexivity.
  assert (Hex : forall t,
             existsb p (map (fun r => if p r then RefreshToken.revoke t r else r)
                            (refreshtokens db))
             = existsb p (refreshtokens db)).
  { intro t. rewrite <- !count_where_pos. f_equal. apply count_where_map.
    intro r. destruct (p r) eqn:Hp; [rewrite Hinv |]; exact Hp. }
  split; [| split; [| split; [| split; [| split; [| split]]]]].
  - apply revoke_session_by_id_eq.
  - rewrite existsb_exists. unfold p, owned_by. split.
    + intros [r [Hin Hr]]. apply andb_true_iff in Hr. destruct Hr as [H1 H2].
      exists r. rewrite Z.eqb_eq in H1, H2. tauto.
    + intros [r [Hin [H1 H2]]]. exists r. split; [exact Hin |].
      apply andb_true_iff. rewrite !Z.eqb_eq. tauto.
  - unfold revoke_session, bind. rewrite revoke_session_by_id_eq. fold p.
    destruct (existsb p (refreshtokens db)) eqn:E; simpl; [reflexivity |].
    unfold raise. f_equal.
    rewrite map_unmatched; [apply with_refreshtokens_same |].
    intros r Hin. destruct (p r) eqn:Hp; [| reflexivity].
    assert (existsb p (refreshtokens db) = true)
      by (apply existsb_exists; exists r; split; assumption).
    congruence.
  - rewrite revoke_session_by_id_eq. fold p. simpl.
    rewrite (update_revoke_twice p t1 t2 _ Hinv), Hex. reflexivity.
  - apply revoke_session_by_id_eq.
  - intros ->. reflexivity.
  - clear Hex. simpl.
    induction (refreshtokens db) as [| a l IH]; simpl; constructor; [| exact IH].
    destruct (p a).
    + right. split; [reflexivity |]. symmetry. apply revoke_revoke.
    + left. reflexivity.
Qed.

(** ** Newest-first ordering *)

Lemma insert_desc_perm x l : Permutation (insert_desc x l) (x :: l).
Proof.
  induction l as [| y l IH]; simpl.
  - apply Permutation_refl.
  - destruct (RefreshToken.created_at y <=? RefreshToken.created_at x).
    + apply Permutation_refl.
    + apply perm_trans with (y :: x :: l).
      * apply perm_skip. exact IH.
      * apply perm_swap.
Qed.

Lemma order_by_created_at_desc_perm l : Permutation (order_by_created_at_desc l) l.
Proof.
  induction l as [| x l IH]; simpl.
  - apply perm_nil.
  - apply perm_trans with (x :: order_by_created_at_desc l).
    + apply insert_desc_perm.
    + apply perm_skip. exact IH.
Qed.

Lemma insert_desc_sorted x l :
  StronglySorted newer_or_equal l -> StronglySorted newer_or_equal (insert_desc x l).
Proof.
  induction l as [| y l IH]; intro Hs; simpl.
  - constructor; constructor.
  - apply StronglySorted_inv in Hs. destruct Hs as [Hl Hy].
    destruct (RefreshToken.created_at y <=? RefreshToken.created_at x) eqn:E.
    + apply Z.leb_le in E. constructor.
      * constructor; assumption.
      * constructor; [exact E |].
        rewrite Forall_forall in Hy |- *. intros z Hz.
        specialize (Hy z Hz). unfold newer_or_equal in *. lia.
    + apply Z.leb_gt in E. constructor; [apply IH; exact Hl |].
      rewrite Forall_forall in Hy |- *. intros z Hz.
      apply (Permutation_in _ (insert_desc_perm x l)) in Hz.
      destruct Hz as [<- | Hz]; [unfold newer_or_equal; lia | apply Hy; exact Hz].
Qed.

Lemma order_by_created_at_desc_sorted l :
  StronglySorted newer_or_equal (order_by_created_at_desc l).
Proof.
  induction l as [| x l IH]; simpl; [constructor | apply insert_desc_sorted; exact IH].
Qed.

Lemma filter_insert_desc (p : RefreshToken.t -> bool) x l :
  StronglySorted newer_or_equal l ->
  filter p (insert_desc x l) =
  if p x then insert_desc x (filter p l) else filter p l.
Proof.
  induction l as [| y l IH]; intro Hs.
  - simpl. destruct (p x); reflexivity.
  - apply StronglySorted_inv in Hs. destruct Hs as [Hl Hy].
    simpl. destruct (RefreshToken.created_at y <=? RefreshToken.created_at x) eqn:E.
    + simpl. destruct (p x); [| reflexivity].
      destruct (p y).
      * simpl. rewrite E. reflexivity.
      * destruct (filter p l) as [| z l'] eqn:F; [reflexivity |].
        simpl.
        assert (Hz : In z l) by (apply (filter_In p z l); rewrite F; left; reflexivity).
        rewrite Forall_forall in Hy. specialize (Hy z Hz).
        apply Z.leb_le in E. unfold newer_or_equal in Hy.
        replace (RefreshToken.created_at z <=? RefreshToken.created_at x) with true
          by (symmetry; apply Z.leb_le; lia).
        reflexivity.
    + simpl. rewrite (IH Hl). destruct (p y), (p x); simpl; try rewrite E; reflexivity.
Qed.

(** Selecting rows and ordering them commute. *)
Lemma filter_order_by_created_at_desc (p : RefreshToken.t -> bool) l :
  filter p (order_by_created_at_desc l) = order_by_created_at_desc (filter p l).
Proof.
  induction l as [| x l IH]; simpl; [reflexivity |].
  rewrite filter_insert_desc by apply order_by_created_at_desc_sorted.
  rewrite IH. destruct (p x); reflexivity.
Qed.

(** ** Primary keys *)

(** A selection of rows keeps the primary key. *)
Lemma selected_ids_NoDup (keep : RefreshToken.t -> bool) (rows : list RefreshToken.t) :
  NoDup (map RefreshToken.id rows) ->
  NoDup (map RefreshToken.id (filter keep rows)).
Proof.
  intro Hrows. induction rows as [| a rows IH]; simpl; [constructor |].
  simpl in Hrows. apply NoDup_cons_iff in Hrows. destruct Hrows as [Hfresh Hrest].
  destruct (keep a); simpl; [| apply IH; exact Hrest].
  constructor; [| apply IH; exact Hrest].
  intro Hin. apply Hfresh. apply in_map_iff in Hin.
  destruct Hin as [b [Hb Hin]]. apply filter_In in Hin.
  apply in_map_iff. exists b. tauto.
Qed.

Lemma NoDup_map_In_inj {A B} (f : A -> B) (l : list A) (a b : A) :
  NoDup (map f l) -> In a l -> In b l -> f a = f b -> a = b.
Proof.
  induction l as [| x l IH]; simpl; intros H Ha Hb E; [contradiction |].
  inversion H as [| ? ? Hnotin Hnd]; subst.
  destruct Ha as [-> | Ha], Hb as [-> | Hb].
  - reflexivity.
  - exfalso. apply Hnotin. rewrite E. apply in_map. exact Hb.
  - exfalso. apply Hnotin. rewrite <- E. apply in_map. exact Ha.
  - apply IH; assumption.
Qed.

Lemma NoDup_app_disjoint {A} (l1 l2 : list A) (a : A) :
  NoDup (l1 ++ l2) -> In a l1 -> ~ In a l2.
Proof.
  induction l1 as [| x l1 IH]; simpl; intros H Ha Hb; [contradiction |].
  inversion H as [| ? ? Hnotin Hnd]; subst.
  destruct Ha as [-> | Ha].
  - apply Hnotin. apply in_or_app. right. exact Hb.
  - exact (IH Hnd Ha Hb).
Qed.

Lemma id_in_iff ids r : id_in ids r = true <-> In (RefreshToken.id r) ids.
Proof.
  unfold id_in. rewrite existsb_exists. split.
  - intros [x [Hx E]]. apply Z.eqb_eq in E. rewrite E. exact Hx.
  - intro H. exists (RefreshToken.id r). split; [exact H | apply Z.eqb_refl].
Qed.

(** Dropping the rows whose ids are those of the tail leaves the head. *)
Lemma filter_not_in_tail (l1 l2 : list RefreshToken.t) :
  NoDup (map RefreshToken.id (l1 ++ l2)) ->
  filter (fun r => negb (id_in (map RefreshToken.id l2) r)) (l1 ++ l2) = l1.
Proof.
  intro H. rewrite filter_app.
  assert (H2 : filter (fun r => negb (id_in (map RefreshToken.id l2) r)) l2 = []).
  { apply filter_nil_iff. intros r Hr. apply negb_false_iff.
    apply id_in_iff. apply in_map. exact Hr. }
  rewrite H2, app_nil_r.
  assert (H1 : forall r, In r l1 -> id_in (map RefreshToken.id l2) r = false).
  { intros r Hr. destruct (id_in (map RefreshToken.id l2) r) eqn:E; [| reflexivity].
    exfalso. apply id_in_iff in E. rewrite map_app in H.
    apply (NoDup_app_disjoint _ _ (RefreshToken.id r) H); [apply in_map; exact Hr | exact E]. }
  clear H H2. induction l1 as [| a l1 IH]; simpl; [reflexivity |].
  rewrite (H1 a) by (left; reflexivity). simpl. f_equal.
  apply IH. intros r Hr. apply H1. right. exact Hr.
Qed.

(** ** Capping the active sessions *)

Lemma is_active_of_revoke user_id now t r :
  is_active_of user_id now (RefreshToken.revoke t r) = false.
Proof.
  unfold is_active_of. simpl. rewrite andb_false_r. reflexivity.
Qed.

Lemma filter_active_after_revoke user_id now t (q : RefreshToken.t -> bool) rows :
  filter (is_active_of user_id now)
         (map (fun r => if q r then RefreshToken.revoke t r else r) rows)
  = filter (fun r => negb (q r)) (filter (is_active_of user_id now) rows).
Proof.
  induction rows as [| a rows IH]; simpl; [reflexivity |].
  destruct (q a) eqn:Hq.
  - rewrite is_active_of_revoke, IH.
    destruct (is_active_of user_id now a); simpl; [rewrite Hq |]; reflexivity.
  - rewrite IH.
    destruct (is_active_of user_id now a); simpl; [rewrite Hq |]; reflexivity.
Qed.

Lemma Forall2_map_self {A} (R : A -> A -> Prop) (g : A -> A) (l : list A) :
  (forall x, In x l -> R x (g x)) -> Forall2 R l (map g l).
Proof.
  induction l as [| a l IH]; simpl; intro H; constructor.
  - apply H. left. reflexivity.
  - apply IH. intros x Hx. apply H. right. exact Hx.
Qed.

(** With a primary key, the rows whose id is one of the ids of [picked] are
    the rows of [picked]. *)
Lemma count_where_id_in (rows picked : list RefreshToken.t) :
  NoDup (map RefreshToken.id rows) ->
  NoDup (map RefreshToken.id picked) ->
  incl picked rows ->
  count_where (id_in (map RefreshToken.id picked)) rows = Z.of_nat (List.length picked).
Proof.
  intros Hrows Hpicked Hincl. unfold count_where. f_equal.
  rewrite <- (length_map RefreshToken.id (filter _ rows)).
  rewrite <- (length_map RefreshToken.id picked).
  apply Permutation_length. apply NoDup_Permutation.
  - apply selected_ids_NoDup. exact Hrows.
  - exact Hpicked.
  - intro x. rewrite !in_map_iff. split.
    + intros [r [<- Hr]]. apply filter_In in Hr. destruct Hr as [_ Hr].
      apply id_in_iff in Hr. apply in_map_iff in Hr. exact Hr.
    + intros [s [<- Hs]]. exists s. split; [reflexivity |].
      apply filter_In. split; [apply Hincl; exact Hs |].
      apply id_in_iff. apply in_map. exact Hs.
Qed.

Lemma active_incl user_id now rows :
  incl (order_by_created_at_desc (filter (is_active_of user_id now) rows)) rows.
Proof.
  intros r Hr.
  apply (Permutation_in _ (order_by_created_at_desc_perm _)) in Hr.
  apply filter_In in Hr. tauto.
Qed.

Lemma active_NoDup user_id now rows :
  NoDup (map RefreshToken.id rows) ->
  NoDup (map RefreshToken.id
           (order_by_created_at_desc (filter (is_active_of user_id now) rows))).
Proof.
  intro H.
  apply (Permutation_NoDup
           (l := map RefreshToken.id (filter (is_active_of user_id now) rows))).
  - apply Permutation_map. apply Permutation_sym. apply order_by_created_at_desc_perm.
  - apply selected_ids_NoDup. exact H.
Qed.

Lemma limit_active_sessions_eq user_id max_sessions now db :
  limit_active_sessions user_id max_sessions now db =
  if max_sessions <?
     Z.of_nat (List.length
                 (order_by_created_at_desc
                    (filter (is_active_of user_id now) (refreshtokens db))))
  then update_revoke
         (id_in (map RefreshToken.id
                   (py_slice_from max_sessions
                      (order_by_created_at_desc
                         (filter (is_active_of user_id now) (refreshtokens db))))))
         now db
  else (db, Return 0).
Proof.
  unfold limit_active_sessions, get_active_session_tokens, select_where, bind, ret.
  cbv beta iota.
  destruct (max_sessions <? _); reflexivity.
Qed.

(** C5.  For a limit of at least 1, [limit_sessions] revokes exactly the
    active sessions of the user that come after the first [max_sessions] in
    newest-first order and returns how many they are: every other row is
    unchanged, and the active sessions afterwards are the [max_sessions]
    newest ones (all of them when there are no more than that).  A limit
    below 1 is refused with the client error and the database is as it
    was. *)
Theorem limit_sessions_keeps_newest
    (max_sessions : Z) (user : User.t) (now : Z) (db : Database) :
  NoDup (map RefreshToken.id (refreshtokens db)) ->
  let active :=
    order_by_created_at_desc
      (filter (is_active_of (User.id user) now) (refreshtokens db)) in
  let kept := firstn (Z.to_nat max_sessions) active in
  let dropped := skipn (Z.to_nat max_sessions) active in
  (max_sessions < 1 ->
   limit_sessions max_sessions user now db = (db, Raise (HTTP MaxSessionsException)))
  /\ (1 <= max_sessions ->
      exists db',
        limit_sessions max_sessions user now db
          = (db', Return (Z.of_nat (List.length dropped)))
        /\ users db' = users db
        /\ refreshtokens_id_seq db' = refreshtokens_id_seq db
        /\ Forall2 (fun r r' => (In r dropped /\ r' = RefreshToken.revoke now r)
                                \/ (~ In r dropped /\ r' = r))
                   (refreshtokens db) (refreshtokens db')
        /\ get_active_session_tokens (User.id user) now db' = (db', Return kept)
        /\ List.length kept = Nat.min (Z.to_nat max_sessions) (List.length active)).
Proof.
  intros Hpk active kept dropped. split.
  - intro Hlt. unfold limit_sessions.
    replace (max_sessions <? 1) with true by (symmetry; apply Z.ltb_lt; exact Hlt).
    reflexivity.
  - intro Hge. unfold limit_sessions.
    replace (max_sessions <? 1) with false by (symmetry; apply Z.ltb_ge; exact Hge).
    rewrite limit_active_sessions_eq. fold active.
    assert (Hslice : py_slice_from max_sessions active = dropped).
    { unfold py_slice_from.
      replace (0 <=? max_sessions) with true by (symmetry; apply Z.leb_le; lia).
      reflexivity. }
    rewrite Hslice.
    assert (Hlen : List.length kept = Nat.min (Z.to_nat max_sessions) (List.length active))
      by apply length_firstn.
    destruct (max_sessions <? Z.of_nat (List.length active)) eqn:E.
    + (* more active sessions than the limit *)
      set (ids := map RefreshToken.id dropped).
      exists (with_refreshtokens db
                (map (fun r => if id_in ids r then RefreshToken.revoke now r else r)
                     (refreshtokens db))).
      assert (Hact : NoDup (map RefreshToken.id active)) by (apply active_NoDup; exact Hpk).
      assert (Hsplit : active = kept ++ dropped)
        by (symmetry; apply firstn_skipn).
      assert (Hdropped_in : incl dropped (refreshtokens db)).
      { intros r Hr. apply (active_incl (User.id user) now). fold active.
        rewrite Hsplit. apply in_or_app. right. exact Hr. }
      split; [| split; [reflexivity | split; [reflexivity | split; [| split]]]].
      * unfold update_revoke. f_equal. f_equal.
        apply count_where_id_in; [exact Hpk | | exact Hdropped_in].
        rewrite Hsplit, map_app in Hact. apply NoDup_app_remove_l in Hact. exact Hact.
      * simpl. apply Forall2_map_self. intros r Hr.
        destruct (id_in ids r) eqn:Hid.
        -- left. split; [| reflexivity].
           apply id_in_iff in Hid. apply in_map_iff in Hid.
           destruct Hid as [s [Hs Hin]].
           assert (s = r)
             by (apply (NoDup_map_In_inj RefreshToken.id (refreshtokens db));
                 auto).
           subst s. exact Hin.
        -- right. split; [| reflexivity]. intro Hin.
           assert (id_in ids r = true) by (apply id_in_iff; apply in_map; exact Hin).
           congruence.
      * unfold get_active_session_tokens, select_where, bind, ret. simpl. f_equal. f_equal.
        rewrite filter_active_after_revoke, <- filter_order_by_created_at_desc.
        fold active. unfold ids. rewrite Hsplit.
        apply filter_not_in_tail. rewrite <- Hsplit. exact Hact.
      * exact Hlen.
    + (* no more active sessions than the limit *)
      apply Z.ltb_ge in E.
      assert (Hd : dropped = []) by (apply skipn_all2; lia).
      assert (Hk : kept = active) by (apply firstn_all2; lia).
      exists db. rewrite Hd.
      split; [reflexivity | split; [reflexivity | split; [reflexivity | split; [| split]]]].
      * rewrite <- (map_id (refreshtokens db)) at 2.
        apply Forall2_map_self. intros r _. right. split; [intros [] | reflexivity].
      * rewrite Hk. reflexivity.
      * exact Hlen.
Qed.

(** ** Issuing a refresh token *)

Section Issuing.

Variable settings : Settings.
Variable jwt_encode : Claims -> string.

Lemma store_refresh_token_Return user_id token request flag now db db' row :
  store_refresh_token settings user_id token (Some request) flag now db
    = (db', Return row) ->
  let ua := header_user_agent request in
  let rows1 :=
    map (fun r => if revoked_by_store flag user_id ua r
                  then RefreshToken.revoke now r else r)
        (refreshtokens db) in
  existsb (fun r => String.eqb (RefreshToken.token r) token) rows1 = false
  /\ row = RefreshToken.mk (refreshtokens_id_seq db) now now user_id token
             (now + timedelta_days (REFRESH_TOKEN_EXPIRE_DAYS settings))
             false ua (client request)
  /\ db' = mkDatabase (users db) (rows1 ++ [row]) (refreshtokens_id_seq db + 1).
Proof.
  intros H ua rows1. unfold store_refresh_token in H. apply atomic_Return in H.
  fold ua in H. unfold bind in H.
  assert (Hrows : forall db1 n,
             (if flag && opt_truthy ua
              then update_revoke (same_device user_id ua) now
              else ret 0) db = (db1, Return n) ->
             db1 = with_refreshtokens db rows1).
  { intros db1 n E. unfold rows1, revoked_by_store.
    destruct (flag && opt_truthy ua).
    - unfold update_revoke in E. inversion E. reflexivity.
    - unfold ret in E. inversion E; subst. simpl.
      rewrite map_id. symmetry. apply with_refreshtokens_same. }
  destruct ((if flag && opt_truthy ua
             then update_revoke (same_device user_id ua) now
             else ret 0) db) as [db1 [n | e]] eqn:E.
  - rewrite (Hrows db1 n eq_refl) in H. unfold insert_refresh_token in H. simpl in H.
    destruct (existsb (fun u => User.id u =? user_id) (users db)); simpl in H;
      [| discriminate H].
    destruct (existsb (fun r => String.eqb (RefreshToken.token r) token) rows1) eqn:Ex.
    + discriminate H.
    + inversion H; subst. repeat split; reflexivity.
  - exfalso. destruct (flag && opt_truthy ua).
    + unfold update_revoke in E. discriminate E.
    + unfold ret in E. discriminate E.
Qed.

Lemma set_auth_tokens_Return request user_id user_public_id rnd now db db' resp :
  set_auth_tokens settings jwt_encode request user_id user_public_id rnd now db
    = (db', Return resp) ->
  refresh_token resp = token_urlsafe_64 rnd
  /\ exists row,
       store_refresh_token settings user_id (token_urlsafe_64 rnd) (Some request)
         true now db = (db', Return row).
Proof.
  intro H. unfold set_auth_tokens in H. apply bind_Return in H.
  destruct H as [db1 [row [Hs Hr]]]. apply ret_Return in Hr. destruct Hr as [-> ->].
  split; [reflexivity |]. exists row. exact Hs.
Qed.

End Issuing.

(** ** Rows that stay revoked *)

Lemma validate_all_revoked token now db :
  all_revoked token (refreshtokens db) ->
  validate_refresh_token token now db = (db, Return None).
Proof.
  intro H. unfold validate_refresh_token, bind, select_where, ret.
  replace (filter (is_valid token now) (refreshtokens db)) with (@nil RefreshToken.t);
    [reflexivity |].
  symmetry. apply filter_nil_iff. intros r Hr.
  destruct (is_valid token now r) eqn:E; [| reflexivity].
  apply is_valid_iff in E. destruct E as [Ht [Hrev _]].
  rewrite (H r Hr Ht) in Hrev. discriminate.
Qed.

Lemma all_revoked_map_revoke token (q : RefreshToken.t -> bool) now rows :
  all_revoked token rows ->
  all_revoked token (map (fun r => if q r then RefreshToken.revoke now r else r) rows).
Proof.
  intros H r Hr Ht. apply in_map_iff in Hr. destruct Hr as [r0 [<- Hr0]].
  destruct (q r0); [reflexivity |]. apply H; assumption.
Qed.

Lemma all_revoked_after_revoke token now rows :
  all_revoked token
    (map (fun r => if String.eqb (RefreshToken.token r) token
                   then RefreshToken.revoke now r else r) rows).
Proof.
  intros r Hr Ht. apply in_map_iff in Hr. destruct Hr as [r0 [<- Hr0]].
  destruct (String.eqb (RefreshToken.token r0) token) eqn:E; [reflexivity |].
  apply String.eqb_neq in E. contradiction.
Qed.

Lemma existsb_token_map_revoke token (q : RefreshToken.t -> bool) now rows :
  existsb (fun r => String.eqb (RefreshToken.token r) token)
          (map (fun r => if q r then RefreshToken.revoke now r else r) rows)
  = existsb (fun r => String.eqb (RefreshToken.token r) token) rows.
Proof.
  induction rows as [| a rows IH]; simpl; [reflexivity |].
  rewrite IH. destruct (q a); reflexivity.
Qed.

(** ** Rotation *)

Section Rotation.

Variable settings : Settings.
Variable jwt_encode : Claims -> string.

Lemma validate_refresh_token_eq token now db :
  validate_refresh_token token now db =
    (db, Return (hd_error (filter (is_valid token now) (refreshtokens db)))).
Proof. reflexivity. Qed.

Lemma revoke_refresh_token_eq token now db :
  revoke_refresh_token token now db =
    (with_refreshtokens db
       (map (fun r => if String.eqb (RefreshToken.token r) token
                      then RefreshToken.revoke now r else r)
            (refreshtokens db)),
     Return (existsb (fun r => String.eqb (RefreshToken.token r) token)
                     (refreshtokens db))).
Proof.
  unfold revoke_refresh_token, bind, update_revoke, ret.
  rewrite count_where_pos. reflexivity.
Qed.

(** What a successful [refresh_tokens] went through. *)
Lemma refresh_tokens_Return request cookie body rnd now db db' resp :
  refresh_tokens settings jwt_encode request cookie body rnd now db
    = (db', Return resp) ->
  exists tok stored u row,
    token_to_use cookie body = Some tok
    /\ tok <> ""
    /\ hd_error (filter (is_valid tok now) (refreshtokens db)) = Some stored
    /\ In u (users db)
    /\ User.id u = RefreshToken.user_id stored
    /\ refresh_token resp = token_urlsafe_64 rnd
    /\ store_refresh_token settings (RefreshToken.user_id stored)
         (token_urlsafe_64 rnd) (Some request) true now
         (with_refreshtokens db
            (map (fun r => if String.eqb (RefreshToken.token r) tok
                           then RefreshToken.revoke now r else r)
                 (refreshtokens db)))
       = (db', Return row).
Proof.
  intro H. unfold refresh_tokens in H. fold (token_to_use cookie body) in H.
  destruct (token_to_use cookie body) as [tok |]; [| discriminate H].
  destruct (str_truthy tok) eqn:Htruthy; simpl in H; [| discriminate H].
  unfold bind at 1 in H. rewrite validate_refresh_token_eq in H.
  destruct (hd_error (filter (is_valid tok now) (refreshtokens db)))
    as [stored |] eqn:Hstored; [| discriminate H].
  unfold bind at 1 in H. unfold UsersDAO.find_one_or_none in H.
  destruct (scalar_one_or_none
              (filter (fun u => User.id u =? RefreshToken.user_id stored) (users db)))
    as [[u |] | e] eqn:Hu; try discriminate H.
  assert (Hin : In u (users db)
                /\ (User.id u =? RefreshToken.user_id stored) = true).
  { apply (filter_In (fun u => User.id u =? RefreshToken.user_id stored)).
    unfold scalar_one_or_none in Hu.
    destruct (filter (fun u => User.id u =? RefreshToken.user_id stored) (users db))
      as [| x [| y l]]; try discriminate Hu.
    inversion Hu; subst. left. reflexivity. }
  destruct Hin as [Hin Hid]. rewrite Hid in H. simpl in H.
  unfold bind at 1 in H. rewrite revoke_refresh_token_eq in H.
  apply set_auth_tokens_Return in H. destruct H as [Hresp [row Hstore]].
  exists tok, stored, u, row.
  split; [reflexivity |]. split.
  { intros ->. discriminate Htruthy. }
  split; [exact Hstored |]. split; [exact Hin |].
  split; [apply Z.eqb_eq; exact Hid |]. split; [exact Hresp | exact Hstore].
Qed.

(** A refresh with a secret no active record carries is refused. *)
Lemma refresh_tokens_not_active request cookie body rnd now db tok :
  token_to_use cookie body = Some tok ->
  tok <> "" ->
  hd_error (filter (is_valid tok now) (refreshtokens db)) = None ->
  refresh_tokens settings jwt_encode request cookie body rnd now db
    = (db, Raise (HTTP NoValidRefreshTokenException)).
Proof.
  intros Htok Hne Hnone. unfold refresh_tokens. fold (token_to_use cookie body).
  rewrite Htok.
  assert (Htruthy : str_truthy tok = true).
  { unfold str_truthy. apply negb_true_iff. apply String.eqb_neq. exact Hne. }
  rewrite Htruthy. simpl. unfold bind at 1. rewrite validate_refresh_token_eq, Hnone.
  reflexivity.
Qed.

End Rotation.

Section RotationProperties.

Variable settings : Settings.
Variable jwt_encode : Claims -> string.

Lemma revoked_by_store_revoke flag user_id ua now r :
  revoked_by_store flag user_id ua (RefreshToken.revoke now r) = false.
Proof.
  unfold revoked_by_store, same_device. simpl. rewrite !andb_false_r. reflexivity.
Qed.

(** The database a successful refresh leaves. *)
Lemma refresh_tokens_effect request cookie body rnd now db db' resp :
  refresh_tokens settings jwt_encode request cookie body rnd now db
    = (db', Return resp) ->
  exists tok stored row,
    token_to_use cookie body = Some tok
    /\ tok <> ""
    /\ In stored (refreshtokens db)
    /\ is_valid tok now stored = true
    /\ token_urlsafe_64 rnd <> tok
    /\ refresh_token resp = token_urlsafe_64 rnd
    /\ row = RefreshToken.mk (refreshtokens_id_seq db) now now
               (RefreshToken.user_id stored) (token_urlsafe_64 rnd)
               (now + timedelta_days (REFRESH_TOKEN_EXPIRE_DAYS settings))
               false (header_user_agent request) (client request)
    /\ existsb (fun r => String.eqb (RefreshToken.token r) (token_urlsafe_64 rnd))
               (refreshtokens db) = false
    /\ db' = mkDatabase (users db)
               (map (fun r => if revoked_by_refresh tok (RefreshToken.user_id stored)
                                   (header_user_agent request) r
                              then RefreshToken.revoke now r else r)
                    (refreshtokens db) ++ [row])
               (refreshtokens_id_seq db + 1).
Proof.
  intro H. apply refresh_tokens_Return in H.
  destruct H as [tok [stored [u [row [Htok [Hne [Hstored [_ [_ [Hresp Hstore]]]]]]]]]].
  apply store_refresh_token_Return in Hstore. simpl in Hstore.
  destruct Hstore as [Hfresh [Hrow Hdb]].
  rewrite existsb_token_map_revoke in Hfresh.
  rewrite existsb_token_map_revoke in Hfresh.
  apply hd_error_filter_Some in Hstored. destruct Hstored as [Hin Hvalid].
  exists tok, stored, row.
  split; [exact Htok |]. split; [exact Hne |]. split; [exact Hin |].
  split; [exact Hvalid |]. split.
  { intro E. apply is_valid_iff in Hvalid. destruct Hvalid as [Ht _].
    assert (existsb (fun r => String.eqb (RefreshToken.token r) (token_urlsafe_64 rnd))
                    (refreshtokens db) = true).
    { apply existsb_exists. exists stored. split; [exact Hin |].
      apply String.eqb_eq. congruence. }
    congruence. }
  split; [exact Hresp |]. split; [exact Hrow |]. split; [exact Hfresh |].
  rewrite Hdb. f_equal. f_equal. rewrite map_map. apply map_ext. intro r.
  unfold revoked_by_refresh.
  destruct (String.eqb (RefreshToken.token r) tok); simpl.
  - rewrite revoked_by_store_revoke. reflexivity.
  - reflexivity.
Qed.

(** C1.  Once a refresh with a secret has succeeded, a refresh presenting
    that secret again, whatever the request and the time, raises the
    invalid-or-expired error, inserts no token and leaves the database as it
    is; this is the error a secret that no stored record carries gets. *)
Theorem refresh_tokens_single_use request cookie body rnd now db db' resp :
  refresh_tokens settings jwt_encode request cookie body rnd now db
    = (db', Return resp) ->
  exists tok,
    token_to_use cookie body = Some tok
    /\ (forall request2 cookie2 body2 rnd2 now2,
          token_to_use cookie2 body2 = Some tok ->
          refresh_tokens settings jwt_encode request2 cookie2 body2 rnd2 now2 db'
            = (db', Raise (HTTP NoValidRefreshTokenException)))
    /\ (forall unknown dbu request2 cookie2 body2 rnd2 now2,
          token_to_use cookie2 body2 = Some unknown ->
          unknown <> "" ->
          (forall r, In r (refreshtokens dbu) -> RefreshToken.token r <> unknown) ->
          refresh_tokens settings jwt_encode request2 cookie2 body2 rnd2 now2 dbu
            = (dbu, Raise (HTTP NoValidRefreshTokenException))).
Proof.
  intro H. apply refresh_tokens_effect in H.
  destruct H as [tok [stored [row [Htok [Hne [_ [_ [Hnew [_ [Hrow [_ Hdb]]]]]]]]]]].
  exists tok. split; [exact Htok |]. split.
  - intros request2 cookie2 body2 rnd2 now2 Htok2.
    apply refresh_tokens_not_active with (tok := tok); [exact Htok2 | exact Hne |].
    assert (Hall : all_revoked tok (refreshtokens db')).
    { rewrite Hdb. simpl. intros r Hr Ht. apply in_app_or in Hr.
      destruct Hr as [Hr | [<- | []]].
      - apply in_map_iff in Hr. destruct Hr as [r0 [<- Hr0]].
        unfold revoked_by_refresh in *.
        destruct (String.eqb (RefreshToken.token r0) tok) eqn:E.
        + reflexivity.
        + simpl in *. destruct (revoked_by_store true _ _ r0); [reflexivity |].
          apply String.eqb_neq in E. contradiction.
      - rewrite Hrow in Ht. simpl in Ht. contradiction. }
    pose proof (validate_all_revoked tok now2 db' Hall) as Hv.
    rewrite validate_refresh_token_eq in Hv. inversion Hv as [Hhd].
    rewrite Hhd. reflexivity.
  - intros unknown dbu request2 cookie2 body2 rnd2 now2 Htok2 Hne2 Hunknown.
    apply refresh_tokens_not_active with (tok := unknown); [exact Htok2 | exact Hne2 |].
    replace (filter (is_valid unknown now2) (refreshtokens dbu))
      with (@nil RefreshToken.t); [reflexivity |].
    symmetry. apply filter_nil_iff. intros r Hr.
    destruct (is_valid unknown now2 r) eqn:E; [| reflexivity].
    apply is_valid_iff in E. destruct E as [Ht _]. exfalso. exact (Hunknown r Hr Ht).
Qed.

(** C2, as the code has it.  A successful refresh rewrites the rows carrying
    the presented secret and, because the replacement is stored through the
    same step as at login, the non-revoked rows of the same user whose
    user-agent is the non-empty user-agent of the refreshing request; the
    rewriting sets [is_revoked] and stamps [updated_at].  Every other row of
    every user is carried over unchanged, and the one row added is the
    replacement. *)
Theorem refresh_tokens_frame request cookie body rnd now db db' resp :
  refresh_tokens settings jwt_encode request cookie body rnd now db
    = (db', Return resp) ->
  exists tok stored row,
    token_to_use cookie body = Some tok
    /\ In stored (refreshtokens db)
    /\ RefreshToken.token stored = tok
    /\ RefreshToken.token row = refresh_token resp
    /\ users db' = users db
    /\ refreshtokens db' =
         map (fun r => if revoked_by_refresh tok (RefreshToken.user_id stored)
                            (header_user_agent request) r
                       then RefreshToken.revoke now r else r)
             (refreshtokens db) ++ [row]
    /\ (forall r, In r (refreshtokens db) ->
          RefreshToken.token r <> tok ->
          ~ (opt_truthy (header_user_agent request) = true
             /\ RefreshToken.user_id r = RefreshToken.user_id stored
             /\ RefreshToken.user_agent r = header_user_agent request
             /\ RefreshToken.is_revoked r = false) ->
          In r (refreshtokens db'))
    /\ (opt_truthy (header_user_agent request) = false ->
        forall r, In r (refreshtokens db) ->
                  RefreshToken.token r <> tok -> In r (refreshtokens db')).
Proof.
  intro H. apply refresh_tokens_effect in H.
  destruct H as [tok [stored [row [Htok [Hne [Hin [Hvalid [_ [Hresp [Hrow [_ Hdb]]]]]]]]]]].
  assert (Hkeep : forall r, In r (refreshtokens db) ->
             revoked_by_refresh tok (RefreshToken.user_id stored)
               (header_user_agent request) r = false ->
             In r (refreshtokens db')).
  { intros r Hr E. rewrite Hdb. simpl. apply in_or_app. left.
    apply in_map_iff. exists r. rewrite E. split; [reflexivity | exact Hr]. }
  assert (Hframe : forall r, In r (refreshtokens db) ->
             RefreshToken.token r <> tok ->
             ~ (opt_truthy (header_user_agent request) = true
                /\ RefreshToken.user_id r = RefreshToken.user_id stored
                /\ RefreshToken.user_agent r = header_user_agent request
                /\ RefreshToken.is_revoked r = false) ->
             In r (refreshtokens db')).
  { intros r Hr Hnt Hnot. apply Hkeep; [exact Hr |].
    unfold revoked_by_refresh.
    replace (String.eqb (RefreshToken.token r) tok) with false
      by (symmetry; apply String.eqb_neq; exact Hnt).
    simpl. unfold revoked_by_store. simpl.
    destruct (opt_truthy (header_user_agent request)) eqn:Hua; [| reflexivity].
    simpl. destruct (same_device (RefreshToken.user_id stored)
                       (header_user_agent request) r) eqn:Hsd; [| reflexivity].
    exfalso. apply Hnot. unfold same_device in Hsd.
    apply andb_true_iff in Hsd. destruct Hsd as [Hsd Hrev].
    apply andb_true_iff in Hsd. destruct Hsd as [Huid Hagent].
    apply Z.eqb_eq in Huid. apply negb_true_iff in Hrev.
    split; [reflexivity |]. split; [exact Huid |]. split; [| exact Hrev].
    unfold sql_eq_str in Hagent.
    destruct (header_user_agent request) as [v |]; [| discriminate Hua].
    destruct (RefreshToken.user_agent r) as [s |]; [| discriminate Hagent].
    apply String.eqb_eq in Hagent. congruence. }
  exists tok, stored, row.
  split; [exact Htok |]. split; [exact Hin |].
  split; [apply is_valid_iff in Hvalid; tauto |].
  split; [rewrite Hrow, Hresp; reflexivity |].
  split; [rewrite Hdb; reflexivity |].
  split; [rewrite Hdb; reflexivity |].
  split; [exact Hframe |].
  intros Hua r Hr Hnt. apply Hframe; [exact Hr | exact Hnt |].
  intros [Hua' _]. congruence.
Qed.

End RotationProperties.

(** ** Login *)

Section LoginProperties.

Variable settings : Settings.
Variable jwt_encode : Claims -> string.
Variable verify_password : string -> string -> bool.

(** [authenticate_user] reads the users table and writes nothing. *)
Lemma authenticate_user_reads email_username password db :
  fst (authenticate_user verify_password email_username password db) = db
  /\ forall db2, users db2 = users db ->
       snd (authenticate_user verify_password email_username password db2)
       = snd (authenticate_user verify_password email_username password db).
Proof.
  unfold authenticate_user, bind, UsersDAO.find_one_or_none, ret.
  destruct (str_contains "@" email_username); cbv beta; (split; [| intros db2 ->]);
    match goal with
    | |- context [scalar_one_or_none ?l] =>
        destruct (scalar_one_or_none l) as [[u |] | e]
    end; try reflexivity;
    destruct (negb (verify_password password (User.password u))); reflexivity.
Qed.

(** What a successful [auth_user] went through. *)
Lemma auth_user_Return request user_data rnd now db db' resp :
  auth_user settings jwt_encode verify_password request user_data rnd now db
    = (db', Return resp) ->
  exists u row,
    snd (authenticate_user verify_password
           (email_username user_data) (auth_password user_data) db)
      = Return (Some u)
    /\ refresh_token resp = token_urlsafe_64 rnd
    /\ store_refresh_token settings (User.id u) (token_urlsafe_64 rnd)
         (Some request) true now db = (db', Return row).
Proof.
  intro H. unfold auth_user in H. apply bind_Return in H.
  destruct H as [db1 [user [Ha Hk]]].
  pose proof (authenticate_user_reads
                (email_username user_data) (auth_password user_data) db) as [Hfst _].
  rewrite Ha in Hfst. simpl in Hfst. subst db1.
  destruct user as [u |]; [| discriminate Hk].
  apply set_auth_tokens_Return in Hk. destruct Hk as [Hresp [row Hstore]].
  exists u, row. rewrite Ha. split; [reflexivity |]. split; assumption.
Qed.

Lemma revoked_by_store_same_device user_id ua r :
  ua <> "" ->
  RefreshToken.user_id r = user_id ->
  RefreshToken.user_agent r = Some ua ->
  revoked_by_store true user_id (Some ua) r = negb (RefreshToken.is_revoked r).
Proof.
  intros Hne Hu Ha. unfold revoked_by_store, same_device, sql_eq_str, opt_truthy, str_truthy.
  rewrite Hu, Ha, Z.eqb_refl, String.eqb_refl.
  replace (String.eqb ua "") with false by (symmetry; apply String.eqb_neq; exact Hne).
  reflexivity.
Qed.

(** C4, as the code has it.  When two logins with the same credentials come
    from requests with the same non-empty user-agent, the second one revokes
    every row of that user and user-agent it finds, the first login's among
    them, before it adds its own: afterwards the only non-revoked row of
    that user and user-agent is the new one, the first login's secret no
    longer validates, and the second login's secret validates until it
    expires. *)
Theorem auth_user_revokes_same_device
    request1 request2 user_data rnd1 rnd2 now1 now2 db0 db1 db2 resp1 resp2 ua :
  header_user_agent request1 = Some ua ->
  header_user_agent request2 = Some ua ->
  ua <> "" ->
  auth_user settings jwt_encode verify_password request1 user_data rnd1 now1 db0
    = (db1, Return resp1) ->
  auth_user settings jwt_encode verify_password request2 user_data rnd2 now2 db1
    = (db2, Return resp2) ->
  exists u new_row,
    In new_row (refreshtokens db2)
    /\ RefreshToken.token new_row = refresh_token resp2
    /\ RefreshToken.user_id new_row = User.id u
    /\ RefreshToken.user_agent new_row = Some ua
    /\ RefreshToken.is_revoked new_row = false
    /\ (exists old_row,
          In old_row (refreshtokens db1)
          /\ RefreshToken.token old_row = refresh_token resp1
          /\ RefreshToken.user_id old_row = User.id u
          /\ RefreshToken.is_revoked old_row = false
          /\ In (RefreshToken.revoke now2 old_row) (refreshtokens db2))
    /\ (forall r, In r (refreshtokens db1) ->
          RefreshToken.user_id r = User.id u ->
          RefreshToken.user_agent r = Some ua ->
          exists r', In r' (refreshtokens db2)
                     /\ RefreshToken.id r' = RefreshToken.id r
                     /\ RefreshToken.token r' = RefreshToken.token r
                     /\ RefreshToken.is_revoked r' = true)
    /\ (forall r', In r' (refreshtokens db2) ->
          RefreshToken.user_id r' = User.id u ->
          RefreshToken.user_agent r' = Some ua ->
          RefreshToken.is_revoked r' = false ->
          r' = new_row)
    /\ (forall now3,
          validate_refresh_token (refresh_token resp1) now3 db2 = (db2, Return None))
    /\ (forall now3,
          now3 < now2 + timedelta_days (REFRESH_TOKEN_EXPIRE_DAYS settings) ->
          validate_refresh_token (refresh_token resp2) now3 db2
            = (db2, Return (Some new_row))).
Proof.
  intros Hua1 Hua2 Hne H1 H2.
  apply auth_user_Return in H1. destruct H1 as [u1 [row1 [Hauth1 [Hresp1 Hstore1]]]].
  apply auth_user_Return in H2. destruct H2 as [u2 [row2 [Hauth2 [Hresp2 Hstore2]]]].
  apply store_refresh_token_Return in Hstore1. simpl in Hstore1.
  destruct Hstore1 as [Hfresh1 [Hrow1 Hdb1]].
  apply store_refresh_token_Return in Hstore2. simpl in Hstore2.
  destruct Hstore2 as [Hfresh2 [Hrow2 Hdb2]].
  rewrite existsb_token_map_revoke in Hfresh1, Hfresh2.
  (* both logins resolve the same user *)
  assert (Hsame : u2 = u1).
  { pose proof (authenticate_user_reads
                  (email_username user_data) (auth_password user_data) db0) as [_ Hsnd].
    assert (Hu : users db1 = users db0) by (rewrite Hdb1; reflexivity).
    rewrite (Hsnd db1 Hu), Hauth1 in Hauth2. inversion Hauth2. reflexivity. }
  subst u2. rewrite Hua1 in *. rewrite Hua2 in *.
  set (g := fun r => if revoked_by_store true (User.id u1) (Some ua) r
                     then RefreshToken.revoke now2 r else r) in *.
  assert (Hrows2 : refreshtokens db2 = map g (refreshtokens db1) ++ [row2])
    by (rewrite Hdb2; reflexivity).
  assert (Hin1 : In row1 (refreshtokens db1)).
  { rewrite Hdb1. simpl. apply in_or_app. right. left. reflexivity. }
  assert (Hg_id : forall r, RefreshToken.id (g r) = RefreshToken.id r
                            /\ RefreshToken.token (g r) = RefreshToken.token r
                            /\ RefreshToken.user_id (g r) = RefreshToken.user_id r
                            /\ RefreshToken.user_agent (g r) = RefreshToken.user_agent r).
  { intro r. unfold g. destruct (revoked_by_store true (User.id u1) (Some ua) r);
      repeat split; reflexivity. }
  assert (Hg_rev : forall r, RefreshToken.user_id r = User.id u1 ->
                             RefreshToken.user_agent r = Some ua ->
                             RefreshToken.is_revoked (g r) = true).
  { intros r Hu Ha. unfold g.
    rewrite (revoked_by_store_same_device (User.id u1) ua r Hne Hu Ha).
    destruct (RefreshToken.is_revoked r) eqn:E; simpl; [exact E | reflexivity]. }
  assert (Hneq : token_urlsafe_64 rnd2 <> token_urlsafe_64 rnd1).
  { intro E.
    assert (existsb (fun r => String.eqb (RefreshToken.token r) (token_urlsafe_64 rnd2))
                    (refreshtokens db1) = true).
    { apply existsb_exists. exists row1. split; [exact Hin1 |].
      rewrite Hrow1. simpl. apply String.eqb_eq. symmetry. exact E. }
    congruence. }
  exists u1, row2.
  split; [rewrite Hrows2; apply in_or_app; right; left; reflexivity |].
  split; [rewrite Hrow2, Hresp2; reflexivity |].
  split; [rewrite Hrow2; reflexivity |].
  split; [rewrite Hrow2; reflexivity |].
  split; [rewrite Hrow2; reflexivity |].
  split.
  { exists row1. split; [exact Hin1 |].
    split; [rewrite Hrow1, Hresp1; reflexivity |].
    split; [rewrite Hrow1; reflexivity |].
    split; [rewrite Hrow1; reflexivity |].
    rewrite Hrows2. apply in_or_app. left. apply in_map_iff. exists row1.
    split; [| exact Hin1]. unfold g.
    rewrite (revoked_by_store_same_device (User.id u1) ua row1 Hne)
      by (rewrite Hrow1; reflexivity).
    rewrite Hrow1. reflexivity. }
  split.
  { intros r Hr Hu Ha. exists (g r).
    split; [rewrite Hrows2; apply in_or_app; left; apply in_map; exact Hr |].
    split; [apply Hg_id |]. split; [apply Hg_id | apply Hg_rev; assumption]. }
  split.
  { intros r' Hr' Hu Ha Hrev. rewrite Hrows2 in Hr'. apply in_app_or in Hr'.
    destruct Hr' as [Hr' | [<- | []]]; [| reflexivity].
    exfalso. apply in_map_iff in Hr'. destruct Hr' as [r [<- Hr]].
    destruct (Hg_id r) as [_ [_ [Hgu Hga]]]. rewrite Hgu in Hu. rewrite Hga in Ha.
    rewrite (Hg_rev r Hu Ha) in Hrev. discriminate Hrev. }
  split.
  { intro now3. apply validate_all_revoked. rewrite Hresp1, Hrows2.
    intros r Hr Ht. apply in_app_or in Hr. destruct Hr as [Hr | [<- | []]].
    - apply in_map_iff in Hr. destruct Hr as [r0 [<- Hr0]].
      destruct (Hg_id r0) as [_ [Hgt _]]. rewrite Hgt in Ht.
      rewrite Hdb1 in Hr0. simpl in Hr0. apply in_app_or in Hr0.
      destruct Hr0 as [Hr0 | [<- | []]].
      + exfalso. apply in_map_iff in Hr0. destruct Hr0 as [r1 [<- Hr1]].
        assert (existsb (fun r => String.eqb (RefreshToken.token r) (token_urlsafe_64 rnd1))
                        (refreshtokens db0) = true).
        { apply existsb_exists. exists r1. split; [exact Hr1 |].
          apply String.eqb_eq. rewrite <- Ht.
          destruct (revoked_by_store true (User.id u1) (Some ua) r1); reflexivity. }
        congruence.
      + apply Hg_rev; rewrite Hrow1; reflexivity.
    - exfalso. rewrite Hrow2 in Ht. simpl in Ht. exact (Hneq Ht). }
  intros now3 Hlt. rewrite validate_refresh_token_eq. f_equal. f_equal.
  rewrite Hresp2, Hrows2, filter_app.
  replace (filter (is_valid (token_urlsafe_64 rnd2) now3) (map g (refreshtokens db1)))
    with (@nil RefreshToken.t).
  - simpl.
    replace (is_valid (token_urlsafe_64 rnd2) now3 row2) with true; [reflexivity |].
    symmetry. apply is_valid_iff. rewrite Hrow2. simpl.
    split; [reflexivity |]. split; [reflexivity | exact Hlt].
  - symmetry. apply filter_nil_iff. intros r Hr.
    destruct (is_valid (token_urlsafe_64 rnd2) now3 r) eqn:E; [| reflexivity].
    exfalso. apply is_valid_iff in E. destruct E as [Ht _].
    apply in_map_iff in Hr. destruct Hr as [r0 [<- Hr0]].
    destruct (Hg_id r0) as [_ [Hgt _]]. rewrite Hgt in Ht.
    assert (existsb (fun r => String.eqb (RefreshToken.token r) (token_urlsafe_64 rnd2))
                    (refreshtokens db1) = true).
    { apply existsb_exists. exists r0. split; [exact Hr0 |].
      apply String.eqb_eq. exact Ht. }
    congruence.
Qed.

End LoginProperties.

(** ** Relations every operation respects *)

Section Respecting.

Variable settings : Settings.
Variable jwt_encode : Claims -> string.
Variable verify_password : string -> string -> bool.


Section Respects.

Variable R : Database -> Database -> Prop.
Hypothesis R_refl : forall db, R db db.
Hypothesis R_trans : forall a b c, R a b -> R b c -> R a c.
Hypothesis R_update : forall p now db, R db (fst (update_revoke p now db)).
Hypothesis R_delete : forall p db, R db (fst (delete_where p db)).
Hypothesis R_insert :
  forall user_id token expires_at user_agent ip_address now db,
    R db (fst (insert_refresh_token user_id token expires_at
                 user_agent ip_address now db)).

Lemma respects_ret {A} (a : A) : respects R (ret a).
Proof. intro db. apply R_refl. Qed.

Lemma respects_raise {A} (e : exn) : respects R (@raise A e).
Proof. intro db. apply R_refl. Qed.

Lemma respects_bind {A B} (c : M A) (k : A -> M B) :
  respects R c -> (forall a, respects R (k a)) -> respects R (bind c k).
Proof.
  intros Hc Hk db. unfold bind. specialize (Hc db).
  destruct (c db) as [db1 [a | e]]; simpl in *.
  - apply R_trans with db1; [exact Hc | apply Hk].
  - exact Hc.
Qed.

Lemma respects_atomic {A} (c : M A) : respects R c -> respects R (atomic c).
Proof.
  intros Hc db. unfold atomic. specialize (Hc db).
  destruct (c db) as [db1 [a | e]]; simpl in *; [exact Hc | apply R_refl].
Qed.

Lemma respects_select p : respects R (select_where p).
Proof. intro db. apply R_refl. Qed.

Lemma respects_find p : respects R (UsersDAO.find_one_or_none p).
Proof. intro db. apply R_refl. Qed.

Lemma respects_update p now : respects R (update_revoke p now).
Proof. intro db. apply R_update. Qed.

Lemma respects_delete p : respects R (delete_where p).
Proof. intro db. apply R_delete. Qed.

Lemma respects_insert user_id token expires_at user_agent ip_address now :
  respects R (insert_refresh_token user_id token expires_at user_agent ip_address now).
Proof. intro db. apply R_insert. Qed.

Ltac respects_step :=
  first
    [ apply respects_ret
    | apply respects_raise
    | apply respects_select
    | apply respects_find
    | apply respects_update
    | apply respects_delete
    | apply respects_insert
    | apply respects_atomic
    | apply respects_bind; [| intro]
    | match goal with
      | |- respects R (if ?b then _ else _) => destruct b
      | |- respects R (match ?x with _ => _ end) => destruct x
      end ].

Lemma respects_store user_id token request flag now :
  respects R (store_refresh_token settings user_id token request flag now).
Proof. unfold store_refresh_token. repeat respects_step. Qed.

Lemma respects_validate token now : respects R (validate_refresh_token token now).
Proof. unfold validate_refresh_token. repeat respects_step. Qed.

Lemma respects_revoke token now : respects R (revoke_refresh_token token now).
Proof. unfold revoke_refresh_token. repeat respects_step. Qed.

Lemma respects_set_auth_tokens request user_id public_id rnd now :
  respects R (set_auth_tokens settings jwt_encode request user_id public_id rnd now).
Proof.
  unfold set_auth_tokens. apply respects_bind; [apply respects_store | intro].
  apply respects_ret.
Qed.

Lemma respects_active user_id now : respects R (get_active_session_tokens user_id now).
Proof. unfold get_active_session_tokens. repeat respects_step. Qed.

Lemma respects_limit user_id max_sessions now :
  respects R (limit_active_sessions user_id max_sessions now).
Proof.
  unfold limit_active_sessions.
  apply respects_bind; [apply respects_active | intro]. repeat respects_step.
Qed.

Lemma respects_refresh request cookie body rnd now :
  respects R (refresh_tokens settings jwt_encode request cookie body rnd now).
Proof.
  unfold refresh_tokens.
  destruct (py_or _ cookie) as [tok |]; [| apply respects_raise].
  destruct (negb (str_truthy tok)); [apply respects_raise |].
  apply respects_bind; [apply respects_validate | intros [stored |]];
    [| apply respects_raise].
  apply respects_bind; [apply respects_find | intros [u |]];
    [| apply respects_raise].
  destruct (negb (User.id u =? RefreshToken.user_id stored));
    [apply respects_raise |].
  apply respects_bind; [apply respects_revoke | intro].
  apply respects_set_auth_tokens.
Qed.

Lemma respects_login request user_data rnd now :
  respects R (auth_user settings jwt_encode verify_password request user_data rnd now).
Proof.
  unfold auth_user. apply respects_bind.
  - unfold authenticate_user. repeat respects_step.
  - intros [u |]; [apply respects_set_auth_tokens | apply respects_raise].
Qed.

Lemma perform_respects op now db : R db (perform settings jwt_encode verify_password op now db).
Proof.
  destruct op; unfold perform.
  - apply respects_store.
  - apply respects_validate.
  - apply respects_revoke.
  - unfold revoke_all_user_refresh_tokens. apply R_update.
  - assert (H : respects R (revoke_session_by_id token_id user_id now))
      by (unfold revoke_session_by_id; repeat respects_step).
    apply H.
  - assert (H : respects R (get_active_sessions user_id now)).
    { unfold get_active_sessions.
      apply respects_bind; [apply respects_active | intro; apply respects_ret]. }
    apply H.
  - apply respects_limit.
  - unfold cleanup_expired_tokens. apply R_delete.
  - apply respects_login.
  - apply respects_refresh.
  - assert (H : respects R (logout_user user cookie all_devices now)).
    { unfold logout_user. destruct all_devices.
      - apply respects_bind; [| intro; apply respects_ret].
        unfold revoke_all_user_refresh_tokens. apply respects_update.
      - destruct (opt_truthy cookie); [| apply respects_ret].
        apply respects_bind; [apply respects_revoke | intro; apply respects_ret]. }
    apply H.
  - assert (H : respects R (revoke_session session_id user now)).
    { unfold revoke_session, revoke_session_by_id. repeat respects_step. }
    apply H.
  - assert (H : respects R (limit_sessions max_sessions user now)).
    { unfold limit_sessions. destruct (max_sessions <? 1);
        [apply respects_raise | apply respects_limit]. }
    apply H.
Qed.

Lemma run_respects history db : R db (run settings jwt_encode verify_password history db).
Proof.
  revert db. induction history as [| [op now] rest IH]; intro db; simpl.
  - apply R_refl.
  - apply R_trans with (perform settings jwt_encode verify_password op now db); [apply perform_respects | apply IH].
Qed.

End Respects.

End Respecting.

(** ** Revocation is monotonic *)

Lemma keeps_revoked_update p now db : keeps_revoked db (fst (update_revoke p now db)).
Proof.
  intros i [Hseq Hrev]. split; [exact Hseq |]. simpl.
  intros r' Hr' Hid. apply in_map_iff in Hr'. destruct Hr' as [r [<- Hr]].
  destruct (p r); [reflexivity |]. apply Hrev; assumption.
Qed.

Lemma keeps_revoked_delete p db : keeps_revoked db (fst (delete_where p db)).
Proof.
  intros i [Hseq Hrev]. split; [exact Hseq |]. simpl.
  intros r Hr Hid. apply filter_In in Hr. apply Hrev; tauto.
Qed.

Lemma keeps_revoked_insert user_id token expires_at user_agent ip_address now db :
  keeps_revoked db
    (fst (insert_refresh_token user_id token expires_at user_agent ip_address now db)).
Proof.
  intros i [Hseq Hrev]. unfold insert_refresh_token, stays_revoked.
  destruct (negb _ || existsb _ (refreshtokens db)); simpl.
  - split; assumption.
  - split; [lia |]. intros r Hr Hid. apply in_app_or in Hr.
    destruct Hr as [Hr | [<- | []]].
    + apply Hrev; assumption.
    + simpl in Hid. lia.
Qed.

Lemma map_id_update (p : RefreshToken.t -> bool) now rows :
  map RefreshToken.id (map (fun r => if p r then RefreshToken.revoke now r else r) rows)
  = map RefreshToken.id rows.
Proof.
  rewrite map_map. apply map_ext. intro r. destruct (p r); reflexivity.
Qed.

Lemma keeps_keys_update p now db : keeps_keys db (fst (update_revoke p now db)).
Proof.
  intros [Hnd Hlt]. split; simpl.
  - rewrite map_id_update. exact Hnd.
  - intros r' Hr'. apply in_map_iff in Hr'. destruct Hr' as [r [<- Hr]].
    specialize (Hlt r Hr). destruct (p r); exact Hlt.
Qed.

Lemma keeps_keys_delete p db : keeps_keys db (fst (delete_where p db)).
Proof.
  intros [Hnd Hlt]. split; simpl.
  - apply selected_ids_NoDup. exact Hnd.
  - intros r Hr. apply filter_In in Hr. apply Hlt. tauto.
Qed.

Lemma keeps_keys_insert user_id token expires_at user_agent ip_address now db :
  keeps_keys db
    (fst (insert_refresh_token user_id token expires_at user_agent ip_address now db)).
Proof.
  intros [Hnd Hlt]. unfold insert_refresh_token, well_keyed.
  destruct (negb _ || existsb _ (refreshtokens db)); simpl.
  - split; assumption.
  - split.
    + rewrite map_app. simpl. apply NoDup_app.
      * exact Hnd.
      * constructor; [intros [] | constructor].
      * intros a Ha [<- | []]. apply in_map_iff in Ha.
        destruct Ha as [r [Hid Hr]]. specialize (Hlt r Hr). lia.
    + intros r Hr. apply in_app_or in Hr. destruct Hr as [Hr | [<- | []]].
      * specialize (Hlt r Hr). lia.
      * simpl. lia.
Qed.

Section Monotonicity.

Variable settings : Settings.
Variable jwt_encode : Claims -> string.
Variable verify_password : string -> string -> bool.

(** Every history keeps the primary key. *)
Lemma run_well_keyed history db :
  well_keyed db -> well_keyed (run settings jwt_encode verify_password history db).
Proof.
  apply (run_respects settings jwt_encode verify_password keeps_keys).
  - intros d H. exact H.
  - intros a b c Hab Hbc H. exact (Hbc (Hab H)).
  - apply keeps_keys_update.
  - apply keeps_keys_delete.
  - apply keeps_keys_insert.
Qed.

Lemma run_keeps_revoked history db :
  keeps_revoked db (run settings jwt_encode verify_password history db).
Proof.
  apply (run_respects settings jwt_encode verify_password keeps_revoked).
  - intros d i H. exact H.
  - intros a b c Hab Hbc i H. exact (Hbc i (Hab i H)).
  - apply keeps_revoked_update.
  - apply keeps_revoked_delete.
  - apply keeps_revoked_insert.
Qed.

(** C3.  Take a stored record whose revoked flag is true.  After any
    sequence of operations of the core, run at any times, every stored
    record with that record's id still has its revoked flag set, and
    [validate_refresh_token] returns no record with that id, whatever
    secret and time it is asked about. *)
Theorem revocation_is_monotonic
    (history : list (operation * Z)) (db : Database) (r : RefreshToken.t) :
  well_keyed db ->
  In r (refreshtokens db) ->
  RefreshToken.is_revoked r = true ->
  let db' := run settings jwt_encode verify_password history db in
  (forall r', In r' (refreshtokens db') ->
              RefreshToken.id r' = RefreshToken.id r ->
              RefreshToken.is_revoked r' = true)
  /\ (forall token now found,
        validate_refresh_token token now db' = (db', Return (Some found)) ->
        RefreshToken.id found <> RefreshToken.id r)
  /\ (forall token now,
        validate_refresh_token token now db' <> (db', Return (Some r))).
Proof.
  intros [Hnd Hlt] Hin Hrev db'.
  assert (H0 : stays_revoked (RefreshToken.id r) db).
  { split; [apply Hlt; exact Hin |]. intros r0 Hr0 Hid.
    assert (r0 = r)
      by (apply (NoDup_map_In_inj RefreshToken.id (refreshtokens db)); assumption).
    subst r0. exact Hrev. }
  pose proof (run_keeps_revoked history db _ H0) as [_ H1]. fold db' in H1.
  assert (H2 : forall token now found,
             validate_refresh_token token now db' = (db', Return (Some found)) ->
             RefreshToken.id found <> RefreshToken.id r).
  { intros token now found Hv Hid. rewrite validate_refresh_token_eq in Hv.
    inversion Hv as [Hhd]. apply hd_error_filter_Some in Hhd.
    destruct Hhd as [Hfound Hvalid]. apply is_valid_iff in Hvalid.
    destruct Hvalid as [_ [Hnot _]]. rewrite (H1 found Hfound Hid) in Hnot.
    discriminate Hnot. }
  split; [exact H1 |]. split; [exact H2 |].
  intros token now Hv. exact (H2 token now r Hv eq_refl).
Qed.

End Monotonicity.

(** ** Verifying an access token *)

Section AccessVerifier.

Variable jwt_decode : string -> Z -> option Claims.
Variable uuid_of_text : string -> option string.

(** A decoded token without an expiry claim never reaches the expiry test:
    [int(expire)] raises first. *)
Lemma get_current_user_without_exp token now payload db :
  jwt_decode token now = Some payload ->
  exp payload = None ->
  get_current_user jwt_decode uuid_of_text token now db = (db, Raise TypeError).
Proof.
  intros Hd He. unfold get_current_user. rewrite Hd, He. reflexivity.
Qed.

(** A decoded token whose expiry lies before the current time is refused as
    expired. *)
Lemma get_current_user_stale token now payload e db :
  jwt_decode token now = Some payload ->
  exp payload = Some e ->
  min_timestamp <= e <= max_timestamp ->
  e * usec_per_second < now ->
  get_current_user jwt_decode uuid_of_text token now db
    = (db, Raise (HTTP TokenExpiredException)).
Proof.
  intros Hd He [Hmin Hmax] Hlt. unfold get_current_user. rewrite Hd, He.
  replace (e <? min_timestamp) with false by (symmetry; apply Z.ltb_ge; exact Hmin).
  replace (max_timestamp <? e) with false by (symmetry; apply Z.ltb_ge; exact Hmax).
  replace (e * usec_per_second <? now) with true by (symmetry; apply Z.ltb_lt; exact Hlt).
  rewrite orb_true_r. reflexivity.
Qed.

End AccessVerifier.

(** ** The expiry check of the library *)

(** A time at least one second past [e] falls in a later second. *)
Lemma second_of_after e now : (e + 1) * usec_per_second <= now -> e < now / usec_per_second.
Proof.
  intro H.
  assert (H1 : e + 1 <= now / usec_per_second).
  { apply Z.div_le_lower_bound; [reflexivity |]. rewrite Z.mul_comm. exact H. }
  lia.
Qed.

Lemma jwt_decode_default_in_time verified token payload e now :
  verified token = Some payload ->
  exp payload = Some e ->
  now < (e + 1) * usec_per_second ->
  jwt_decode_default verified token now = Some payload.
Proof.
  intros Hv He Hlt. unfold jwt_decode_default. rewrite Hv, He.
  replace (e <? now / usec_per_second) with false; [reflexivity |].
  symmetry. apply Z.ltb_ge.
  assert (H2 : now / usec_per_second < e + 1).
  { apply Z.div_lt_upper_bound; [reflexivity |]. rewrite Z.mul_comm. exact Hlt. }
  lia.
Qed.

Lemma jwt_decode_default_expired verified token payload e now :
  verified token = Some payload ->
  exp payload = Some e ->
  (e + 1) * usec_per_second <= now ->
  jwt_decode_default verified token now = None.
Proof.
  intros Hv He Hle. unfold jwt_decode_default. rewrite Hv, He.
  replace (e <? now / usec_per_second) with true; [reflexivity |].
  symmetry. apply Z.ltb_lt. apply second_of_after. exact Hle.
Qed.

Section LibraryExpiry.

Variable verified : string -> option Claims.
Variable uuid_of_text : string -> option string.

(** From the second after its [exp] on, a signed token is refused by
    [jwt.decode] itself: the code answers with the invalid-token error and
    its own expiry test is not reached. *)
Lemma get_current_user_refused_by_library token now payload e db :
  verified token = Some payload ->
  exp payload = Some e ->
  (e + 1) * usec_per_second <= now ->
  get_current_user (jwt_decode_default verified) uuid_of_text token now db
    = (db, Raise (HTTP NoJwtException)).
Proof.
  intros Hv He Hle. unfold get_current_user.
  rewrite (jwt_decode_default_expired verified token payload e now Hv He Hle).
  reflexivity.
Qed.

(** The expiry test of the code decides within the second of [exp] only. *)
Lemma get_current_user_expired_within_second token now payload e db :
  verified token = Some payload ->
  exp payload = Some e ->
  min_timestamp <= e <= max_timestamp ->
  e * usec_per_second < now < (e + 1) * usec_per_second ->
  get_current_user (jwt_decode_default verified) uuid_of_text token now db
    = (db, Raise (HTTP TokenExpiredException)).
Proof.
  intros Hv He Hrange [Hlo Hhi].
  apply (get_current_user_stale _ _ token now payload e db); try assumption.
  apply (jwt_decode_default_in_time verified token payload e now Hv He Hhi).
Qed.

End LibraryExpiry.

(** ** The owner of a presented refresh token *)

Lemma keeps_references_update p now db :
  keeps_references db (fst (update_revoke p now db)).
Proof.
  intros [Hnd Hown]. split; [exact Hnd |]. simpl.
  intros r' Hr'. apply in_map_iff in Hr'. destruct Hr' as [r [<- Hr]].
  destruct (Hown r Hr) as [u [Hu Hid]]. exists u. split; [exact Hu |].
  destruct (p r); exact Hid.
Qed.

Lemma keeps_references_delete p db : keeps_references db (fst (delete_where p db)).
Proof.
  intros [Hnd Hown]. split; [exact Hnd |]. simpl.
  intros r Hr. apply filter_In in Hr. apply Hown. tauto.
Qed.

Lemma keeps_references_insert user_id token expires_at user_agent ip_address now db :
  keeps_references db
    (fst (insert_refresh_token user_id token expires_at user_agent ip_address now db)).
Proof.
  intros [Hnd Hown]. unfold insert_refresh_token.
  destruct (existsb (fun u => User.id u =? user_id) (users db)) eqn:Eu; simpl;
    [| split; assumption].
  destruct (existsb _ (refreshtokens db)); simpl; [split; assumption |].
  split; [exact Hnd |]. simpl. intros r Hr. apply in_app_or in Hr.
  destruct Hr as [Hr | [<- | []]].
  - apply Hown. exact Hr.
  - simpl. apply existsb_exists in Eu. destruct Eu as [u [Hu Hid]].
    exists u. split; [exact Hu | apply Z.eqb_eq; exact Hid].
Qed.



Section References.

Variable settings : Settings.
Variable jwt_encode : Claims -> string.
Variable verify_password : string -> string -> bool.

(** Every history keeps the foreign key: no operation writes the users
    table, and a row is inserted for a stored user only. *)
Lemma run_references_users history db :
  references_users db ->
  references_users (run settings jwt_encode verify_password history db).
Proof.
  apply (run_respects settings jwt_encode verify_password keeps_references).
  - intros d H. exact H.
  - intros a b c Hab Hbc H. exact (Hbc (Hab H)).
  - apply keeps_references_update.
  - apply keeps_references_delete.
  - apply keeps_references_insert.
Qed.

End References.

Section Owner.

Variable settings : Settings.
Variable jwt_encode : Claims -> string.




End Owner.

(** * Worked scenarios *)

Module Scenario.

Import Fixtures.

Example two_devices_reached :
  exists db1 resp1 resp2,
    auth_user default_settings encode verify device_a credentials
      (mkEntropy "j1" "r1") 1000 empty_db = (db1, Return resp1)
    /\ auth_user default_settings encode verify device_b credentials
         (mkEntropy "j2" "r2") 2000 db1 = (two_devices, Return resp2).
Proof. do 3 eexists. split; reflexivity. Qed.

(** C2, counterexample.  The refresh below succeeds, presenting the secret
    ["r1"]; the session with secret ["r2"], which was not presented, is
    active before it and revoked after it. *)
Lemma refresh_tokens_revokes_unpresented_session :
  refresh_tokens default_settings encode device_b (Some "r1") None
    (mkEntropy "j3" "r3") 3000 two_devices
    = (after_refresh, Return (mkTokenResponse "jwt:pub-alice" "r3" 900))
  /\ In session_b (refreshtokens two_devices)
  /\ RefreshToken.token session_b <> "r1"
  /\ is_valid "r2" 3000 session_b = true
  /\ ~ In session_b (refreshtokens after_refresh)
  /\ validate_refresh_token "r2" 3000 after_refresh = (after_refresh, Return None).
Proof.
  split; [reflexivity |].
  split; [right; left; reflexivity |].
  split; [discriminate |].
  split; [reflexivity |].
  split; [| reflexivity].
  intros [H | [H | [H | []]]]; discriminate H.
Qed.

(** C2, witness: the secret of device A refreshed from device A; the session
    of device B is carried over unchanged. *)
Lemma refresh_tokens_frame_witness :
  refresh_tokens default_settings encode device_a (Some "r1") None
    (mkEntropy "j3" "r3") 3000 two_devices
    = (mkDatabase [alice]
         [RefreshToken.revoke 3000 session_a; session_b;
          RefreshToken.mk 3 3000 3000 1 "r3" 604800003000 false
            (Some "A") (Some "10.0.0.1")] 4,
       Return (mkTokenResponse "jwt:pub-alice" "r3" 900))
  /\ exists tok stored row,
       token_to_use (Some "r1") None = Some tok
       /\ In stored (refreshtokens two_devices)
       /\ RefreshToken.token stored = tok
       /\ RefreshToken.token row = "r3".
Proof.
  assert (H : refresh_tokens default_settings encode device_a (Some "r1") None
                (mkEntropy "j3" "r3") 3000 two_devices
              = (mkDatabase [alice]
                   [RefreshToken.revoke 3000 session_a; session_b;
                    RefreshToken.mk 3 3000 3000 1 "r3" 604800003000 false
                      (Some "A") (Some "10.0.0.1")] 4,
                 Return (mkTokenResponse "jwt:pub-alice" "r3" 900)))
    by reflexivity.
  split; [exact H |].
  destruct (refresh_tokens_frame default_settings encode _ _ _ _ _ _ _ _ H)
    as [tok [stored [row [H1 [H2 [H3 [H4 _]]]]]]].
  exists tok, stored, row. repeat split; assumption.
Defined.

(** C1, witness: after the refresh above, presenting ["r1"] once more. *)
Lemma refresh_tokens_single_use_witness :
  refresh_tokens default_settings encode device_b (Some "r1") None
    (mkEntropy "j3" "r3") 3000 two_devices
    = (after_refresh, Return (mkTokenResponse "jwt:pub-alice" "r3" 900))
  /\ refresh_tokens default_settings encode device_a (Some "r1") None
       (mkEntropy "j4" "r4") 4000 after_refresh
     = (after_refresh, Raise (HTTP NoValidRefreshTokenException)).
Proof.
  assert (H : refresh_tokens default_settings encode device_b (Some "r1") None
                (mkEntropy "j3" "r3") 3000 two_devices
              = (after_refresh, Return (mkTokenResponse "jwt:pub-alice" "r3" 900)))
    by reflexivity.
  split; [exact H |].
  destruct (refresh_tokens_single_use default_settings encode _ _ _ _ _ _ _ _ H)
    as [tok [Htok [Hagain _]]].
  apply Hagain. exact Htok.
Defined.

(** C3, witness: the two revoked sessions of [after_refresh] stay revoked
    through a login, a refresh, a logout everywhere and a cap. *)
Lemma revocation_is_monotonic_witness :
  well_keyed after_refresh
  /\ In (RefreshToken.revoke 3000 session_b) (refreshtokens after_refresh)
  /\ validate_refresh_token "r2" 9000
       (run default_settings encode verify later_history after_refresh)
     <> (run default_settings encode verify later_history after_refresh,
         Return (Some (RefreshToken.revoke 3000 session_b))).
Proof.
  assert (Hkeys : well_keyed after_refresh).
  { split.
    - simpl. repeat constructor; simpl; intuition discriminate.
    - intros r [<- | [<- | [<- | []]]]; reflexivity. }
  assert (Hin : In (RefreshToken.revoke 3000 session_b) (refreshtokens after_refresh))
    by (right; left; reflexivity).
  split; [exact Hkeys |]. split; [exact Hin |].
  destruct (revocation_is_monotonic default_settings encode verify
              later_history after_refresh (RefreshToken.revoke 3000 session_b)
              Hkeys Hin eq_refl) as [_ [_ Hnever]].
  exact (Hnever "r2" 9000).
Defined.

(** C4, counterexample.  Two logins in succession from requests whose
    user-agent header is present and empty: the first login's refresh token
    is still returned by [validate_refresh_token] after the second. *)
Lemma auth_user_blank_agent_keeps_earlier_session :
  header_user_agent blank_agent <> None
  /\ auth_user default_settings encode verify blank_agent credentials
       (mkEntropy "j1" "r1") 1000 empty_db
     = (mkDatabase [alice] [blank_first] 2,
        Return (mkTokenResponse "jwt:pub-alice" "r1" 900))
  /\ auth_user default_settings encode verify blank_agent credentials
       (mkEntropy "j2" "r2") 2000 (mkDatabase [alice] [blank_first] 2)
     = (mkDatabase [alice] [blank_first; blank_second] 3,
        Return (mkTokenResponse "jwt:pub-alice" "r2" 900))
  /\ RefreshToken.user_agent blank_first = header_user_agent blank_agent
  /\ validate_refresh_token "r1" 3000 (mkDatabase [alice] [blank_first; blank_second] 3)
     = (mkDatabase [alice] [blank_first; blank_second] 3, Return (Some blank_first)).
Proof.
  split; [discriminate |]. repeat split; reflexivity.
Qed.

(** C4, witness: two logins in succession from device A. *)
Lemma auth_user_revokes_same_device_witness :
  validate_refresh_token "r1" 3000
    (mkDatabase [alice]
       [RefreshToken.revoke 2000 session_a;
        RefreshToken.mk 2 2000 2000 1 "r2" 604800002000 false
          (Some "A") (Some "10.0.0.1")] 3)
  = (mkDatabase [alice]
       [RefreshToken.revoke 2000 session_a;
        RefreshToken.mk 2 2000 2000 1 "r2" 604800002000 false
          (Some "A") (Some "10.0.0.1")] 3,
     Return None).
Proof.
  assert (H1 : auth_user default_settings encode verify device_a credentials
                 (mkEntropy "j1" "r1") 1000 empty_db
               = (mkDatabase [alice] [session_a] 2,
                  Return (mkTokenResponse "jwt:pub-alice" "r1" 900)))
    by reflexivity.
  assert (H2 : auth_user default_settings encode verify device_a credentials
                 (mkEntropy "j2" "r2") 2000 (mkDatabase [alice] [session_a] 2)
               = (mkDatabase [alice]
                    [RefreshToken.revoke 2000 session_a;
                     RefreshToken.mk 2 2000 2000 1 "r2" 604800002000 false
                       (Some "A") (Some "10.0.0.1")] 3,
                  Return (mkTokenResponse "jwt:pub-alice" "r2" 900)))
    by reflexivity.
  assert (Hne : "A" <> "") by discriminate.
  destruct (auth_user_revokes_same_device default_settings encode verify
              device_a device_a credentials _ _ _ _ _ _ _ _ _ "A"
              eq_refl eq_refl Hne H1 H2)
    as [u [new_row [_ [_ [_ [_ [_ [_ [_ [_ [Hold _]]]]]]]]]]].
  exact (Hold 3000).
Defined.

(** C5, witness: six active sessions capped to three, and a cap of zero. *)
Lemma limit_sessions_keeps_newest_witness :
  (exists db',
     limit_sessions 3 alice 100 six_sessions = (db', Return 3)
     /\ get_active_session_tokens 1 100 db'
        = (db', Return [session_at 6; session_at 5; session_at 4]))
  /\ limit_sessions 0 alice 100 six_sessions
     = (six_sessions, Raise (HTTP MaxSessionsException)).
Proof.
  assert (Hkeys : NoDup (map RefreshToken.id (refreshtokens six_sessions))).
  { simpl. repeat constructor; simpl; intuition discriminate. }
  destruct (limit_sessions_keeps_newest 3 alice 100 six_sessions Hkeys) as [_ Hcap].
  destruct (limit_sessions_keeps_newest 0 alice 100 six_sessions Hkeys) as [Hzero _].
  split.
  - assert (Hge : 1 <= 3) by lia.
    destruct (Hcap Hge) as [db' [Hrun [_ [_ [_ [Hactive _]]]]]].
    exists db'. split; [exact Hrun | exact Hactive].
  - apply Hzero. lia.
Defined.

(** C6, at the failing inputs.  A token with a valid signature whose claims
    carry no [exp] makes [get_current_user] raise [TypeError], not the
    expired-token error.  A token with a valid signature whose [exp] is one
    second in the past is refused by [jwt.decode] itself, and the code
    answers with the invalid-token error, which is not the expired-token
    error. *)
Theorem get_current_user_missing_exp_raises_TypeError
    (uuid_of_text : string -> option string) :
  signed "signed-without-exp" = Some (mkClaims (Some "pub-alice") (Some "j1") None)
  /\ get_current_user decode uuid_of_text "signed-without-exp" 1700000000000000 empty_db
     = (empty_db, Raise TypeError)
  /\ signed "signed-stale"
     = Some (mkClaims (Some "pub-alice") (Some "j2") (Some (1700000000 - 1)))
  /\ get_current_user decode uuid_of_text "signed-stale" 1700000000000000 empty_db
     = (empty_db, Raise (HTTP NoJwtException))
  /\ HTTP NoJwtException <> HTTP TokenExpiredException.
Proof. repeat split; try reflexivity. discriminate. Qed.


(** C10, witness: the session of device A, revoked twice by its owner. *)
Lemma revoke_session_by_id_idempotent_witness :
  int32 1
  /\ exists db1 db2,
       revoke_session_by_id 1 (User.id alice) 3000 two_devices = (db1, Return true)
       /\ revoke_session_by_id 1 (User.id alice) 4000 db1 = (db2, Return true).
Proof.
  assert (Hid : int32 1) by (unfold int32; lia).
  split; [exact Hid |].
  destruct (revoke_session_by_id_idempotent 1 alice 3000 4000 two_devices Hid)
    as [db1 [db2 [ok [Hfirst [Hok [_ [Hsecond _]]]]]]].
  assert (Htrue : ok = true).
  { apply Hok. exists session_a. split; [left; reflexivity |]. split; reflexivity. }
  subst ok. exists db1, db2. split; [exact Hfirst | exact Hsecond].
Defined.

End Scenario.

(** * Further properties of the code *)

(** ** Selections after an update *)

Lemma filter_map_fixed {A} (p : A -> bool) (g : A -> A) (l : list A) :
  (forall x, p x = true -> g x = x) ->
  (forall x, p x = false -> p (g x) = false) ->
  filter p (map g l) = filter p l.
Proof.
  intros Hfix Hout. induction l as [| a l IH]; simpl; [reflexivity |].
  destruct (p a) eqn:Ha.
  - rewrite (Hfix a Ha), Ha, IH. reflexivity.
  - rewrite (Hout a Ha), IH. reflexivity.
Qed.

Lemma filter_narrowed {A} (p q : A -> bool) (l : list A) :
  (forall x, p x = true -> q x = true) ->
  filter p (filter q l) = filter p l.
Proof.
  intro H. induction l as [| a l IH]; simpl; [reflexivity |].
  destruct (q a) eqn:Hq; simpl.
  - rewrite IH. reflexivity.
  - destruct (p a) eqn:Hp; [| exact IH].
    rewrite (H a Hp) in Hq. discriminate Hq.
Qed.

Lemma get_active_session_tokens_eq user_id now db :
  get_active_session_tokens user_id now db =
    (db, Return (order_by_created_at_desc
                   (filter (is_active_of user_id now) (refreshtokens db)))).
Proof. reflexivity. Qed.

Lemma revoke_all_user_refresh_tokens_eq user_id now db :
  revoke_all_user_refresh_tokens user_id now db =
    (with_refreshtokens db
       (map (fun r => if (RefreshToken.user_id r =? user_id)
                         && negb (RefreshToken.is_revoked r)
                      then RefreshToken.revoke now r else r)
            (refreshtokens db)),
     Return (count_where
               (fun r => (RefreshToken.user_id r =? user_id)
                         && negb (RefreshToken.is_revoked r))
               (refreshtokens db))).
Proof. reflexivity. Qed.

(** ** Revoking by secret *)

(** X1.  [revoke_refresh_token] answers [True] exactly when some row carries
    the secret, whoever owns the row and whether or not it is expired or
    already revoked.  It revokes every such row and leaves the rows with
    another secret unchanged; afterwards [validate_refresh_token] finds
    nothing under that secret at any time. *)
Theorem revoke_refresh_token_closes_secret (token : string) (now : Z) (db : Database) :
  exists db' found,
    revoke_refresh_token token now db = (db', Return found)
    /\ (found = true <->
        exists r, In r (refreshtokens db) /\ RefreshToken.token r = token)
    /\ users db' = users db
    /\ List.length (refreshtokens db') = List.length (refreshtokens db)
    /\ (forall r, In r (refreshtokens db) -> RefreshToken.token r <> token ->
                  In r (refreshtokens db'))
    /\ (forall r, In r (refreshtokens db) -> RefreshToken.token r = token ->
                  In (RefreshToken.revoke now r) (refreshtokens db'))
    /\ (forall now',
          validate_refresh_token token now' db' = (db', Return None)).
Proof.
  rewrite revoke_refresh_token_eq.
  eexists. eexists. split; [reflexivity |].
  split.
  { rewrite existsb_exists. split.
    - intros [r [Hr E]]. exists r. apply String.eqb_eq in E. tauto.
    - intros [r [Hr E]]. exists r. split; [exact Hr | apply String.eqb_eq; exact E]. }
  split; [reflexivity |]. split; [simpl; apply length_map |].
  split.
  { intros r Hr Hne. simpl. apply in_map_iff. exists r. split; [| exact Hr].
    replace (String.eqb (RefreshToken.token r) token) with false
      by (symmetry; apply String.eqb_neq; exact Hne).
    reflexivity. }
  split.
  { intros r Hr E. simpl. apply in_map_iff. exists r. split; [| exact Hr].
    replace (String.eqb (RefreshToken.token r) token) with true
      by (symmetry; apply String.eqb_eq; exact E).
    reflexivity. }
  intro now'. apply validate_all_revoked. simpl. apply all_revoked_after_revoke.
Qed.

Lemma revoke_all_leaves_no_active user_id now db now' :
  filter (is_active_of user_id now')
         (map (fun r => if (RefreshToken.user_id r =? user_id)
                           && negb (RefreshToken.is_revoked r)
                        then RefreshToken.revoke now r else r)
              (refreshtokens db))
  = [].
Proof.
  apply filter_nil_iff. intros r' Hr'.
  apply in_map_iff in Hr'. destruct Hr' as [r [<- _]].
  unfold is_active_of.
  destruct ((RefreshToken.user_id r =? user_id) && negb (RefreshToken.is_revoked r)) eqn:E.
  - simpl. rewrite andb_false_r. reflexivity.
  - rewrite E. reflexivity.
Qed.

(** ** Revoking every session of a user *)


(** ** Logout *)

(** X3.  [logout_user] never raises.  With [all_devices] it leaves the user
    without any active session.  Without it, a non-empty refresh cookie is
    revoked by its secret alone, whoever owns the row, and no longer
    validates; with no cookie, or an empty one, the database is untouched. *)
Theorem logout_user_effect
    (user : User.t) (cookie : option string) (all_devices : bool) (now : Z)
    (db : Database) :
  exists db',
    logout_user user cookie all_devices now db = (db', Return tt)
    /\ users db' = users db
    /\ (all_devices = true ->
        forall now', get_active_session_tokens (User.id user) now' db' = (db', Return []))
    /\ (all_devices = false ->
        forall tok, cookie = Some tok -> tok <> "" ->
          (forall r, In r (refreshtokens db) -> RefreshToken.token r = tok ->
                     In (RefreshToken.revoke now r) (refreshtokens db'))
          /\ (forall r, In r (refreshtokens db) -> RefreshToken.token r <> tok ->
                        In r (refreshtokens db'))
          /\ forall now', validate_refresh_token tok now' db' = (db', Return None))
    /\ (all_devices = false -> opt_truthy cookie = false -> db' = db).
Proof.
  destruct all_devices.
  - eexists. split.
    { unfold logout_user, bind. rewrite revoke_all_user_refresh_tokens_eq. reflexivity. }
    split; [reflexivity |]. split.
    { intros _ now'. rewrite get_active_session_tokens_eq. simpl.
      rewrite revoke_all_leaves_no_active. reflexivity. }
    split; intro H; discriminate H.
  - destruct (opt_truthy cookie) eqn:Hc.
    + destruct cookie as [tok |]; [| discriminate Hc].
      eexists. split.
      { unfold logout_user, bind. rewrite Hc, revoke_refresh_token_eq. reflexivity. }
      split; [reflexivity |]. split; [intro H; discriminate H |].
      split; [| intros _ H; discriminate H].
      intros _ tok' E Hne. inversion E; subst tok'. simpl.
      split; [| split].
      * intros r Hr Ht. apply in_map_iff. exists r. split; [| exact Hr].
        replace (String.eqb (RefreshToken.token r) tok) with true
          by (symmetry; apply String.eqb_eq; exact Ht).
        reflexivity.
      * intros r Hr Ht. apply in_map_iff. exists r. split; [| exact Hr].
        replace (String.eqb (RefreshToken.token r) tok) with false
          by (symmetry; apply String.eqb_neq; exact Ht).
        reflexivity.
      * intro now'. apply validate_all_revoked. simpl. apply all_revoked_after_revoke.
    + exists db. split.
      { unfold logout_user. rewrite Hc. reflexivity. }
      split; [reflexivity |]. split; [intro H; discriminate H |].
      split; [| reflexivity].
      intros _ tok E Hne. exfalso. subst cookie. simpl in Hc.
      unfold str_truthy in Hc. apply negb_false_iff, String.eqb_eq in Hc. contradiction.
Qed.

(** ** Listing the active sessions *)

Lemma is_active_of_iff user_id now r :
  is_active_of user_id now r = true <->
  RefreshToken.user_id r = user_id /\ RefreshToken.is_revoked r = false
  /\ now < RefreshToken.expires_at r.
Proof.
  unfold is_active_of. rewrite !andb_true_iff, negb_true_iff, Z.eqb_eq, Z.ltb_lt.
  tauto.
Qed.

(** X4.  [get_active_sessions] writes nothing and returns one entry for each
    stored row of the user that is not revoked and expires after [now], no
    entry for any other row, in order of creation time from the newest to the
    oldest. *)
Theorem get_active_sessions_newest_first (user : User.t) (now : Z) (db : Database) :
  exists tokens,
    list_active_sessions user now db = (db, Return (map session_info tokens))
    /\ Permutation tokens
         (filter (is_active_of (User.id user) now) (refreshtokens db))
    /\ (forall t, In t tokens <->
                  In t (refreshtokens db)
                  /\ RefreshToken.user_id t = User.id user
                  /\ RefreshToken.is_revoked t = false
                  /\ now < RefreshToken.expires_at t)
    /\ StronglySorted (fun a b => s_created_at b <= s_created_at a)
         (map session_info tokens).
Proof.
  exists (order_by_created_at_desc
            (filter (is_active_of (User.id user) now) (refreshtokens db))).
  split; [reflexivity |].
  split; [apply order_by_created_at_desc_perm |].
  split.
  - intro t. rewrite <- is_active_of_iff, <- filter_In. split; intro H.
    + apply (Permutation_in _ (order_by_created_at_desc_perm _)). exact H.
    + apply (Permutation_in _ (Permutation_sym (order_by_created_at_desc_perm _))).
      exact H.
  - pose proof (order_by_created_at_desc_sorted
                  (filter (is_active_of (User.id user) now) (refreshtokens db))) as Hs.
    induction Hs as [| a l Hl IH Ha]; simpl; constructor.
    + exact IH.
    + rewrite Forall_forall in Ha |- *. intros s Hs'.
      apply in_map_iff in Hs'. destruct Hs' as [b [<- Hb]]. exact (Ha b Hb).
Qed.

(** X5.  After [revoke_session_by_id], the active sessions of the owner are
    the ones listed before without the session of that id, in the same order,
    and the active sessions of every other user are as before. *)
Theorem revoke_session_by_id_drops_session
    (token_id user_id : Z) (now now' : Z) (db : Database) :
  let db1 := fst (revoke_session_by_id token_id user_id now db) in
  get_active_session_tokens user_id now' db1
    = (db1, Return (filter (fun r => negb (RefreshToken.id r =? token_id))
                           (order_by_created_at_desc
                              (filter (is_active_of user_id now') (refreshtokens db)))))
  /\ (forall other, other <> user_id ->
        get_active_session_tokens other now' db1
        = (db1, snd (get_active_session_tokens other now' db))).
Proof.
  intro db1. unfold db1. rewrite revoke_session_by_id_eq. simpl. split.
  - rewrite get_active_session_tokens_eq. simpl. f_equal. f_equal.
    rewrite filter_active_after_revoke, filter_order_by_created_at_desc. f_equal.
    apply filter_ext_in. intros r Hr. apply filter_In in Hr. destruct Hr as [_ Hr].
    apply is_active_of_iff in Hr. destruct Hr as [Hu _].
    unfold owned_by. rewrite Hu, Z.eqb_refl, andb_true_r. reflexivity.
  - intros other Hne. rewrite !get_active_session_tokens_eq. simpl.
    f_equal. f_equal. f_equal. apply filter_map_fixed.
    + intros r Hr. apply is_active_of_iff in Hr. destruct Hr as [Hu _].
      unfold owned_by.
      replace (RefreshToken.user_id r =? user_id) with false
        by (symmetry; apply Z.eqb_neq; congruence).
      rewrite andb_false_r. reflexivity.
    + intros r Hr. destruct (owned_by token_id user_id r);
        [apply is_active_of_revoke | exact Hr].
Qed.

(** ** The cleanup sweep and the readers *)

(** X6.  A cleanup sweep is invisible to the readers that run at the same
    time or later: [validate_refresh_token] and [get_active_session_tokens]
    answer on the swept table what they answer on the table before the sweep.
    Sweeping again at the time of the sweep deletes nothing. *)
Theorem cleanup_expired_tokens_is_invisible (now now' : Z) (db : Database) :
  now <= now' ->
  let db' := fst (cleanup_expired_tokens now db) in
  (forall token,
     validate_refresh_token token now' db'
     = (db', snd (validate_refresh_token token now' db)))
  /\ (forall user_id,
        get_active_session_tokens user_id now' db'
        = (db', snd (get_active_session_tokens user_id now' db)))
  /\ cleanup_expired_tokens now db' = (db', Return 0).
Proof.
  intros Hle db'. unfold db', cleanup_expired_tokens, delete_where. simpl.
  assert (Hkeep : forall r, RefreshToken.is_revoked r = false ->
                            now' < RefreshToken.expires_at r ->
                            negb (expired_or_revoked now r) = true).
  { intros r Hrev Hexp. unfold expired_or_revoked. rewrite Hrev, orb_false_r.
    apply negb_true_iff. apply Z.ltb_ge. lia. }
  split; [| split].
  - intro token. rewrite !validate_refresh_token_eq. simpl. f_equal. f_equal. f_equal.
    apply filter_narrowed. intros r Hr. apply is_valid_iff in Hr.
    apply Hkeep; tauto.
  - intro user_id. rewrite !get_active_session_tokens_eq. simpl. f_equal. f_equal. f_equal.
    apply filter_narrowed. intros r Hr. apply is_active_of_iff in Hr.
    apply Hkeep; tauto.
  - f_equal.
    + unfold with_refreshtokens. simpl. f_equal.
      apply filter_narrowed. intros r Hr. exact Hr.
    + f_equal. unfold count_where.
      replace (filter (expired_or_revoked now)
                 (filter (fun r => negb (expired_or_revoked now r)) (refreshtokens db)))
        with (@nil RefreshToken.t); [reflexivity |].
      symmetry. apply filter_nil_iff. intros r Hr. apply filter_In in Hr.
      destruct Hr as [_ Hr]. apply negb_true_iff in Hr. exact Hr.
Qed.

(** X7.  At the very instant a non-revoked row expires it is no longer
    active, since the readers ask for [expires_at > now], and it is not yet
    swept, since the sweep asks for [expires_at < now]. *)
Theorem expiry_instant_is_inactive_and_kept (r : RefreshToken.t) (now : Z) (db : Database) :
  In r (refreshtokens db) ->
  RefreshToken.is_revoked r = false ->
  RefreshToken.expires_at r = now ->
  (forall token found,
     validate_refresh_token token now db = (db, Return (Some found)) -> found <> r)
  /\ (forall user_id tokens,
        get_active_session_tokens user_id now db = (db, Return tokens) -> ~ In r tokens)
  /\ In r (refreshtokens (fst (cleanup_expired_tokens now db))).
Proof.
  intros Hin Hrev Hexp. split; [| split].
  - intros token found Hv E. subst found. rewrite validate_refresh_token_eq in Hv.
    inversion Hv as [Hhd]. apply hd_error_filter_Some in Hhd.
    destruct Hhd as [_ Hvalid]. apply is_valid_iff in Hvalid. lia.
  - intros user_id tokens Ha Hr. rewrite get_active_session_tokens_eq in Ha.
    inversion Ha; subst tokens.
    apply (Permutation_in _ (order_by_created_at_desc_perm _)) in Hr.
    apply filter_In in Hr. destruct Hr as [_ Hr]. apply is_active_of_iff in Hr. lia.
  - simpl. apply filter_In. split; [exact Hin |].
    unfold expired_or_revoked. rewrite Hrev, orb_false_r.
    apply negb_true_iff. apply Z.ltb_ge. lia.
Qed.

(** ** Checking credentials *)

Lemma filter_unique_key {A} (key : A -> string) (v : string) (l : list A) :
  NoDup (map key l) ->
  filter (fun x => String.eqb (key x) v) l = []
  \/ exists x, filter (fun x => String.eqb (key x) v) l = [x].
Proof.
  induction l as [| a l IH]; simpl; intro H; [left; reflexivity |].
  apply NoDup_cons_iff in H. destruct H as [Hfresh Hrest].
  destruct (String.eqb (key a) v) eqn:E.
  - right. exists a. f_equal. apply filter_nil_iff. intros x Hx.
    destruct (String.eqb (key x) v) eqn:Ex; [| reflexivity].
    exfalso. apply Hfresh. apply String.eqb_eq in E, Ex.
    rewrite E, <- Ex. apply in_map. exact Hx.
  - apply IH. exact Hrest.
Qed.

Lemma authenticate_user_eq verify_password email_username password db :
  authenticate_user verify_password email_username password db =
    (db,
     match scalar_one_or_none (filter (identified_by email_username) (users db)) with
     | Return (Some u) =>
         if negb (verify_password password (User.password u))
         then Return None else Return (Some u)
     | Return None => Return None
     | Raise e => Raise e
     end).
Proof.
  unfold authenticate_user, identified_by, bind, UsersDAO.find_one_or_none, ret.
  destruct (str_contains "@" email_username); cbv beta;
    match goal with
    | |- context [scalar_one_or_none ?l] =>
        destruct (scalar_one_or_none l) as [[u |] | e]
    end; try reflexivity;
    destruct (negb (verify_password password (User.password u))); reflexivity.
Qed.

(** Whoever [authenticate_user] returns is a stored user, found under the
    identifier in the field the identifier selects, whose hash verifies. *)
Lemma authenticate_user_Some verify_password email_username password db u :
  snd (authenticate_user verify_password email_username password db) = Return (Some u) ->
  In u (users db)
  /\ identified_by email_username u = true
  /\ verify_password password (User.password u) = true.
Proof.
  rewrite authenticate_user_eq. simpl.
  destruct (filter (identified_by email_username) (users db)) as [| x [| y l]] eqn:F;
    simpl; try discriminate.
  destruct (verify_password password (User.password x)) eqn:V; simpl; [| discriminate].
  intro H. inversion H; subst x.
  assert (Hx : In u (filter (identified_by email_username) (users db)))
    by (rewrite F; left; reflexivity).
  apply filter_In in Hx. tauto.
Qed.

(** X8.  With usernames and emails unique, [authenticate_user] never raises
    and writes nothing; it returns a user exactly when that user is stored
    under the identifier, looked up as an email when the identifier contains
    an at sign and as a username otherwise, and the password verifies against
    the stored hash.  An unknown identifier and a wrong password both give
    [None]. *)
Theorem authenticate_user_decides
    (verify_password : string -> string -> bool)
    (email_username password : string) (db : Database) :
  NoDup (map User.username (users db)) ->
  NoDup (map User.email (users db)) ->
  exists found,
    authenticate_user verify_password email_username password db = (db, Return found)
    /\ (forall u, found = Some u <->
          In u (users db)
          /\ (if str_contains "@"%char email_username
              then User.email u = email_username
              else User.username u = email_username)
          /\ verify_password password (User.password u) = true).
Proof.
  intros Hnames Hemails. rewrite authenticate_user_eq.
  assert (Hid : forall u, identified_by email_username u = true <->
                          (if str_contains "@"%char email_username
                           then User.email u = email_username
                           else User.username u = email_username)).
  { intro u. unfold identified_by.
    destruct (str_contains "@" email_username); apply String.eqb_eq. }
  assert (Hone : filter (identified_by email_username) (users db) = []
                 \/ exists x, filter (identified_by email_username) (users db) = [x]).
  { unfold identified_by. destruct (str_contains "@" email_username).
    - apply filter_unique_key. exact Hemails.
    - apply filter_unique_key. exact Hnames. }
  destruct Hone as [F | [x F]]; rewrite F; simpl.
  - exists None. split; [reflexivity |]. intro u. split; [discriminate |].
    intros [Hin [Hu _]]. apply Hid in Hu.
    assert (In u (filter (identified_by email_username) (users db)))
      by (apply filter_In; tauto).
    rewrite F in H. contradiction.
  - assert (Hx : In x (users db) /\ identified_by email_username x = true).
    { apply filter_In. rewrite F. left. reflexivity. }
    assert (Honly : forall u, In u (users db) -> identified_by email_username u = true ->
                              u = x).
    { intros u Hin Hu.
      assert (H : In u (filter (identified_by email_username) (users db)))
        by (apply filter_In; tauto).
      rewrite F in H. destruct H as [H | []]. symmetry. exact H. }
    destruct (verify_password password (User.password x)) eqn:V; simpl.
    + exists (Some x). split; [reflexivity |]. intro u. split.
      * intro E. inversion E; subst u. rewrite <- Hid. tauto.
      * intros [Hin [Hu _]]. apply Hid in Hu. f_equal. symmetry. apply Honly; assumption.
    + exists None. split; [reflexivity |]. intro u. split; [discriminate |].
      intros [Hin [Hu Hv]]. apply Hid in Hu. rewrite (Honly u Hin Hu) in Hv. congruence.
Qed.

(** ** Storing and finding a refresh token *)

Section Storing.

Variable settings : Settings.

Lemma store_refresh_token_inv user_id token request flag now db db' row :
  store_refresh_token settings user_id token request flag now db = (db', Return row) ->
  existsb (fun r => String.eqb (RefreshToken.token r) token) (refreshtokens db) = false
  /\ row = RefreshToken.mk (refreshtokens_id_seq db) now now user_id token
             (now + timedelta_days (REFRESH_TOKEN_EXPIRE_DAYS settings))
             false (recorded_agent request) (recorded_address request)
  /\ db' = mkDatabase (users db)
             (map (fun r => if revoked_by_store flag user_id (recorded_agent request) r
                            then RefreshToken.revoke now r else r)
                  (refreshtokens db) ++ [row])
             (refreshtokens_id_seq db + 1).
Proof.
  destruct request as [rq |].
  - intro H. apply store_refresh_token_Return in H. simpl in H.
    destruct H as [Hfresh [Hrow Hdb]]. rewrite existsb_token_map_revoke in Hfresh.
    simpl. tauto.
  - unfold store_refresh_token, atomic, bind, insert_refresh_token. simpl.
    rewrite andb_false_r. unfold ret.
    destruct (existsb _ (users db)); simpl; [| discriminate].
    destruct (existsb _ (refreshtokens db)) eqn:E; [discriminate |].
    intro H. inversion H; subst. split; [reflexivity |]. split; [reflexivity |].
    f_equal. f_equal. unfold revoked_by_store. simpl.
    rewrite map_unmatched; [reflexivity |].
    intros r _. rewrite andb_false_r. reflexivity.
Qed.

(** X9.  A refresh token that [store_refresh_token] has stored is found by
    [validate_refresh_token] under its secret from then on and until it
    expires, [REFRESH_TOKEN_EXPIRE_DAYS] after it was stored, and no longer
    from the instant of expiry; the row found is the one returned, owned by
    the given user and not revoked. *)
Theorem store_refresh_token_then_validate
    (user_id : Z) (token : string) (request : option Request) (flag : bool)
    (now : Z) (db db' : Database) (row : RefreshToken.t) :
  store_refresh_token settings user_id token request flag now db = (db', Return row) ->
  RefreshToken.token row = token
  /\ RefreshToken.user_id row = user_id
  /\ RefreshToken.is_revoked row = false
  /\ RefreshToken.expires_at row
     = now + timedelta_days (REFRESH_TOKEN_EXPIRE_DAYS settings)
  /\ In row (refreshtokens db')
  /\ (forall now', now' < RefreshToken.expires_at row ->
        validate_refresh_token token now' db' = (db', Return (Some row)))
  /\ (forall now', RefreshToken.expires_at row <= now' ->
        validate_refresh_token token now' db' = (db', Return None)).
Proof.
  intro H. apply store_refresh_token_inv in H. destruct H as [Hfresh [Hrow Hdb]].
  assert (Hold : forall now',
             filter (is_valid token now')
               (map (fun r => if revoked_by_store flag user_id (recorded_agent request) r
                              then RefreshToken.revoke now r else r)
                    (refreshtokens db)) = []).
  { intro now'. apply filter_nil_iff. intros r Hr.
    destruct (is_valid token now' r) eqn:E; [| reflexivity].
    exfalso. apply is_valid_iff in E. destruct E as [Ht _].
    rewrite <- (existsb_token_map_revoke token
                  (revoked_by_store flag user_id (recorded_agent request)) now) in Hfresh.
    assert (existsb (fun r => String.eqb (RefreshToken.token r) token)
              (map (fun r => if revoked_by_store flag user_id (recorded_agent request) r
                             then RefreshToken.revoke now r else r)
                   (refreshtokens db)) = true).
    { apply existsb_exists. exists r. split; [exact Hr | apply String.eqb_eq; exact Ht]. }
    congruence. }
  rewrite Hrow at 1 2 3 4. simpl.
  split; [reflexivity |]. split; [reflexivity |]. split; [reflexivity |].
  split; [reflexivity |].
  split; [rewrite Hdb; simpl; apply in_or_app; right; left; reflexivity |].
  split.
  - intros now' Hlt. rewrite validate_refresh_token_eq, Hdb. simpl.
    rewrite filter_app, Hold. simpl.
    replace (is_valid token now' row) with true; [reflexivity |].
    symmetry. apply is_valid_iff. rewrite Hrow in Hlt |- *. simpl in *. tauto.
  - intros now' Hge. rewrite validate_refresh_token_eq, Hdb. simpl.
    rewrite filter_app, Hold. simpl.
    replace (is_valid token now' row) with false; [reflexivity |].
    symmetry. unfold is_valid. rewrite Hrow in Hge |- *. simpl in *.
    replace (now' <? now + timedelta_days (REFRESH_TOKEN_EXPIRE_DAYS settings))
      with false by (symmetry; apply Z.ltb_ge; exact Hge).
    apply andb_false_r.
Qed.

End Storing.

(** ** Login *)

Section LoginFrame.

Variable settings : Settings.
Variable jwt_encode : Claims -> string.
Variable verify_password : string -> string -> bool.

(** X10.  A successful [auth_user] authenticated a stored user whose hash
    verifies, adds exactly one row, owned by that user, not revoked, carrying
    the returned refresh secret and the user-agent and address of the
    request, expiring [REFRESH_TOKEN_EXPIRE_DAYS] later, and announces the
    access-token lifetime in seconds.  The only rows it rewrites are the
    non-revoked rows of that user with the request's non-empty user-agent;
    rows of other users or of other user-agents are unchanged, and so is the
    users table. *)
Theorem auth_user_frame
    (request : Request) (user_data : SUserAuth) (rnd : Entropy) (now : Z)
    (db db' : Database) (resp : TokenResponse) :
  auth_user settings jwt_encode verify_password request user_data rnd now db
    = (db', Return resp) ->
  exists u row,
    In u (users db)
    /\ identified_by (email_username user_data) u = true
    /\ verify_password (auth_password user_data) (User.password u) = true
    /\ resp = mkTokenResponse
                (create_access_token settings jwt_encode (User.public_id u) rnd now)
                (token_urlsafe_64 rnd)
                (ACCESS_TOKEN_EXPIRE_MINUTES settings * 60)
    /\ row = RefreshToken.mk (refreshtokens_id_seq db) now now (User.id u)
               (token_urlsafe_64 rnd)
               (now + timedelta_days (REFRESH_TOKEN_EXPIRE_DAYS settings))
               false (header_user_agent request) (client request)
    /\ users db' = users db
    /\ refreshtokens db' =
         map (fun r => if revoked_by_store true (User.id u) (header_user_agent request) r
                       then RefreshToken.revoke now r else r)
             (refreshtokens db) ++ [row]
    /\ (forall r, In r (refreshtokens db) ->
          RefreshToken.user_id r <> User.id u
          \/ RefreshToken.user_agent r <> header_user_agent request
          \/ opt_truthy (header_user_agent request) = false
          \/ RefreshToken.is_revoked r = true ->
          In r (refreshtokens db')).
Proof.
  intro H. unfold auth_user in H. apply bind_Return in H.
  destruct H as [db1 [user [Ha Hk]]].
  pose proof (authenticate_user_reads verify_password
                (email_username user_data) (auth_password user_data) db) as [Hfst _].
  rewrite Ha in Hfst. simpl in Hfst. subst db1.
  destruct user as [u |]; [| discriminate Hk].
  assert (Hu : snd (authenticate_user verify_password
                      (email_username user_data) (auth_password user_data) db)
               = Return (Some u)) by (rewrite Ha; reflexivity).
  apply authenticate_user_Some in Hu. destruct Hu as [Hin [Hid Hv]].
  unfold set_auth_tokens in Hk. apply bind_Return in Hk.
  destruct Hk as [db2 [row [Hs Hr]]]. apply ret_Return in Hr. destruct Hr as [-> ->].
  apply store_refresh_token_inv in Hs. simpl in Hs. destruct Hs as [_ [Hrow Hdb]].
  exists u, row.
  split; [exact Hin |]. split; [exact Hid |]. split; [exact Hv |].
  split; [reflexivity |]. split; [exact Hrow |].
  split; [rewrite Hdb; reflexivity |]. split; [rewrite Hdb; reflexivity |].
  intros r Hr Hother. rewrite Hdb. simpl. apply in_or_app. left.
  apply in_map_iff. exists r. split; [| exact Hr].
  replace (revoked_by_store true (User.id u) (header_user_agent request) r) with false;
    [reflexivity |].
  symmetry. unfold revoked_by_store, same_device. simpl.
  destruct (opt_truthy (header_user_agent request)) eqn:Hua; [| reflexivity].
  simpl.
  destruct (RefreshToken.user_id r =? User.id u) eqn:Euid; [| reflexivity].
  destruct (RefreshToken.is_revoked r) eqn:Erev; [apply andb_false_r |].
  simpl. rewrite andb_true_r. apply Z.eqb_eq in Euid.
  destruct Hother as [Ho | [Ho | [Ho | Ho]]]; try congruence.
  unfold sql_eq_str.
  destruct (header_user_agent request) as [v |]; [| discriminate Hua].
  destruct (RefreshToken.user_agent r) as [a |]; [| reflexivity].
  apply String.eqb_neq. intro E. apply Ho. congruence.
Qed.

(** X11.  With usernames and emails unique, a login for which no stored
    user is found under the identifier with a verifying password is refused
    with the bad-credentials error, the same whether the identifier is
    unknown or the password is wrong, and the database is untouched. *)
Theorem auth_user_rejects_bad_credentials
    (request : Request) (user_data : SUserAuth) (rnd : Entropy) (now : Z)
    (db : Database) :
  NoDup (map User.username (users db)) ->
  NoDup (map User.email (users db)) ->
  (forall u, In u (users db) ->
             identified_by (email_username user_data) u = true ->
             verify_password (auth_password user_data) (User.password u) = false) ->
  auth_user settings jwt_encode verify_password request user_data rnd now db
    = (db, Raise (HTTP IncorrectEmailOrPasswordException)).
Proof.
  intros Hnames Hemails Hbad. unfold auth_user, bind.
  rewrite authenticate_user_eq.
  assert (Hone : filter (identified_by (email_username user_data)) (users db) = []
                 \/ exists x, filter (identified_by (email_username user_data)) (users db)
                              = [x]).
  { unfold identified_by. destruct (str_contains "@" (email_username user_data)).
    - apply filter_unique_key. exact Hemails.
    - apply filter_unique_key. exact Hnames. }
  destruct Hone as [F | [x F]]; rewrite F; simpl; [reflexivity |].
  assert (Hx : In x (users db) /\ identified_by (email_username user_data) x = true).
  { apply filter_In. rewrite F. left. reflexivity. }
  destruct Hx as [Hin Hid]. rewrite (Hbad x Hin Hid). reflexivity.
Qed.

End LoginFrame.

(** ** What a refresh hands out *)

Section Handout.

Variable settings : Settings.
Variable jwt_encode : Claims -> string.

(** X12.  A successful [refresh_tokens] hands out a refresh secret different
    from the one presented; it is stored in a new, non-revoked row owned by
    the owner of the presented token, and [validate_refresh_token] finds that
    row under the new secret until it expires, [REFRESH_TOKEN_EXPIRE_DAYS]
    after the refresh.  The users table is unchanged. *)
Theorem refresh_tokens_hands_out_valid_token
    (request : Request) (cookie : option string) (body : option RefreshTokenBody)
    (rnd : Entropy) (now : Z) (db db' : Database) (resp : TokenResponse) :
  refresh_tokens settings jwt_encode request cookie body rnd now db
    = (db', Return resp) ->
  exists tok stored row,
    token_to_use cookie body = Some tok
    /\ In stored (refreshtokens db)
    /\ RefreshToken.token stored = tok
    /\ refresh_token resp <> tok
    /\ In row (refreshtokens db')
    /\ RefreshToken.token row = refresh_token resp
    /\ RefreshToken.user_id row = RefreshToken.user_id stored
    /\ RefreshToken.is_revoked row = false
    /\ users db' = users db
    /\ (forall now',
          now' < now + timedelta_days (REFRESH_TOKEN_EXPIRE_DAYS settings) ->
          validate_refresh_token (refresh_token resp) now' db' = (db', Return (Some row))).
Proof.
  intro H. apply refresh_tokens_effect in H.
  destruct H as [tok [stored [row [Htok [_ [Hin [Hvalid [Hnew [Hresp [Hrow [Hfresh Hdb]]]]]]]]]]].
  exists tok, stored, row.
  split; [exact Htok |]. split; [exact Hin |].
  split; [apply is_valid_iff in Hvalid; tauto |].
  split; [rewrite Hresp; exact Hnew |].
  split; [rewrite Hdb; simpl; apply in_or_app; right; left; reflexivity |].
  split; [rewrite Hrow, Hresp; reflexivity |].
  split; [rewrite Hrow; reflexivity |]. split; [rewrite Hrow; reflexivity |].
  split; [rewrite Hdb; reflexivity |].
  intros now' Hlt. rewrite validate_refresh_token_eq, Hresp, Hdb. simpl.
  rewrite filter_app.
  replace (filter (is_valid (token_urlsafe_64 rnd) now')
             (map (fun r => if revoked_by_refresh tok (RefreshToken.user_id stored)
                                 (header_user_agent request) r
                            then RefreshToken.revoke now r else r)
                  (refreshtokens db)))
    with (@nil RefreshToken.t).
  - simpl. replace (is_valid (token_urlsafe_64 rnd) now' row) with true; [reflexivity |].
    symmetry. apply is_valid_iff. rewrite Hrow. simpl. tauto.
  - symmetry. apply filter_nil_iff. intros r Hr.
    destruct (is_valid (token_urlsafe_64 rnd) now' r) eqn:E; [| reflexivity].
    exfalso. apply is_valid_iff in E. destruct E as [Ht _].
    rewrite <- (existsb_token_map_revoke (token_urlsafe_64 rnd)
                  (revoked_by_refresh tok (RefreshToken.user_id stored)
                     (header_user_agent request)) now) in Hfresh.
    assert (existsb (fun r => String.eqb (RefreshToken.token r) (token_urlsafe_64 rnd))
              (map (fun r => if revoked_by_refresh tok (RefreshToken.user_id stored)
                                  (header_user_agent request) r
                             then RefreshToken.revoke now r else r)
                   (refreshtokens db)) = true).
    { apply existsb_exists. exists r. split; [exact Hr | apply String.eqb_eq; exact Ht]. }
    congruence.
Qed.

(** X13.  The secret a refresh works with is the token of the request body
    when there is a body with a non-empty token, whatever the cookie holds,
    and the cookie otherwise: the refresh then does what a refresh does that
    presents this secret in the cookie alone.  The secret presented decides
    the outcome: when no active row carries it, the refresh is refused with
    the invalid-token error and touches nothing, and when the refresh
    succeeds, an active row carried it and every row that carried it is
    revoked afterwards.  A refresh that finds no non-empty secret in either
    place is refused with the missing-token error and touches nothing. *)
Theorem refresh_tokens_secret_source
    (request : Request) (rnd : Entropy) (now : Z) (db : Database) :
  (forall cookie b,
     body_token b <> "" ->
     token_to_use cookie (Some b) = Some (body_token b)
     /\ refresh_tokens settings jwt_encode request cookie (Some b) rnd now db
        = refresh_tokens settings jwt_encode request (Some (body_token b)) None
            rnd now db)
  /\ (forall cookie b,
        body_token b = "" ->
        token_to_use cookie (Some b) = cookie
        /\ refresh_tokens settings jwt_encode request cookie (Some b) rnd now db
           = refresh_tokens settings jwt_encode request cookie None rnd now db)
  /\ (forall secret,
        secret <> "" ->
        token_to_use (Some secret) None = Some secret
        /\ (hd_error (filter (is_valid secret now) (refreshtokens db)) = None ->
            refresh_tokens settings jwt_encode request (Some secret) None rnd now db
            = (db, Raise (HTTP NoValidRefreshTokenException)))
        /\ (forall db' resp,
              refresh_tokens settings jwt_encode request (Some secret) None rnd now db
              = (db', Return resp) ->
              (exists stored,
                 In stored (refreshtokens db)
                 /\ RefreshToken.token stored = secret
                 /\ is_valid secret now stored = true)
              /\ (forall r, In r (refreshtokens db) ->
                            RefreshToken.token r = secret ->
                            In (RefreshToken.revoke now r) (refreshtokens db'))))
  /\ (forall cookie body,
        opt_truthy cookie = false ->
        (forall b, body = Some b -> body_token b = "") ->
        refresh_tokens settings jwt_encode request cookie body rnd now db
        = (db, Raise (HTTP NoRefreshTokenException))).
Proof.
  split; [| split; [| split]].
  - intros cookie b Hne.
    assert (Ht : str_truthy (body_token b) = true).
    { unfold str_truthy. apply negb_true_iff, String.eqb_neq. exact Hne. }
    split.
    + unfold token_to_use, py_or, opt_truthy. rewrite Ht. reflexivity.
    + unfold refresh_tokens, py_or, opt_truthy. cbv beta iota zeta.
      rewrite Ht. cbv beta iota. rewrite Ht. reflexivity.
  - intros cookie b E. split.
    + unfold token_to_use, py_or. simpl. rewrite E. reflexivity.
    + unfold refresh_tokens, py_or. simpl. rewrite E. reflexivity.
  - intros secret Hne.
    assert (Htok : token_to_use (Some secret) None = Some secret) by reflexivity.
    split; [exact Htok |]. split.
    + intro Hnone. apply (refresh_tokens_not_active _ _ _ _ _ _ _ _ secret); assumption.
    + intros db' resp H. apply refresh_tokens_effect in H.
      destruct H as [tok [stored [row [Htok' [_ [Hin [Hvalid [_ [_ [_ [_ Hdb]]]]]]]]]]].
      rewrite Htok in Htok'. inversion Htok'; subst tok. split.
      * exists stored. split; [exact Hin |]. split; [| exact Hvalid].
        apply is_valid_iff in Hvalid. apply Hvalid.
      * intros r Hr Hsecret. rewrite Hdb. simpl. apply in_or_app. left.
        apply in_map_iff. exists r. split; [| exact Hr].
        unfold revoked_by_refresh. apply String.eqb_eq in Hsecret.
        rewrite Hsecret. reflexivity.
  - intros cookie body Hc Hb. unfold refresh_tokens, py_or.
    destruct body as [b |]; simpl.
    + rewrite (Hb b eq_refl). simpl. destruct cookie as [c |]; [| reflexivity].
      simpl in Hc. rewrite Hc. reflexivity.
    + destruct cookie as [c |]; [| reflexivity]. simpl in Hc. rewrite Hc. reflexivity.
Qed.

End Handout.

(** ** Reading the access token off the request *)

Lemma lower_ascii_space c : lower_ascii c = " "%char <-> c = " "%char.
Proof.
  destruct c as [[] [] [] [] [] [] [] []]; vm_compute; split; congruence.
Qed.

Lemma str_contains_space_lower s :
  str_contains " " (lower s) = str_contains " " s.
Proof.
  induction s as [| c s IH]; [reflexivity |].
  cbn [lower str_contains]. rewrite IH. f_equal.
  destruct c as [[] [] [] [] [] [] [] []]; reflexivity.
Qed.

Lemma partition_space_at_first s after :
  str_contains " " s = false ->
  partition_space (String.append s (String " " after)) = (s, after).
Proof.
  induction s as [| c s IH]; intro H; [reflexivity |].
  cbn [str_contains] in H. apply orb_false_iff in H. destruct H as [Hc Hs].
  cbn [String.append partition_space]. rewrite Ascii.eqb_sym, Hc, (IH Hs). reflexivity.
Qed.

Lemma partition_space_none s :
  str_contains " " s = false -> partition_space s = (s, "").
Proof.
  induction s as [| c s IH]; intro H; [reflexivity |].
  cbn [str_contains] in H. apply orb_false_iff in H. destruct H as [Hc Hs].
  cbn [partition_space]. rewrite Ascii.eqb_sym, Hc, (IH Hs). reflexivity.
Qed.

Lemma bearer_has_no_space scheme :
  lower scheme = "bearer" -> str_contains " " scheme = false.
Proof.
  intro H. rewrite <- str_contains_space_lower, H. reflexivity.
Qed.

(** X14.  [get_token] takes the token from an Authorization header whose
    scheme is "bearer" in any letter case: everything after the first space,
    spaces included, and the empty string when nothing follows the scheme;
    the cookie is then not looked at.  With no header, an empty one, or
    another scheme, it takes the cookie, and raises the token-not-found error
    when the cookie is missing or empty. *)
Theorem get_token_sources :
  (forall scheme token cookie,
     lower scheme = "bearer" ->
     get_token (Some (String.append scheme (String " " token))) cookie = Return token)
  /\ (forall scheme cookie,
        lower scheme = "bearer" -> get_token (Some scheme) cookie = Return "")
  /\ (forall authorization cookie,
        (forall a, authorization = Some a ->
                   lower (fst (partition_space a)) <> "bearer") ->
        get_token authorization cookie = get_token None cookie)
  /\ (forall cookie, cookie <> "" -> get_token None (Some cookie) = Return cookie)
  /\ get_token None (Some "") = Raise (HTTP TokenNoFound)
  /\ get_token None None = Raise (HTTP TokenNoFound).
Proof.
  split; [| split; [| split; [| split; [| split]]]]; try reflexivity.
  - intros scheme token cookie H. unfold get_token.
    assert (Hns := bearer_has_no_space scheme H).
    assert (Htruthy : opt_truthy (Some (String.append scheme (String " " token))) = true).
    { destruct scheme; [discriminate H | reflexivity]. }
    rewrite Htruthy, (partition_space_at_first scheme token Hns), H. reflexivity.
  - intros scheme cookie H. unfold get_token.
    assert (Hns := bearer_has_no_space scheme H).
    assert (Htruthy : opt_truthy (Some scheme) = true).
    { destruct scheme; [discriminate H | reflexivity]. }
    rewrite Htruthy, (partition_space_none scheme Hns), H. reflexivity.
  - intros authorization cookie H. unfold get_token.
    destruct authorization as [a |]; [| reflexivity].
    destruct (opt_truthy (Some a)); [| reflexivity].
    specialize (H a eq_refl). destruct (partition_space a) as [scheme token].
    simpl in H. apply String.eqb_neq in H. rewrite H. reflexivity.
  - intros cookie H. unfold get_token. simpl.
    replace (str_truthy cookie) with true; [reflexivity |].
    symmetry. unfold str_truthy. apply negb_true_iff, String.eqb_neq. exact H.
Qed.

(** ** Who an access token authenticates *)

Section Verification.

Variable jwt_decode : string -> Z -> option Claims.
Variable uuid_of_text : string -> option string.

(** X15.  [get_current_user] reads and never writes.  A user it returns is
    stored, and its public id is the UUID that the [sub] claim of the decoded
    token, which is not empty, reads as; the token's [exp] claim is present,
    not zero and not before the current time.  A token that passes the
    expiry test with a [sub] that reads as no UUID ends the call with the
    error of the driver. *)
Theorem get_current_user_sound (token : string) (now : Z) (db : Database) :
  fst (get_current_user jwt_decode uuid_of_text token now db) = db
  /\ (forall u,
        snd (get_current_user jwt_decode uuid_of_text token now db) = Return u ->
        In u (users db)
        /\ exists payload e s,
             jwt_decode token now = Some payload
             /\ sub payload = Some s
             /\ s <> ""
             /\ uuid_of_text s = Some (User.public_id u)
             /\ exp payload = Some e
             /\ e <> 0
             /\ now <= e * usec_per_second)
  /\ (forall payload e s,
        jwt_decode token now = Some payload ->
        exp payload = Some e ->
        min_timestamp <= e <= max_timestamp ->
        e <> 0 ->
        now <= e * usec_per_second ->
        sub payload = Some s ->
        s <> "" ->
        uuid_of_text s = None ->
        get_current_user jwt_decode uuid_of_text token now db = (db, Raise DBAPIError)).
Proof.
  assert (Hdriver : forall payload e s,
             jwt_decode token now = Some payload ->
             exp payload = Some e ->
             min_timestamp <= e <= max_timestamp ->
             e <> 0 ->
             now <= e * usec_per_second ->
             sub payload = Some s ->
             s <> "" ->
             uuid_of_text s = None ->
             get_current_user jwt_decode uuid_of_text token now db
             = (db, Raise DBAPIError)).
  { intros payload e s Hd He [Hmin Hmax] Hz Hle Hs Hne Hnone.
    unfold get_current_user. rewrite Hd, He.
    replace (e <? min_timestamp) with false by (symmetry; apply Z.ltb_ge; exact Hmin).
    replace (max_timestamp <? e) with false by (symmetry; apply Z.ltb_ge; exact Hmax).
    replace (e =? 0) with false by (symmetry; apply Z.eqb_neq; exact Hz).
    replace (e * usec_per_second <? now) with false
      by (symmetry; apply Z.ltb_ge; exact Hle).
    rewrite Hs. simpl.
    replace (str_truthy s) with true
      by (symmetry; unfold str_truthy; apply negb_true_iff, String.eqb_neq; exact Hne).
    simpl. unfold bind, UsersDAO.find_one_or_none_by_public_id. rewrite Hnone.
    reflexivity. }
  cut (fst (get_current_user jwt_decode uuid_of_text token now db) = db
       /\ (forall u,
             snd (get_current_user jwt_decode uuid_of_text token now db) = Return u ->
             In u (users db)
             /\ exists payload e s,
                  jwt_decode token now = Some payload
                  /\ sub payload = Some s
                  /\ s <> ""
                  /\ uuid_of_text s = Some (User.public_id u)
                  /\ exp payload = Some e
                  /\ e <> 0
                  /\ now <= e * usec_per_second)).
  { intros [H1 H2]. split; [exact H1 |]. split; [exact H2 | exact Hdriver]. }
  clear Hdriver. unfold get_current_user.
  destruct (jwt_decode token now) as [payload |]; [| split; [reflexivity | discriminate]].
  destruct (exp payload) as [e |] eqn:He; [| split; [reflexivity | discriminate]].
  destruct ((e <? min_timestamp) || (max_timestamp <? e));
    [split; [reflexivity | discriminate] |].
  destruct ((e =? 0) || (e * usec_per_second <? now)) eqn:Hx;
    [split; [reflexivity | discriminate] |].
  apply orb_false_iff in Hx. destruct Hx as [Hz Hlt].
  apply Z.eqb_neq in Hz. apply Z.ltb_ge in Hlt.
  destruct (sub payload) as [s |] eqn:Hs; simpl; [| split; [reflexivity | discriminate]].
  destruct (str_truthy s) eqn:Ht; simpl; [| split; [reflexivity | discriminate]].
  unfold bind, UsersDAO.find_one_or_none_by_public_id.
  destruct (uuid_of_text s) as [public_id |] eqn:Hread;
    [| split; [reflexivity | discriminate]].
  unfold UsersDAO.find_one_or_none.
  destruct (filter (fun u => String.eqb (User.public_id u) public_id) (users db))
    as [| x [| y l]] eqn:F; simpl; try (split; [reflexivity | discriminate]).
  split; [reflexivity |]. intros u E. inversion E; subst x.
  assert (Hu : In u (users db) /\ String.eqb (User.public_id u) public_id = true).
  { apply (filter_In (fun u => String.eqb (User.public_id u) public_id)). rewrite F.
    left. reflexivity. }
  destruct Hu as [Hin Hp]. apply String.eqb_eq in Hp. subst public_id.
  split; [exact Hin |]. exists payload, e, s.
  split; [reflexivity |]. split; [exact Hs |]. split.
  - intro E0. rewrite E0 in Ht. discriminate Ht.
  - split; [exact Hread |]. split; [exact He |]. split; [exact Hz | exact Hlt].
Qed.

End Verification.

Section Authentication.

Variable settings : Settings.
Variable jwt_encode : Claims -> string.
Variable verified : string -> option Claims.
Variable uuid_of_text : string -> option string.

(** X16.  The access token [set_auth_tokens] issues for the public id of a
    stored user authenticates that user, provided the token's signature
    verifies to the claims it was made from, the public id reads as itself
    and public ids are unique: [get_current_user] returns the user up to the
    minted [exp], which is at most one second short of
    [ACCESS_TOKEN_EXPIRE_MINUTES] after issue.  After it the token is
    refused: as expired for the rest of the second of [exp], and as invalid
    from the next second on, where [jwt.decode] refuses it first. *)
Theorem issued_access_token_authenticates
    (request : Request) (user_id : Z) (u : User.t) (rnd : Entropy)
    (now now' : Z) (db db' : Database) (resp : TokenResponse) :
  set_auth_tokens settings jwt_encode request user_id (User.public_id u) rnd now db
    = (db', Return resp) ->
  In u (users db) ->
  NoDup (map User.public_id (users db)) ->
  User.public_id u <> "" ->
  uuid_of_text (User.public_id u) = Some (User.public_id u) ->
  verified (access_token resp)
    = Some (mkClaims (Some (User.public_id u)) (Some (token_urlsafe_8 rnd))
                     (Some (minted_exp settings now))) ->
  0 < minted_exp settings now <= max_timestamp ->
  (now' <= minted_exp settings now * usec_per_second ->
   get_current_user (jwt_decode_default verified) uuid_of_text
     (access_token resp) now' db' = (db', Return u))
  /\ (now' <= now + timedelta_minutes (ACCESS_TOKEN_EXPIRE_MINUTES settings)
              - usec_per_second ->
      get_current_user (jwt_decode_default verified) uuid_of_text
        (access_token resp) now' db' = (db', Return u))
  /\ (minted_exp settings now * usec_per_second < now'
      < (minted_exp settings now + 1) * usec_per_second ->
      get_current_user (jwt_decode_default verified) uuid_of_text
        (access_token resp) now' db' = (db', Raise (HTTP TokenExpiredException)))
  /\ ((minted_exp settings now + 1) * usec_per_second <= now' ->
      get_current_user (jwt_decode_default verified) uuid_of_text
        (access_token resp) now' db' = (db', Raise (HTTP NoJwtException))).
Proof.
  intros Hset Hin Hnd Hpub Hread Hver [Hpos Hmax].
  assert (Husers : users db' = users db).
  { unfold set_auth_tokens in Hset. apply bind_Return in Hset.
    destruct Hset as [db1 [row [Hs Hr]]]. apply ret_Return in Hr. destruct Hr as [-> _].
    apply store_refresh_token_Return in Hs. destruct Hs as [_ [_ ->]]. reflexivity. }
  assert (Hfind : filter (fun x => String.eqb (User.public_id x) (User.public_id u))
                         (users db') = [u]).
  { rewrite Husers.
    destruct (filter_unique_key User.public_id (User.public_id u) (users db) Hnd)
      as [F | [x F]].
    - exfalso.
      assert (H : In u (filter (fun x => String.eqb (User.public_id x) (User.public_id u))
                               (users db)))
        by (apply filter_In; split; [exact Hin | apply String.eqb_refl]).
      rewrite F in H. contradiction.
    - assert (H : In u (filter (fun x => String.eqb (User.public_id x) (User.public_id u))
                               (users db)))
        by (apply filter_In; split; [exact Hin | apply String.eqb_refl]).
      rewrite F in H |- *. destruct H as [-> | []]. reflexivity. }
  assert (Hrange : (minted_exp settings now <? min_timestamp)
                   || (max_timestamp <? minted_exp settings now) = false).
  { apply orb_false_iff. split; apply Z.ltb_ge; [unfold min_timestamp; lia | exact Hmax]. }
  assert (Htruthy : str_truthy (User.public_id u) = true).
  { unfold str_truthy. apply negb_true_iff, String.eqb_neq. exact Hpub. }
  assert (Hok : now' <= minted_exp settings now * usec_per_second ->
                get_current_user (jwt_decode_default verified) uuid_of_text
                  (access_token resp) now' db' = (db', Return u)).
  { intro Hle. unfold get_current_user.
    rewrite (jwt_decode_default_in_time verified _ _ (minted_exp settings now) now' Hver
               eq_refl ltac:(unfold usec_per_second in *; lia)).
    simpl. rewrite Hrange.
    replace (minted_exp settings now =? 0) with false by (symmetry; apply Z.eqb_neq; lia).
    replace (minted_exp settings now * usec_per_second <? now') with false
      by (symmetry; apply Z.ltb_ge; exact Hle).
    simpl. rewrite Htruthy. simpl.
    unfold bind, UsersDAO.find_one_or_none_by_public_id. rewrite Hread.
    unfold UsersDAO.find_one_or_none. rewrite Hfind. reflexivity. }
  split; [exact Hok |]. split; [| split].
  - intro Hle. apply Hok. unfold minted_exp, usec_per_second in *.
    pose proof (Z.mul_div_le
                  (now + timedelta_minutes (ACCESS_TOKEN_EXPIRE_MINUTES settings))
                  1000000 ltac:(lia)) as H1.
    pose proof (Z.mod_pos_bound
                  (now + timedelta_minutes (ACCESS_TOKEN_EXPIRE_MINUTES settings))
                  1000000 ltac:(lia)) as H2.
    pose proof (Z.div_mod
                  (now + timedelta_minutes (ACCESS_TOKEN_EXPIRE_MINUTES settings))
                  1000000 ltac:(lia)) as H3.
    lia.
  - intro Hwithin.
    apply (get_current_user_expired_within_second verified uuid_of_text _ now' _
             (minted_exp settings now) db' Hver eq_refl).
    + unfold min_timestamp. lia.
    + exact Hwithin.
  - intro Hafter.
    apply (get_current_user_refused_by_library verified uuid_of_text _ now' _
             (minted_exp settings now) db' Hver eq_refl Hafter).
Qed.

End Authentication.

(** ** Capping below one *)

(** Revoking the active sessions from position [k] on leaves the first [k]. *)
Lemma revoke_from_position user_id now db k :
  NoDup (map RefreshToken.id (refreshtokens db)) ->
  let active :=
    order_by_created_at_desc (filter (is_active_of user_id now) (refreshtokens db)) in
  exists db',
    update_revoke (id_in (map RefreshToken.id (skipn k active))) now db
      = (db', Return (Z.of_nat (List.length (skipn k active))))
    /\ get_active_session_tokens user_id now db' = (db', Return (firstn k active)).
Proof.
  intros Hpk active.
  assert (Hact : NoDup (map RefreshToken.id active)) by (apply active_NoDup; exact Hpk).
  assert (Hsplit : active = firstn k active ++ skipn k active)
    by (symmetry; apply firstn_skipn).
  eexists. split.
  - unfold update_revoke. f_equal. f_equal. apply count_where_id_in.
    + exact Hpk.
    + rewrite Hsplit, map_app in Hact. apply NoDup_app_remove_l in Hact. exact Hact.
    + intros r Hr. apply (active_incl user_id now). fold active.
      rewrite Hsplit. apply in_or_app. right. exact Hr.
  - rewrite get_active_session_tokens_eq. simpl. f_equal. f_equal.
    rewrite filter_active_after_revoke, <- filter_order_by_created_at_desc.
    fold active.
    pose proof (filter_not_in_tail (firstn k active) (skipn k active)) as Hf.
    rewrite <- Hsplit in Hf. apply Hf. exact Hact.
Qed.

(** X17.  Called below the route's guard, [limit_active_sessions] follows
    Python's slice: with a limit of 0 it revokes every active session of the
    user; with a negative limit [-k] it revokes the [k] oldest active
    sessions, all of them when there are no more than [k].  In both cases it
    returns the number revoked. *)
Theorem limit_active_sessions_below_one
    (user_id max_sessions now : Z) (db : Database) :
  NoDup (map RefreshToken.id (refreshtokens db)) ->
  max_sessions <= 0 ->
  let active :=
    order_by_created_at_desc (filter (is_active_of user_id now) (refreshtokens db)) in
  let kept :=
    if max_sessions =? 0 then 0%nat
    else Z.to_nat (Z.of_nat (List.length active) + max_sessions) in
  exists db',
    limit_active_sessions user_id max_sessions now db
      = (db', Return (Z.of_nat (List.length (skipn kept active))))
    /\ get_active_session_tokens user_id now db' = (db', Return (firstn kept active))
    /\ List.length (skipn kept active)
       = (if max_sessions =? 0 then List.length active
          else Nat.min (Z.to_nat (- max_sessions)) (List.length active)).
Proof.
  intros Hpk Hle active kept. rewrite limit_active_sessions_eq. fold active.
  assert (Hlen : List.length (skipn kept active)
                 = (if max_sessions =? 0 then List.length active
                    else Nat.min (Z.to_nat (- max_sessions)) (List.length active))).
  { rewrite length_skipn. unfold kept.
    destruct (max_sessions =? 0) eqn:E.
    - apply Z.eqb_eq in E. subst max_sessions. simpl. lia.
    - apply Z.eqb_neq in E. lia. }
  destruct (max_sessions <? Z.of_nat (List.length active)) eqn:Hlt.
  - assert (Hslice : py_slice_from max_sessions active = skipn kept active).
    { unfold py_slice_from, kept. destruct (max_sessions =? 0) eqn:E.
      - apply Z.eqb_eq in E. subst max_sessions. reflexivity.
      - apply Z.eqb_neq in E.
        replace (0 <=? max_sessions) with false by (symmetry; apply Z.leb_gt; lia).
        reflexivity. }
    rewrite Hslice.
    destruct (revoke_from_position user_id now db kept Hpk) as [db' [Hrun Hafter]].
    fold active in Hrun, Hafter.
    exists db'. split; [exact Hrun |]. split; [exact Hafter | exact Hlen].
  - (* only possible with a limit of 0 and no active session *)
    apply Z.ltb_ge in Hlt.
    assert (Hnil : active = []).
    { destruct active; [reflexivity | simpl in Hlt; lia]. }
    exists db. split; [| split].
    + rewrite Hnil, skipn_nil. reflexivity.
    + rewrite get_active_session_tokens_eq. fold active.
      rewrite Hnil, firstn_nil. reflexivity.
    + exact Hlen.
Qed.

(** ** Constraints of the table along a history *)

Lemma keeps_secrets_update p now db : keeps_secrets db (fst (update_revoke p now db)).
Proof.
  unfold keeps_secrets, unique_secrets. simpl. intro H.
  rewrite map_map. erewrite map_ext; [exact H |].
  intro r. simpl. destruct (p r); reflexivity.
Qed.

Lemma keeps_secrets_delete p db : keeps_secrets db (fst (delete_where p db)).
Proof.
  unfold keeps_secrets, unique_secrets. simpl.
  induction (refreshtokens db) as [| a l IH]; simpl; intro H; [constructor |].
  apply NoDup_cons_iff in H. destruct H as [Hfresh Hrest].
  destruct (negb (p a)); simpl; [| apply IH; exact Hrest].
  constructor; [| apply IH; exact Hrest].
  intro Hin. apply Hfresh. apply in_map_iff in Hin. destruct Hin as [b [Hb Hin]].
  apply filter_In in Hin. apply in_map_iff. exists b. tauto.
Qed.

Lemma keeps_secrets_insert user_id token expires_at user_agent ip_address now db :
  keeps_secrets db
    (fst (insert_refresh_token user_id token expires_at user_agent ip_address now db)).
Proof.
  unfold keeps_secrets, unique_secrets, insert_refresh_token.
  destruct (existsb _ (users db)); simpl; [| intro H; exact H].
  destruct (existsb _ (refreshtokens db)) eqn:E; simpl; intro H; [exact H |].
  rewrite map_app. simpl. apply NoDup_app.
  - exact H.
  - constructor; [intros [] | constructor].
  - intros s Hs [<- | []]. apply in_map_iff in Hs. destruct Hs as [r [Ht Hr]].
    assert (existsb (fun r => String.eqb (RefreshToken.token r) token) (refreshtokens db)
            = true).
    { apply existsb_exists. exists r. split; [exact Hr | apply String.eqb_eq; exact Ht]. }
    congruence.
Qed.

Section Constraints.

Variable settings : Settings.
Variable jwt_encode : Claims -> string.
Variable verify_password : string -> string -> bool.

(** X18.  The constraints the table is declared with hold along every
    history of operations: ids stay pairwise distinct and below the id
    sequence, and no two rows ever carry the same secret. *)
Theorem run_keeps_table_constraints (history : list (operation * Z)) (db : Database) :
  well_keyed db ->
  unique_secrets db ->
  well_keyed (run settings jwt_encode verify_password history db)
  /\ unique_secrets (run settings jwt_encode verify_password history db).
Proof.
  intros Hkeys Hsecrets. split.
  - apply run_well_keyed. exact Hkeys.
  - revert Hsecrets.
    apply (run_respects settings jwt_encode verify_password keeps_secrets).
    + intros d H. exact H.
    + intros a b c Hab Hbc H. exact (Hbc (Hab H)).
    + apply keeps_secrets_update.
    + apply keeps_secrets_delete.
    + apply keeps_secrets_insert.
Qed.

(** *** Relations the routes respect *)

Section RouteRespects.

Variable R : Database -> Database -> Prop.
Hypothesis R_refl : forall db, R db db.
Hypothesis R_trans : forall a b c, R a b -> R b c -> R a c.
Hypothesis R_update : forall p now db, R db (fst (update_revoke p now db)).
Hypothesis R_delete : forall p db, R db (fst (delete_where p db)).
Hypothesis R_store :
  forall user_id token request now db,
    R db (fst (store_refresh_token settings user_id token request true now db)).

Ltac route_step :=
  first
    [ apply (respects_ret R R_refl)
    | apply (respects_raise R R_refl)
    | apply (respects_select R R_refl)
    | apply (respects_find R R_refl)
    | apply (respects_update R R_update)
    | apply (respects_delete R R_delete)
    | apply (respects_bind R R_trans); [| intro]
    | match goal with
      | |- respects R (if ?b then _ else _) => destruct b
      | |- respects R (match ?x with _ => _ end) => destruct x
      end ].

Lemma route_set_auth_tokens request user_id public_id rnd now :
  respects R (set_auth_tokens settings jwt_encode request user_id public_id rnd now).
Proof.
  unfold set_auth_tokens. apply (respects_bind R R_trans).
  - intro db. apply R_store.
  - intro. apply (respects_ret R R_refl).
Qed.

Lemma route_revoke token now : respects R (revoke_refresh_token token now).
Proof. unfold revoke_refresh_token. repeat route_step. Qed.

Lemma route_limit user_id max_sessions now :
  respects R (limit_active_sessions user_id max_sessions now).
Proof.
  unfold limit_active_sessions, get_active_session_tokens. repeat route_step.
Qed.

Lemma route_refresh request cookie body rnd now :
  respects R (refresh_tokens settings jwt_encode request cookie body rnd now).
Proof.
  unfold refresh_tokens.
  destruct (py_or _ cookie) as [tok |]; [| apply (respects_raise R R_refl)].
  destruct (negb (str_truthy tok)); [apply (respects_raise R R_refl) |].
  apply (respects_bind R R_trans).
  { unfold validate_refresh_token. repeat route_step. }
  intros [stored |]; [| apply (respects_raise R R_refl)].
  apply (respects_bind R R_trans); [apply (respects_find R R_refl) |].
  intros [u |]; [| apply (respects_raise R R_refl)].
  destruct (negb (User.id u =? RefreshToken.user_id stored));
    [apply (respects_raise R R_refl) |].
  apply (respects_bind R R_trans); [apply route_revoke | intro].
  apply route_set_auth_tokens.
Qed.

Lemma route_login request user_data rnd now :
  respects R (auth_user settings jwt_encode verify_password request user_data rnd now).
Proof.
  unfold auth_user. apply (respects_bind R R_trans).
  - unfold authenticate_user. repeat route_step.
  - intros [u |]; [apply route_set_auth_tokens | apply (respects_raise R R_refl)].
Qed.

Lemma perform_route_respects op now db :
  is_route op = true -> R db (perform settings jwt_encode verify_password op now db).
Proof.
  destruct op; unfold perform; simpl is_route; intro Hroute.
  - subst revoke_same_device. apply R_store.
  - apply R_refl.
  - apply route_revoke.
  - unfold revoke_all_user_refresh_tokens. apply R_update.
  - assert (H : respects R (revoke_session_by_id token_id user_id now))
      by (unfold revoke_session_by_id; repeat route_step).
    apply H.
  - apply R_refl.
  - apply route_limit.
  - unfold cleanup_expired_tokens. apply R_delete.
  - apply route_login.
  - apply route_refresh.
  - assert (H : respects R (logout_user user cookie all_devices now)).
    { unfold logout_user. destruct all_devices.
      - apply (respects_bind R R_trans); [| intro; apply (respects_ret R R_refl)].
        unfold revoke_all_user_refresh_tokens. apply (respects_update R R_update).
      - destruct (opt_truthy cookie); [| apply (respects_ret R R_refl)].
        apply (respects_bind R R_trans);
          [apply route_revoke | intro; apply (respects_ret R R_refl)]. }
    apply H.
  - assert (H : respects R (revoke_session session_id user now)).
    { unfold revoke_session, revoke_session_by_id. repeat route_step. }
    apply H.
  - assert (H : respects R (limit_sessions max_sessions user now)).
    { unfold limit_sessions. destruct (max_sessions <? 1);
        [apply (respects_raise R R_refl) | apply route_limit]. }
    apply H.
Qed.

Lemma run_route_respects history db :
  forallb (fun step => is_route (fst step)) history = true ->
  R db (run settings jwt_encode verify_password history db).
Proof.
  revert db. induction history as [| [op now] rest IH]; intros db H; simpl.
  - apply R_refl.
  - simpl in H. apply andb_true_iff in H. destruct H as [Hop Hrest].
    apply R_trans with (perform settings jwt_encode verify_password op now db).
    + apply perform_route_respects. exact Hop.
    + apply IH. exact Hrest.
Qed.

End RouteRespects.

Lemma keeps_one_per_device_update p now db :
  keeps_one_per_device db (fst (update_revoke p now db)).
Proof.
  intros H r1 r2 H1 H2 Hr1 Hr2 Hu Ha Ht. simpl in H1, H2.
  apply in_map_iff in H1. destruct H1 as [a [<- Ha1]].
  apply in_map_iff in H2. destruct H2 as [b [<- Hb1]].
  destruct (p a); [discriminate Hr1 |]. destruct (p b); [discriminate Hr2 |].
  apply H; assumption.
Qed.

Lemma keeps_one_per_device_delete p db :
  keeps_one_per_device db (fst (delete_where p db)).
Proof.
  intros H r1 r2 H1 H2. simpl in H1, H2.
  apply filter_In in H1. apply filter_In in H2. apply H; tauto.
Qed.

Lemma atomic_Raise {A} (c : M A) db db' e :
  atomic c db = (db', Raise e) -> db' = db.
Proof.
  unfold atomic. destruct (c db) as [db1 [a | e1]]; intro H; inversion H; reflexivity.
Qed.

Lemma revoked_by_store_matches user_id ua r :
  opt_truthy ua = true ->
  RefreshToken.user_id r = user_id ->
  RefreshToken.user_agent r = ua ->
  RefreshToken.is_revoked r = false ->
  revoked_by_store true user_id ua r = true.
Proof.
  intros Ht Hu Ha Hr. unfold revoked_by_store, same_device, sql_eq_str.
  rewrite Ht, Hu, Ha, Hr, Z.eqb_refl. simpl.
  destruct ua as [v |]; [| discriminate Ht]. rewrite String.eqb_refl. reflexivity.
Qed.

Lemma keeps_one_per_device_store user_id token request now db :
  keeps_one_per_device db
    (fst (store_refresh_token settings user_id token request true now db)).
Proof.
  destruct (store_refresh_token settings user_id token request true now db)
    as [db' [row | e]] eqn:E; simpl.
  - apply store_refresh_token_inv in E. destruct E as [_ [Hrow Hdb]].
    set (ua := recorded_agent request) in *.
    set (g := fun r => if revoked_by_store true user_id ua r
                       then RefreshToken.revoke now r else r) in *.
    intros H r1 r2 H1 H2 Hr1 Hr2 Hu Ha Ht.
    rewrite Hdb in H1, H2. simpl in H1, H2.
    assert (Hold : forall r, In r (map g (refreshtokens db)) ->
                             RefreshToken.is_revoked r = false ->
                             In r (refreshtokens db)
                             /\ revoked_by_store true user_id ua r = false).
    { intros r Hr Hrev. apply in_map_iff in Hr. destruct Hr as [a [<- Hain]].
      unfold g in *. destruct (revoked_by_store true user_id ua a) eqn:Ea;
        [discriminate Hrev |]. split; [exact Hain | exact Ea]. }
    assert (Hnew : forall r, In r (map g (refreshtokens db)) ->
                             RefreshToken.is_revoked r = false ->
                             RefreshToken.user_id r = RefreshToken.user_id row ->
                             RefreshToken.user_agent r = RefreshToken.user_agent row ->
                             opt_truthy (RefreshToken.user_agent r) = true -> False).
    { intros r Hr Hrev Huid Hagent Htruthy.
      destruct (Hold r Hr Hrev) as [_ Hno].
      rewrite Hrow in Huid, Hagent. simpl in Huid, Hagent.
      rewrite (revoked_by_store_matches user_id ua r) in Hno; try assumption.
      - discriminate Hno.
      - rewrite <- Hagent. exact Htruthy. }
    apply in_app_or in H1. apply in_app_or in H2.
    destruct H1 as [H1 | [<- | []]], H2 as [H2 | [<- | []]].
    + apply H; try assumption; apply Hold; assumption.
    + exfalso. apply (Hnew r1 H1 Hr1 Hu Ha Ht).
    + exfalso. apply (Hnew r2 H2 Hr2); [symmetry; exact Hu | symmetry; exact Ha |].
      rewrite <- Ha. exact Ht.
    + reflexivity.
  - unfold store_refresh_token in E. apply atomic_Raise in E. subst db'.
    intro H. exact H.
Qed.

(** X19.  One session per device: when no two non-revoked rows have the same
    owner and the same non-empty user-agent, this is still so after any
    history of the operations, provided tokens are stored the way the routes
    store them, with revoke-same-device on. *)
Theorem run_keeps_one_session_per_device
    (history : list (operation * Z)) (db : Database) :
  forallb (fun step => is_route (fst step)) history = true ->
  one_per_device db ->
  one_per_device (run settings jwt_encode verify_password history db).
Proof.
  intros Hroute.
  apply (run_route_respects keeps_one_per_device).
  - intros d H. exact H.
  - intros a b c Hab Hbc H. exact (Hbc (Hab H)).
  - apply keeps_one_per_device_update.
  - apply keeps_one_per_device_delete.
  - apply keeps_one_per_device_store.
  - exact Hroute.
Qed.

End Constraints.

(** ** Sessions never multiply *)

Lemma filter_map_shrinks {A} (p : A -> bool) (g : A -> A) (l : list A) :
  (forall x, p (g x) = true -> p x = true) ->
  (List.length (filter p (map g l)) <= List.length (filter p l))%nat.
Proof.
  intro H. induction l as [| a l IH]; simpl; [lia |].
  destruct (p (g a)) eqn:E.
  - rewrite (H a E). simpl. lia.
  - destruct (p a); simpl; lia.
Qed.

Lemma filter_map_drops {A} (p : A -> bool) (g : A -> A) (l : list A) (a : A) :
  (forall x, p (g x) = true -> p x = true) ->
  In a l -> p a = true -> p (g a) = false ->
  (List.length (filter p (map g l)) < List.length (filter p l))%nat.
Proof.
  intros H Hin Ha Hga. induction l as [| b l IH]; simpl; [contradiction |].
  destruct Hin as [-> | Hin].
  - rewrite Hga, Ha. simpl.
    pose proof (filter_map_shrinks p g l H). lia.
  - specialize (IH Hin). destruct (p (g b)) eqn:E.
    + rewrite (H b E). simpl. lia.
    + destruct (p b); simpl; lia.
Qed.

Section Rotating.

Variable settings : Settings.
Variable jwt_encode : Claims -> string.

(** X20.  A successful refresh never leaves a user with more non-revoked
    refresh tokens than before: the owner of the presented token loses at
    least that one and gains the replacement, and nobody else gains any. *)
Theorem refresh_tokens_never_adds_sessions
    (request : Request) (cookie : option string) (body : option RefreshTokenBody)
    (rnd : Entropy) (now : Z) (db db' : Database) (resp : TokenResponse) :
  refresh_tokens settings jwt_encode request cookie body rnd now db
    = (db', Return resp) ->
  forall user_id,
    (List.length (filter (unrevoked_of user_id) (refreshtokens db'))
     <= List.length (filter (unrevoked_of user_id) (refreshtokens db)))%nat.
Proof.
  intros H user_id. apply refresh_tokens_effect in H.
  destruct H as [tok [stored [row [_ [_ [Hin [Hvalid [_ [_ [Hrow [_ Hdb]]]]]]]]]]].
  apply is_valid_iff in Hvalid. destruct Hvalid as [Htok [Hrev _]].
  set (g := fun r => if revoked_by_refresh tok (RefreshToken.user_id stored)
                          (header_user_agent request) r
                     then RefreshToken.revoke now r else r) in *.
  assert (Hg : forall x, unrevoked_of user_id (g x) = true -> unrevoked_of user_id x = true).
  { intros x. unfold g. destruct (revoked_by_refresh _ _ _ x); [| tauto].
    unfold unrevoked_of. simpl. rewrite andb_false_r. discriminate. }
  rewrite Hdb. simpl. rewrite filter_app, length_app. simpl.
  destruct (unrevoked_of user_id row) eqn:Erow; simpl.
  - assert (Hu : RefreshToken.user_id stored = user_id).
    { unfold unrevoked_of in Erow. rewrite Hrow in Erow. simpl in Erow.
      rewrite andb_true_r in Erow. apply Z.eqb_eq in Erow. exact Erow. }
    assert (Hlt : (List.length (filter (unrevoked_of user_id) (map g (refreshtokens db)))
                   < List.length (filter (unrevoked_of user_id) (refreshtokens db)))%nat).
    { apply filter_map_drops with (a := stored); [exact Hg | exact Hin | |].
      - unfold unrevoked_of. rewrite Hu, Hrev, Z.eqb_refl. reflexivity.
      - unfold g, revoked_by_refresh. rewrite Htok, String.eqb_refl. simpl.
        unfold unrevoked_of. simpl. apply andb_false_r. }
    lia.
  - pose proof (filter_map_shrinks (unrevoked_of user_id) g (refreshtokens db) Hg). lia.
Qed.

(** X21.  Logging out everywhere closes the refresh path: when secrets are
    unique, a refresh presenting the secret of any row of the user, at any
    time after [revoke_all_user_refresh_tokens], is refused with the
    invalid-or-expired error and changes nothing. *)
Theorem revoke_all_then_refresh_fails
    (user_id : Z) (now : Z) (db : Database) (r : RefreshToken.t)
    (request : Request) (cookie : option string) (body : option RefreshTokenBody)
    (rnd : Entropy) (now' : Z) :
  unique_secrets db ->
  In r (refreshtokens db) ->
  RefreshToken.user_id r = user_id ->
  RefreshToken.token r <> "" ->
  token_to_use cookie body = Some (RefreshToken.token r) ->
  let db1 := fst (revoke_all_user_refresh_tokens user_id now db) in
  refresh_tokens settings jwt_encode request cookie body rnd now' db1
    = (db1, Raise (HTTP NoValidRefreshTokenException)).
Proof.
  intros Huniq Hin Hu Hne Htok db1.
  apply refresh_tokens_not_active with (tok := RefreshToken.token r);
    [exact Htok | exact Hne |].
  assert (Hall : all_revoked (RefreshToken.token r) (refreshtokens db1)).
  { unfold db1. rewrite revoke_all_user_refresh_tokens_eq. simpl.
    intros x Hx Ht. apply in_map_iff in Hx. destruct Hx as [a [<- Ha]].
    assert (Ea : a = r).
    { apply (NoDup_map_In_inj RefreshToken.token (refreshtokens db)); try assumption.
      rewrite <- Ht.
      destruct ((RefreshToken.user_id a =? user_id) && negb (RefreshToken.is_revoked a));
        reflexivity. }
    subst a. rewrite Hu, Z.eqb_refl. simpl.
    destruct (RefreshToken.is_revoked r) eqn:E; simpl; [exact E | reflexivity]. }
  assert (Hnil : filter (is_valid (RefreshToken.token r) now') (refreshtokens db1) = []).
  { apply filter_nil_iff. intros x Hx.
    destruct (is_valid (RefreshToken.token r) now' x) eqn:E; [| reflexivity].
    apply is_valid_iff in E. destruct E as [Ht [Hr _]].
    rewrite (Hall x Hx Ht) in Hr. discriminate Hr. }
  rewrite Hnil. reflexivity.
Qed.

End Rotating.

(** X22.  Capping is idempotent: after [limit_active_sessions] with a limit
    that is not negative, a second call with the same limit at the same time
    revokes nothing and returns 0. *)
Theorem limit_active_sessions_twice
    (user_id max_sessions now : Z) (db : Database) :
  NoDup (map RefreshToken.id (refreshtokens db)) ->
  0 <= max_sessions ->
  let db1 := fst (limit_active_sessions user_id max_sessions now db) in
  limit_active_sessions user_id max_sessions now db1 = (db1, Return 0).
Proof.
  intros Hpk Hge db1.
  assert (Hafter : (List.length
                      (order_by_created_at_desc
                         (filter (is_active_of user_id now) (refreshtokens db1)))
                    <= Z.to_nat max_sessions)%nat).
  { unfold db1. rewrite limit_active_sessions_eq.
    destruct (max_sessions <? _) eqn:E.
    - unfold py_slice_from.
      replace (0 <=? max_sessions) with true by (symmetry; apply Z.leb_le; exact Hge).
      destruct (revoke_from_position user_id now db (Z.to_nat max_sessions) Hpk)
        as [db' [Hrun Hact]].
      rewrite Hrun. simpl. rewrite get_active_session_tokens_eq in Hact.
      inversion Hact as [Hlist]. rewrite Hlist. rewrite length_firstn. lia.
    - simpl. apply Z.ltb_ge in E. lia. }
  rewrite limit_active_sessions_eq.
  replace (max_sessions <? _) with false; [reflexivity |].
  symmetry. apply Z.ltb_ge. lia.
Qed.

(** ** Who may act *)

Section Guards.

Variable jwt_decode : string -> Z -> option Claims.
Variable uuid_of_text : string -> option string.

Lemma get_current_user_outcome token now db :
  fst (get_current_user jwt_decode uuid_of_text token now db) = db
  /\ forall u, snd (get_current_user jwt_decode uuid_of_text token now db) = Return u ->
               In u (users db).
Proof.
  unfold get_current_user.
  destruct (jwt_decode token now) as [payload |]; [| split; [reflexivity | discriminate]].
  destruct (exp payload) as [e |]; [| split; [reflexivity | discriminate]].
  destruct ((e <? min_timestamp) || (max_timestamp <? e));
    [split; [reflexivity | discriminate] |].
  destruct ((e =? 0) || (e * usec_per_second <? now));
    [split; [reflexivity | discriminate] |].
  destruct (negb (opt_truthy (sub payload))); [split; [reflexivity | discriminate] |].
  unfold bind, UsersDAO.find_one_or_none_by_public_id.
  destruct (uuid_of_text _); [| split; [reflexivity | discriminate]].
  unfold UsersDAO.find_one_or_none.
  match goal with
  | |- context [filter ?p (users db)] =>
      destruct (filter p (users db)) as [| x [| y l]] eqn:F; simpl;
      try (split; [reflexivity | discriminate]);
      split; [reflexivity |]; intros u E; inversion E; subst x;
      assert (Hu : In u (filter p (users db))) by (rewrite F; left; reflexivity);
      apply filter_In in Hu; tauto
  end.
Qed.

Lemma with_current_user_inv {A} authorization cookie now (route : User.t -> M A) db :
  (exists token u,
     get_token authorization cookie = Return token
     /\ get_current_user jwt_decode uuid_of_text token now db = (db, Return u)
     /\ with_current_user jwt_decode uuid_of_text authorization cookie now route db = route u db)
  \/ (exists e,
        with_current_user jwt_decode uuid_of_text authorization cookie now route db = (db, Raise e)).
Proof.
  unfold with_current_user.
  destruct (get_token authorization cookie) as [token | e];
    [| right; exists e; reflexivity].
  pose proof (get_current_user_outcome token now db) as [Hfst _].
  unfold bind.
  destruct (get_current_user jwt_decode uuid_of_text token now db) as [db1 [u | e]] eqn:E;
    simpl in Hfst; subst db1.
  - left. exists token, u. split; [reflexivity |]. split; [exact E | reflexivity].
  - right. exists e. reflexivity.
Qed.

(** X23.  Only an administrator purges.  When a request to the cleanup route
    deletes rows or returns a count, its access token was read off the
    request by [get_token], [get_current_user] resolved it to a stored user,
    and that user's role id is 3 or 4; every request that ends in an error
    leaves the database untouched. *)
Theorem cleanup_expired_tokens_request_requires_admin
    (authorization cookie : option string) (now : Z) (db : Database) :
  exists db' res,
    cleanup_expired_tokens_request jwt_decode uuid_of_text authorization cookie now db = (db', res)
    /\ (forall e, res = Raise e -> db' = db)
    /\ (forall n, res = Return n ->
          (db', res) = cleanup_expired_tokens now db
          /\ exists token u,
               get_token authorization cookie = Return token
               /\ get_current_user jwt_decode uuid_of_text token now db = (db, Return u)
               /\ In u (users db)
               /\ (User.role_id u = 3 \/ User.role_id u = 4)).
Proof.
  unfold cleanup_expired_tokens_request, with_current_admin_user.
  destruct (with_current_user_inv authorization cookie now
              (fun current_user =>
                 user_data <- get_current_admin_user current_user ;;
                 cleanup_expired_tokens_route now) db)
    as [[token [u [Htok [Hu Hrun]]]] | [e Hrun]]; rewrite Hrun.
  - unfold bind, get_current_admin_user.
    destruct (existsb (Z.eqb (User.role_id u)) [3; 4]) eqn:Erole.
    + unfold ret. eexists. eexists. split; [reflexivity |]. split.
      * intros e H. discriminate H.
      * intros n _. split; [reflexivity |]. exists token, u.
        split; [exact Htok |]. split; [exact Hu |]. split.
        -- pose proof (get_current_user_outcome token now db) as [_ Hs].
           rewrite Hu in Hs. exact (Hs u eq_refl).
        -- simpl in Erole. rewrite orb_false_r in Erole.
           apply orb_true_iff in Erole. rewrite !Z.eqb_eq in Erole. exact Erole.
    + unfold raise. exists db, (Raise (HTTP ForbiddenException)).
      split; [reflexivity |]. split; [reflexivity |]. intros n H. discriminate H.
  - exists db, (Raise e). split; [reflexivity |]. split; [reflexivity |].
    intros n H. discriminate H.
Qed.

(** X24.  The session routes act for the authenticated caller only: a request
    to cap sessions or to revoke a session either ends in an error raised
    before the route runs, with the database untouched, or does what
    [limit_sessions] and [revoke_session] do for the very user
    [get_current_user] resolved from the request's token; in the second case
    every row the request changes belongs to that user. *)
Theorem session_requests_act_for_caller
    (authorization cookie : option string) (now : Z) (db : Database) :
  (exists e,
     (forall max_sessions,
        limit_sessions_request jwt_decode uuid_of_text authorization cookie max_sessions now db
        = (db, Raise e))
     /\ (forall session_id,
           revoke_session_request jwt_decode uuid_of_text authorization cookie session_id now db
           = (db, Raise e)))
  \/ (exists token u,
        get_token authorization cookie = Return token
        /\ get_current_user jwt_decode uuid_of_text token now db = (db, Return u)
        /\ (forall max_sessions,
              limit_sessions_request jwt_decode uuid_of_text authorization cookie max_sessions now db
              = limit_sessions max_sessions u now db)
        /\ (forall session_id,
              revoke_session_request jwt_decode uuid_of_text authorization cookie session_id now db
              = revoke_session session_id u now db)
        /\ (forall session_id r,
              In r (refreshtokens db) ->
              RefreshToken.user_id r <> User.id u ->
              In r (refreshtokens
                      (fst (revoke_session_request jwt_decode uuid_of_text authorization cookie
                              session_id now db))))).
Proof.
  unfold limit_sessions_request, revoke_session_request, with_current_user.
  destruct (get_token authorization cookie) as [token | e].
  - pose proof (get_current_user_outcome token now db) as [Hfst _].
    unfold bind.
    destruct (get_current_user jwt_decode uuid_of_text token now db) as [db1 [u | e]] eqn:E;
      simpl in Hfst; subst db1.
    + right. exists token, u. split; [reflexivity |]. split; [exact E |].
      split; [reflexivity |]. split; [reflexivity |].
      intros session_id r Hr Hne. unfold revoke_session, bind.
      rewrite revoke_session_by_id_eq.
      assert (Hkeep : In r (map (fun x => if owned_by session_id (User.id u) x
                                          then RefreshToken.revoke now x else x)
                                (refreshtokens db))).
      { apply in_map_iff. exists r. split; [| exact Hr]. unfold owned_by.
        replace (RefreshToken.user_id r =? User.id u) with false
          by (symmetry; apply Z.eqb_neq; exact Hne).
        rewrite andb_false_r. reflexivity. }
      destruct (negb (existsb (owned_by session_id (User.id u)) (refreshtokens db)));
        exact Hkeep.
    + left. exists e. split; reflexivity.
  - left. exists e. split; reflexivity.
Qed.

End Guards.

(** * Further worked scenarios *)

Module MoreScenarios.

Import Fixtures MoreFixtures.

(** X6 at work: after a sweep at 3000, the secret issued by the refresh is
    still found at 4000. *)
Lemma cleanup_expired_tokens_is_invisible_witness :
  3000 <= 4000
  /\ validate_refresh_token "r3" 4000 (fst (cleanup_expired_tokens 3000 after_refresh))
     = (fst (cleanup_expired_tokens 3000 after_refresh),
        Return (Some (RefreshToken.mk 3 3000 3000 1 "r3" 604800003000 false
                        (Some "B") (Some "10.0.0.2")))).
Proof.
  assert (H : 3000 <= 4000) by lia.
  split; [exact H |].
  destruct (cleanup_expired_tokens_is_invisible 3000 4000 after_refresh H) as [Hv _].
  exact (Hv "r3").
Defined.

(** X7 at work: the session of device A at the instant it expires. *)
Lemma expiry_instant_is_inactive_and_kept_witness :
  In session_a (refreshtokens (fst (cleanup_expired_tokens 604800001000 two_devices)))
  /\ validate_refresh_token "r1" 604800001000 two_devices = (two_devices, Return None).
Proof.
  assert (Hin : In session_a (refreshtokens two_devices)) by (left; reflexivity).
  destruct (expiry_instant_is_inactive_and_kept session_a 604800001000 two_devices
              Hin eq_refl eq_refl) as [_ [_ Hkept]].
  split; [exact Hkept | reflexivity].
Defined.

(** X8 at work: Alice's username and password. *)
Lemma authenticate_user_decides_witness :
  authenticate_user verify "alice" "secret" empty_db = (empty_db, Return (Some alice)).
Proof.
  assert (Hnames : NoDup (map User.username (users empty_db)))
    by (simpl; repeat constructor; intros []).
  assert (Hemails : NoDup (map User.email (users empty_db)))
    by (simpl; repeat constructor; intros []).
  destruct (authenticate_user_decides verify "alice" "secret" empty_db Hnames Hemails)
    as [found [Hrun Hiff]].
  assert (E : found = Some alice).
  { apply Hiff. split; [left; reflexivity |]. split; reflexivity. }
  rewrite E in Hrun. exact Hrun.
Defined.

(** X9 at work: a token stored at 1000 is found at 2000. *)
Lemma store_refresh_token_then_validate_witness :
  validate_refresh_token "r1" 2000 (mkDatabase [alice] [session_a] 2)
  = (mkDatabase [alice] [session_a] 2, Return (Some session_a)).
Proof.
  assert (H : store_refresh_token default_settings 1 "r1" (Some device_a) true 1000 empty_db
              = (mkDatabase [alice] [session_a] 2, Return session_a)) by reflexivity.
  destruct (store_refresh_token_then_validate default_settings _ _ _ _ _ _ _ _ H)
    as [_ [_ [_ [_ [_ [Hfound _]]]]]].
  apply Hfound. reflexivity.
Defined.

(** X10 at work: Alice's first login. *)
Lemma auth_user_frame_witness :
  exists u row,
    In u (users empty_db)
    /\ verify "secret" (User.password u) = true
    /\ refreshtokens (mkDatabase [alice] [session_a] 2)
       = map (fun r => if revoked_by_store true (User.id u) (Some "A") r
                       then RefreshToken.revoke 1000 r else r)
             (refreshtokens empty_db) ++ [row].
Proof.
  assert (H : auth_user default_settings encode verify device_a credentials
                (mkEntropy "j1" "r1") 1000 empty_db
              = (mkDatabase [alice] [session_a] 2,
                 Return (mkTokenResponse "jwt:pub-alice" "r1" 900))) by reflexivity.
  destruct (auth_user_frame default_settings encode verify _ _ _ _ _ _ _ H)
    as [u [row [H1 [_ [H3 [_ [_ [_ [H7 _]]]]]]]]].
  exists u, row. split; [exact H1 |]. split; [exact H3 | exact H7].
Defined.

(** X11 at work: Alice's username with another password. *)
Lemma auth_user_rejects_bad_credentials_witness :
  auth_user default_settings encode verify device_a wrong_credentials
    (mkEntropy "j1" "r1") 1000 two_devices
  = (two_devices, Raise (HTTP IncorrectEmailOrPasswordException)).
Proof.
  apply auth_user_rejects_bad_credentials.
  - simpl. repeat constructor. intros [].
  - simpl. repeat constructor. intros [].
  - intros u [<- | []] _. reflexivity.
Defined.

(** X12 at work: the secret a refresh hands out is found afterwards. *)
Lemma refresh_tokens_hands_out_valid_token_witness :
  exists row,
    validate_refresh_token "r3" 4000 after_refresh = (after_refresh, Return (Some row))
    /\ RefreshToken.user_id row = 1.
Proof.
  assert (H : refresh_tokens default_settings encode device_b (Some "r1") None
                (mkEntropy "j3" "r3") 3000 two_devices
              = (after_refresh, Return (mkTokenResponse "jwt:pub-alice" "r3" 900)))
    by reflexivity.
  destruct (refresh_tokens_hands_out_valid_token default_settings encode
              _ _ _ _ _ _ _ _ H)
    as [tok [stored [row [_ [Hin [_ [_ [_ [_ [Hu [_ [_ Hfound]]]]]]]]]]]].
  exists row. split.
  - apply Hfound. reflexivity.
  - rewrite Hu. destruct Hin as [<- | [<- | []]]; reflexivity.
Defined.

(** X16 at work: the access token issued to Bob, one minute after issue, at
    the instant of its [exp], one microsecond later and one second later. *)
Lemma issued_access_token_authenticates_witness :
  get_current_user decode_issued read_uuid (access_token bob_response)
    (issue_time + 60000000) bob_logged_in = (bob_logged_in, Return bob)
  /\ get_current_user decode_issued read_uuid (access_token bob_response)
       (issue_time + 900000000) bob_logged_in = (bob_logged_in, Return bob)
  /\ get_current_user decode_issued read_uuid (access_token bob_response)
       (issue_time + 900000001) bob_logged_in
     = (bob_logged_in, Raise (HTTP TokenExpiredException))
  /\ get_current_user decode_issued read_uuid (access_token bob_response)
       (issue_time + 901000000) bob_logged_in
     = (bob_logged_in, Raise (HTTP NoJwtException)).
Proof.
  assert (H : set_auth_tokens default_settings encode device_a 2 (User.public_id bob)
                (mkEntropy "j1" "r1") issue_time two_users
              = (bob_logged_in, Return bob_response)) by reflexivity.
  assert (Hin : In bob (users two_users)) by (right; left; reflexivity).
  assert (Hnd : NoDup (map User.public_id (users two_users))).
  { simpl. constructor; [intros [E | []]; discriminate E |].
    constructor; [intros [] | constructor]. }
  assert (Hpub : User.public_id bob <> "") by discriminate.
  assert (Hread : read_uuid (User.public_id bob) = Some (User.public_id bob))
    by reflexivity.
  assert (Hrange : 0 < minted_exp default_settings issue_time <= max_timestamp)
    by (vm_compute; split; [reflexivity | discriminate]).
  pose proof (fun now' =>
                issued_access_token_authenticates default_settings encode signed_issued
                  read_uuid device_a 2 bob (mkEntropy "j1" "r1") issue_time now'
                  _ _ _ H Hin Hnd Hpub Hread eq_refl Hrange) as Hall.
  split; [| split; [| split]].
  - destruct (Hall (issue_time + 60000000)) as [Hok _].
    apply Hok. vm_compute. discriminate.
  - destruct (Hall (issue_time + 900000000)) as [Hok _].
    apply Hok. vm_compute. discriminate.
  - destruct (Hall (issue_time + 900000001)) as [_ [_ [Hexpired _]]].
    apply Hexpired. vm_compute. split; reflexivity.
  - destruct (Hall (issue_time + 901000000)) as [_ [_ [_ Hrefused]]].
    apply Hrefused. vm_compute. discriminate.
Defined.

(** X17 at work: six active sessions and a limit of minus two. *)
Lemma limit_active_sessions_below_one_witness :
  exists db',
    limit_active_sessions 1 (-2) 100 six_sessions = (db', Return 2)
    /\ get_active_session_tokens 1 100 db'
       = (db', Return [session_at 6; session_at 5; session_at 4; session_at 3]).
Proof.
  assert (Hkeys : NoDup (map RefreshToken.id (refreshtokens six_sessions))).
  { simpl. repeat constructor; simpl; intuition discriminate. }
  assert (Hle : -2 <= 0) by lia.
  destruct (limit_active_sessions_below_one 1 (-2) 100 six_sessions Hkeys Hle)
    as [db' [Hrun [Hafter _]]].
  exists db'. split; [exact Hrun | exact Hafter].
Defined.

(** X18 at work: the later operations on the table the refresh left. *)
Lemma run_keeps_table_constraints_witness :
  unique_secrets (run default_settings encode verify later_history after_refresh).
Proof.
  assert (Hkeys : well_keyed after_refresh).
  { split.
    - simpl. repeat constructor; simpl; intuition discriminate.
    - intros r [<- | [<- | [<- | []]]]; reflexivity. }
  assert (Hsecrets : unique_secrets after_refresh).
  { unfold unique_secrets. simpl. repeat constructor; simpl; intuition discriminate. }
  exact (proj2 (run_keeps_table_constraints default_settings encode verify
                  later_history after_refresh Hkeys Hsecrets)).
Defined.

(** X19 at work: three logins on an empty table. *)
Lemma run_keeps_one_session_per_device_witness :
  one_per_device (run default_settings encode verify login_history empty_db).
Proof.
  apply run_keeps_one_session_per_device.
  - reflexivity.
  - intros r1 r2 [].
Defined.

(** X20 at work: the refresh from device B leaves Alice one open token
    where she had two. *)
Lemma refresh_tokens_never_adds_sessions_witness :
  (List.length (filter (unrevoked_of 1) (refreshtokens after_refresh))
   <= List.length (filter (unrevoked_of 1) (refreshtokens two_devices)))%nat.
Proof.
  assert (H : refresh_tokens default_settings encode device_b (Some "r1") None
                (mkEntropy "j3" "r3") 3000 two_devices
              = (after_refresh, Return (mkTokenResponse "jwt:pub-alice" "r3" 900)))
    by reflexivity.
  exact (refresh_tokens_never_adds_sessions default_settings encode _ _ _ _ _ _ _ _ H 1).
Defined.

(** X21 at work: Alice logs out everywhere at 3000, and the secret of
    device A is presented at 4000. *)
Lemma revoke_all_then_refresh_fails_witness :
  refresh_tokens default_settings encode device_a (Some "r1") None
    (mkEntropy "j4" "r4") 4000 (fst (revoke_all_user_refresh_tokens 1 3000 two_devices))
  = (fst (revoke_all_user_refresh_tokens 1 3000 two_devices),
     Raise (HTTP NoValidRefreshTokenException)).
Proof.
  assert (Huniq : unique_secrets two_devices).
  { unfold unique_secrets. simpl. repeat constructor; simpl; intuition discriminate. }
  assert (Hin : In session_a (refreshtokens two_devices)) by (left; reflexivity).
  assert (Hne : RefreshToken.token session_a <> "") by discriminate.
  exact (revoke_all_then_refresh_fails default_settings encode 1 3000 two_devices
           session_a device_a (Some "r1") None (mkEntropy "j4" "r4") 4000
           Huniq Hin eq_refl Hne eq_refl).
Defined.

(** X22 at work: six sessions capped to three, twice. *)
Lemma limit_active_sessions_twice_witness :
  limit_active_sessions 1 3 100 (fst (limit_active_sessions 1 3 100 six_sessions))
  = (fst (limit_active_sessions 1 3 100 six_sessions), Return 0).
Proof.
  assert (Hkeys : NoDup (map RefreshToken.id (refreshtokens six_sessions))).
  { simpl. repeat constructor; simpl; intuition discriminate. }
  assert (Hge : 0 <= 3) by lia.
  exact (limit_active_sessions_twice 1 3 100 six_sessions Hkeys Hge).
Defined.

End MoreScenarios.
